(** * SatyaMart: role/approval workflow and row-level-security layer

    A shallow embedding of the marketplace's persistence contract:
    the tables and row-level-security policies of
    [supabase/create_tables.sql], the sign-up provisioning of the
    [useAuth] hook, and the handlers of the Products, Orders and
    Approvals pages.

    Reading conventions.
    - A table is a list of rows, in insertion order.
    - [auth.uid()] is an [option uuid]; SQL equality with NULL is not
      true, so an anonymous caller satisfies no ownership predicate.
    - Policies of one table and command are permissive: they are
      OR-ed.  As PostgreSQL defines [create policy], a [using]
      predicate filters the rows a statement may see or modify (a
      filtered row is skipped, nothing is raised), and a [with check]
      predicate that a new row fails raises an error.  An update
      whose [where] reads the table is filtered by the select
      policies too, and an update policy without [with check] applies
      its [using] predicate to the new row.
    - Before a statement runs, the policies of its table are expanded
      into it, and so are the select policies of every table a policy
      sub-queries.  A table met again while its own policies are being
      expanded is an error ("infinite recursion detected in policy",
      SQLSTATE 42P17), raised for every caller and whatever the rows.
      The two superadmin policies of user_roles sub-query user_roles.
    - A request without [.select()] asks for no rows back: an insert
      is checked against the insert policies only.
    - Timestamps ([created_at], [updated_at], [order_date], ...) and
      columns no statement of the client writes are left out.
    - Prices are [decimal(10,2)]: they are kept as an integer number
      of hundredths; a value that does not fit its column is an error
      (SQLSTATE 22003).
    - Text is a sequence of bytes.  [toLowerCase] and [includes] are
      those of JavaScript on ASCII text; statements about the search
      box are about ASCII text. *)

From Stdlib Require Import List String Ascii ZArith Bool Lia PeanoNat.
From Stdlib Require DecimalString.
Import ListNotations.
Local Open Scope string_scope.
Local Open Scope list_scope.

Set Implicit Arguments.

(** ** Identifiers, text and nullable values *)

Definition uuid := nat.
Definition text := string.

(** SQL [a = b] where either side may be NULL. *)
Definition sql_eq_uuid (a b : option uuid) : bool :=
  match a, b with
  | Some x, Some y => Nat.eqb x y
  | _, _ => false
  end.

(** JS [a === b] on possibly-undefined strings against a literal. *)
Definition is_text (a : option text) (lit : text) : bool :=
  match a with
  | Some x => String.eqb x lit
  | None => false
  end.

Definition with_default (d : text) (a : option text) : text :=
  match a with
  | Some x => x
  | None => d
  end.

(** supabase-js [.single()]: the row when exactly one row came back. *)
Definition single (A : Type) (rows : list A) : option A :=
  match rows with
  | [x] => Some x
  | _ => None
  end.

(** ** Errors *)

Inductive constraint_kind :=
| NotNullViolation
| UniqueViolation
| CheckViolation
| ForeignKeyViolation.

(** [PolicyError] is a row refused by a [with check] policy (42501),
    [RecursionError] a policy that cannot be expanded (42P17),
    [NumericOverflow] a value outside its column's range (22003). *)
Inductive db_error :=
| PolicyError
| ConstraintError (k : constraint_kind)
| CardinalityError
| RecursionError
| NumericOverflow.

Inductive result (A : Type) :=
| Ok (a : A)
| Err (e : db_error).

Arguments Ok {A} a.
Arguments Err {A} e.

Definition bind (A B : Type) (r : result A) (k : A -> result B) : result B :=
  match r with
  | Ok a => k a
  | Err e => Err e
  end.

Notation "x <- r ;; k" := (bind r (fun x => k))
  (at level 61, r at next level, right associativity).
Notation "r ;;; k" := (bind r (fun _ => k))
  (at level 61, right associativity).

Definition require (b : bool) (e : db_error) : result unit :=
  if b then Ok tt else Err e.

Definition not_null (A : Type) (a : option A) : result A :=
  match a with
  | Some x => Ok x
  | None => Err (ConstraintError NotNullViolation)
  end.

(** ** Rows *)

Record user_role_row := {
  ur_id : uuid;
  ur_user_id : uuid;
  ur_role : text;
  ur_approval_status : text
}.

Record supplier_profile_row := {
  sp_id : uuid;
  sp_user_id : uuid;
  sp_full_name : option text;
  sp_business_name : option text;
  sp_business_type : option text;
  sp_business_address : option text;
  sp_contact_number : option text;
  sp_fssai_license : option text;
  sp_other_certifications : option (list text);
  sp_avatar_url : option text
}.

Record vendor_profile_row := {
  vp_id : uuid;
  vp_user_id : uuid;
  vp_full_name : option text;
  vp_company_name : option text;
  vp_contact_number : option text;
  vp_avatar_url : option text
}.

Record supplier_row := {
  s_id : uuid;
  s_user_id : uuid;
  s_name : text;
  s_contact_email : option text;
  s_contact_phone : option text;
  s_address : option text;
  s_logo_url : option text;
  s_website : option text;
  s_status : text
}.

Record product_row := {
  p_id : uuid;
  p_name : text;
  p_description : option text;
  p_unit_price : option Z;
  p_stock_quantity : option Z;
  p_min_stock_level : option Z;
  p_sku : option text;
  p_image_url : option text;
  p_status : option text;
  p_supplier_id : uuid
}.

Record order_row := {
  o_id : uuid;
  o_user_id : uuid;
  o_product_id : uuid;
  o_supplier_id : uuid;
  o_quantity : Z;
  o_unit_price : Z;
  o_total_amount : Z;
  o_status : text
}.

(** ** The database *)

Record db := {
  user_roles : list user_role_row;
  supplier_profiles : list supplier_profile_row;
  vendor_profiles : list vendor_profile_row;
  suppliers : list supplier_row;
  products : list product_row;
  orders : list order_row;
  next_uuid : uuid   (* stands for gen_random_uuid() *)
}.

Definition empty_db : db :=
  {| user_roles := []; supplier_profiles := []; vendor_profiles := [];
     suppliers := []; products := []; orders := []; next_uuid := 0 |}.

Definition add_user_role (r : user_role_row) (s : db) : db :=
  {| user_roles := s.(user_roles) ++ [r];
     supplier_profiles := s.(supplier_profiles);
     vendor_profiles := s.(vendor_profiles);
     suppliers := s.(suppliers);
     products := s.(products);
     orders := s.(orders);
     next_uuid := S s.(next_uuid) |}.

Definition set_user_roles (l : list user_role_row) (s : db) : db :=
  {| user_roles := l;
     supplier_profiles := s.(supplier_profiles);
     vendor_profiles := s.(vendor_profiles);
     suppliers := s.(suppliers);
     products := s.(products);
     orders := s.(orders);
     next_uuid := s.(next_uuid) |}.

Definition add_supplier_profile (r : supplier_profile_row) (s : db) : db :=
  {| user_roles := s.(user_roles);
     supplier_profiles := s.(supplier_profiles) ++ [r];
     vendor_profiles := s.(vendor_profiles);
     suppliers := s.(suppliers);
     products := s.(products);
     orders := s.(orders);
     next_uuid := S s.(next_uuid) |}.

Definition add_vendor_profile (r : vendor_profile_row) (s : db) : db :=
  {| user_roles := s.(user_roles);
     supplier_profiles := s.(supplier_profiles);
     vendor_profiles := s.(vendor_profiles) ++ [r];
     suppliers := s.(suppliers);
     products := s.(products);
     orders := s.(orders);
     next_uuid := S s.(next_uuid) |}.

Definition add_supplier (r : supplier_row) (s : db) : db :=
  {| user_roles := s.(user_roles);
     supplier_profiles := s.(supplier_profiles);
     vendor_profiles := s.(vendor_profiles);
     suppliers := s.(suppliers) ++ [r];
     products := s.(products);
     orders := s.(orders);
     next_uuid := S s.(next_uuid) |}.

Definition add_order (r : order_row) (s : db) : db :=
  {| user_roles := s.(user_roles);
     supplier_profiles := s.(supplier_profiles);
     vendor_profiles := s.(vendor_profiles);
     suppliers := s.(suppliers);
     products := s.(products);
     orders := s.(orders) ++ [r];
     next_uuid := S s.(next_uuid) |}.

Definition set_orders (l : list order_row) (s : db) : db :=
  {| user_roles := s.(user_roles);
     supplier_profiles := s.(supplier_profiles);
     vendor_profiles := s.(vendor_profiles);
     suppliers := s.(suppliers);
     products := s.(products);
     orders := l;
     next_uuid := s.(next_uuid) |}.

Definition set_products (l : list product_row) (s : db) : db :=
  {| user_roles := s.(user_roles);
     supplier_profiles := s.(supplier_profiles);
     vendor_profiles := s.(vendor_profiles);
     suppliers := s.(suppliers);
     products := l;
     orders := s.(orders);
     next_uuid := s.(next_uuid) |}.

Definition add_product (r : product_row) (s : db) : db :=
  {| user_roles := s.(user_roles);
     supplier_profiles := s.(supplier_profiles);
     vendor_profiles := s.(vendor_profiles);
     suppliers := s.(suppliers);
     products := s.(products) ++ [r];
     orders := s.(orders);
     next_uuid := S s.(next_uuid) |}.

(** ** Row-level-security policies ([create_tables.sql], lines 107-212) *)

Module Policy.

(** *** Expansion of policies into a statement *)

Inductive relation :=
| SupplierProfiles
| VendorProfiles
| Suppliers
| Products
| Orders
| UserRoles.

Inductive command :=
| Select
| Insert
| Update
| Delete.

Definition relation_eqb (a b : relation) : bool :=
  match a, b with
  | SupplierProfiles, SupplierProfiles => true
  | VendorProfiles, VendorProfiles => true
  | Suppliers, Suppliers => true
  | Products, Products => true
  | Orders, Orders => true
  | UserRoles, UserRoles => true
  | _, _ => false
  end.

(** The tables that the policies of table [t] for command [c] read in
    an [exists (select 1 from ...)]. *)
Definition subqueries (t : relation) (c : command) : list relation :=
  match t, c with
  | Products, Insert => [Suppliers]
  | Products, Update => [Suppliers]
  | Products, Delete => [Suppliers]
  | Orders, Select => [Suppliers]
  | Orders, Update => [Suppliers]
  | UserRoles, Select => [UserRoles]
  | UserRoles, Update => [UserRoles]
  | _, _ => []
  end.

(** The policies a statement is expanded with: those of its command,
    and for an update or delete with a [where] clause the select
    policies too. *)
Definition applied (c : command) : list command :=
  match c with
  | Select => [Select]
  | Insert => [Insert]
  | Update => [Update; Select]
  | Delete => [Delete; Select]
  end.

(** The expansion itself: [active] are the tables whose policies are
    being expanded.  A sub-query is a read, so it brings the select
    policies of its table.  [false] is the recursion error. *)
Fixpoint expands (fuel : nat) (active : list relation) (t : relation)
         (cs : list command) : bool :=
  match fuel with
  | 0 => false
  | S n =>
      negb (existsb (relation_eqb t) active)
      && forallb (fun t' => expands n (t :: active) t' [Select])
                 (flat_map (subqueries t) cs)
  end.

(** No chain of sub-queries is longer than the number of tables. *)
Definition rewrites (t : relation) (c : command) : bool :=
  expands 7 [] t (applied c).

(** *** The predicates *)

(** [exists (select 1 from user_roles ur
      where ur.user_id = auth.uid() and ur.role = 'superadmin')] *)
Definition has_superadmin_role (s : db) (uid : option uuid) : bool :=
  existsb (fun ur => sql_eq_uuid (Some ur.(ur_user_id)) uid
                     && String.eqb ur.(ur_role) "superadmin")
          s.(user_roles).

(** [exists (select 1 from suppliers s
      where s.id = supplier_id and s.user_id = auth.uid())] *)
Definition owns_supplier (s : db) (uid : option uuid) (supplier_id : uuid) : bool :=
  existsb (fun r => Nat.eqb r.(s_id) supplier_id
                    && sql_eq_uuid (Some r.(s_user_id)) uid)
          s.(suppliers).

(** user_roles: "Users can view their own role",
    "Superadmins can view all roles". *)
Definition user_roles_select (s : db) (uid : option uuid) (r : user_role_row) : bool :=
  sql_eq_uuid uid (Some r.(ur_user_id)) || has_superadmin_role s uid.

(** user_roles: "Users can insert their own role". *)
Definition user_roles_insert_check (uid user_id : option uuid) : bool :=
  sql_eq_uuid uid user_id.

(** user_roles: "Superadmins can update all roles". *)
Definition user_roles_update (s : db) (uid : option uuid) (r : user_role_row) : bool :=
  has_superadmin_role s uid.

(** supplier_profiles: "Users can view their own supplier profile". *)
Definition supplier_profiles_select (s : db) (uid : option uuid)
           (r : supplier_profile_row) : bool :=
  sql_eq_uuid uid (Some r.(sp_user_id)).

Definition supplier_profiles_insert_check (uid user_id : option uuid) : bool :=
  sql_eq_uuid uid user_id.

Definition vendor_profiles_insert_check (uid user_id : option uuid) : bool :=
  sql_eq_uuid uid user_id.

(** suppliers: "Anyone can view suppliers". *)
Definition suppliers_select (s : db) (uid : option uuid) (r : supplier_row) : bool :=
  true.

Definition suppliers_insert_check (uid user_id : option uuid) : bool :=
  sql_eq_uuid uid user_id.

(** products: "Anyone can view products". *)
Definition products_select (s : db) (uid : option uuid) (r : product_row) : bool :=
  true.

(** products: "Suppliers can insert their own products" (and the
    same predicate for update and delete). *)
Definition products_write (s : db) (uid : option uuid) (supplier_id : option uuid)
  : bool :=
  match supplier_id with
  | Some sid => owns_supplier s uid sid
  | None => false
  end.

(** orders: "Users can view their own orders",
    "Suppliers can view orders for their products". *)
Definition orders_select (s : db) (uid : option uuid) (r : order_row) : bool :=
  sql_eq_uuid uid (Some r.(o_user_id)) || owns_supplier s uid r.(o_supplier_id).

(** orders: "Users can insert their own orders". *)
Definition orders_insert_check (uid user_id : option uuid) : bool :=
  sql_eq_uuid uid user_id.

(** orders: "Users can update their own orders",
    "Suppliers can update orders for their products". *)
Definition orders_update (s : db) (uid : option uuid) (r : order_row) : bool :=
  sql_eq_uuid uid (Some r.(o_user_id)) || owns_supplier s uid r.(o_supplier_id).

End Policy.

(** ** Column constraints *)

(** [check (role in ('supplier', 'vendor', 'superadmin'))] *)
Definition role_check (r : text) : bool :=
  String.eqb r "supplier" || String.eqb r "vendor" || String.eqb r "superadmin".

(** [check (approval_status in ('pending', 'approved', 'rejected'))] *)
Definition approval_status_check (a : text) : bool :=
  String.eqb a "pending" || String.eqb a "approved" || String.eqb a "rejected".

(** [decimal(10,2)], in hundredths: fewer than 10^8 before the point. *)
Definition fits_decimal_10_2 (v : Z) : bool :=
  (Z.abs v <? 10000000000)%Z.

(** [integer]: 32 bits, signed. *)
Definition fits_integer (v : Z) : bool :=
  (-2147483648 <=? v)%Z && (v <=? 2147483647)%Z.

(** A NULL fits every column type. *)
Definition fits (A : Type) (f : A -> bool) (a : option A) : bool :=
  match a with
  | Some v => f v
  | None => true
  end.

(** ** Statements: what the persistence service does with one request *)

Module Stmt.

(** *** Reads *)

(** A read of user_roles is expanded with the select policies of
    user_roles; the rows are filtered only if that went through.  The
    reads of the other tables are written without the step: their
    policies sub-query suppliers at most, whose select policy reads
    nothing (lemma [only_user_roles_recurses]). *)
Definition select_user_roles (uid : option uuid) (where_ : user_role_row -> bool)
           (s : db) : result (list user_role_row) :=
  require (Policy.rewrites Policy.UserRoles Policy.Select) RecursionError ;;;
  Ok (filter (fun r => Policy.user_roles_select s uid r && where_ r) s.(user_roles)).

Definition select_supplier_profiles (uid : option uuid)
           (where_ : supplier_profile_row -> bool) (s : db) : list supplier_profile_row :=
  filter (fun r => Policy.supplier_profiles_select s uid r && where_ r)
         s.(supplier_profiles).

Definition select_suppliers (uid : option uuid) (where_ : supplier_row -> bool)
           (s : db) : list supplier_row :=
  filter (fun r => Policy.suppliers_select s uid r && where_ r) s.(suppliers).

Definition select_products (uid : option uuid) (where_ : product_row -> bool)
           (s : db) : list product_row :=
  filter (fun r => Policy.products_select s uid r && where_ r) s.(products).

Definition select_orders (uid : option uuid) (where_ : order_row -> bool)
           (s : db) : list order_row :=
  filter (fun r => Policy.orders_select s uid r && where_ r) s.(orders).

(** A scalar sub-query: NULL on no row, an error on several. *)
Definition scalar (A : Type) (rows : list (option A)) : result (option A) :=
  match rows with
  | [] => Ok None
  | [x] => Ok x
  | _ => Err CardinalityError
  end.

(** *** insert into user_roles *)

Record user_role_payload := {
  urp_user_id : option uuid;
  urp_role : option text;
  urp_approval_status : option text
}.

Definition insert_user_roles (uid : option uuid) (p : user_role_payload) (s : db)
  : result (user_role_row * db) :=
  require (Policy.user_roles_insert_check uid p.(urp_user_id)) PolicyError ;;;
  user <- not_null p.(urp_user_id) ;;
  role <- not_null p.(urp_role) ;;
  let status := with_default "pending" p.(urp_approval_status) in
  require (role_check role) (ConstraintError CheckViolation) ;;;
  require (approval_status_check status) (ConstraintError CheckViolation) ;;;
  require (negb (existsb (fun r => Nat.eqb r.(ur_user_id) user) s.(user_roles)))
          (ConstraintError UniqueViolation) ;;;
  let row := {| ur_id := s.(next_uuid); ur_user_id := user;
                ur_role := role; ur_approval_status := status |} in
  Ok (row, add_user_role row s).

(** *** insert into suppliers *)

Record supplier_payload := {
  sup_user_id : option uuid;
  sup_name : option text;
  sup_contact_email : option text;
  sup_address : option text;
  sup_status : option text
}.

Definition insert_suppliers (uid : option uuid) (p : supplier_payload) (s : db)
  : result (supplier_row * db) :=
  require (Policy.suppliers_insert_check uid p.(sup_user_id)) PolicyError ;;;
  user <- not_null p.(sup_user_id) ;;
  name <- not_null p.(sup_name) ;;
  require (negb (existsb (fun r => Nat.eqb r.(s_user_id) user) s.(suppliers)))
          (ConstraintError UniqueViolation) ;;;
  let row := {| s_id := s.(next_uuid); s_user_id := user; s_name := name;
                s_contact_email := p.(sup_contact_email);
                s_contact_phone := None;
                s_address := p.(sup_address);
                s_logo_url := None; s_website := None;
                s_status := with_default "active" p.(sup_status) |} in
  Ok (row, add_supplier row s).

(** *** insert into supplier_profiles, with [create_supplier_trigger] *)

Record supplier_profile_payload := {
  spp_user_id : option uuid;
  spp_full_name : option text;
  spp_business_name : option text;
  spp_business_type : option text;
  spp_business_address : option text;
  spp_contact_number : option text;
  spp_fssai_license : option text;
  spp_other_certifications : option (list text);
  spp_avatar_url : option text
}.

(** [create_supplier_for_user()]: runs after the row is in, as the
    caller; its failure aborts the whole insert. *)
Definition create_supplier_for_user (uid : option uuid) (new : supplier_profile_row)
           (s : db) : result db :=
  let mine := select_supplier_profiles uid
                (fun r => Nat.eqb r.(sp_user_id) new.(sp_user_id)) s in
  name <- scalar (map sp_business_name mine) ;;
  contact <- scalar (map sp_contact_number mine) ;;
  r <- insert_suppliers uid
         {| sup_user_id := Some new.(sp_user_id); sup_name := name;
            sup_contact_email := contact; sup_address := None;
            sup_status := None |} s ;;
  Ok (snd r).

Definition insert_supplier_profiles (uid : option uuid) (p : supplier_profile_payload)
           (s : db) : result (supplier_profile_row * db) :=
  require (Policy.supplier_profiles_insert_check uid p.(spp_user_id)) PolicyError ;;;
  user <- not_null p.(spp_user_id) ;;
  require (negb (existsb (fun r => Nat.eqb r.(sp_user_id) user) s.(supplier_profiles)))
          (ConstraintError UniqueViolation) ;;;
  let row := {| sp_id := s.(next_uuid); sp_user_id := user;
                sp_full_name := p.(spp_full_name);
                sp_business_name := p.(spp_business_name);
                sp_business_type := p.(spp_business_type);
                sp_business_address := p.(spp_business_address);
                sp_contact_number := p.(spp_contact_number);
                sp_fssai_license := p.(spp_fssai_license);
                sp_other_certifications := p.(spp_other_certifications);
                sp_avatar_url := p.(spp_avatar_url) |} in
  s' <- create_supplier_for_user uid row (add_supplier_profile row s) ;;
  Ok (row, s').

(** *** insert into vendor_profiles *)

Record vendor_profile_payload := {
  vpp_user_id : option uuid;
  vpp_full_name : option text;
  vpp_company_name : option text;
  vpp_contact_number : option text;
  vpp_avatar_url : option text
}.

Definition insert_vendor_profiles (uid : option uuid) (p : vendor_profile_payload)
           (s : db) : result (vendor_profile_row * db) :=
  require (Policy.vendor_profiles_insert_check uid p.(vpp_user_id)) PolicyError ;;;
  user <- not_null p.(vpp_user_id) ;;
  require (negb (existsb (fun r => Nat.eqb r.(vp_user_id) user) s.(vendor_profiles)))
          (ConstraintError UniqueViolation) ;;;
  let row := {| vp_id := s.(next_uuid); vp_user_id := user;
                vp_full_name := p.(vpp_full_name);
                vp_company_name := p.(vpp_company_name);
                vp_contact_number := p.(vpp_contact_number);
                vp_avatar_url := p.(vpp_avatar_url) |} in
  Ok (row, add_vendor_profile row s).

(** *** insert into orders *)

Record order_payload := {
  op_user_id : option uuid;
  op_product_id : option uuid;
  op_supplier_id : option uuid;
  op_quantity : option Z;
  op_unit_price : option Z;
  op_total_amount : option Z;
  op_status : option text
}.

(** The payload's numbers, against the columns they go to. *)
Definition order_fits (p : order_payload) : bool :=
  fits fits_integer p.(op_quantity)
  && fits fits_decimal_10_2 p.(op_unit_price)
  && fits fits_decimal_10_2 p.(op_total_amount).

(** The values are converted to the columns' types before any check. *)
Definition insert_orders (uid : option uuid) (p : order_payload) (s : db)
  : result (order_row * db) :=
  require (order_fits p) NumericOverflow ;;;
  require (Policy.orders_insert_check uid p.(op_user_id)) PolicyError ;;;
  user <- not_null p.(op_user_id) ;;
  product <- not_null p.(op_product_id) ;;
  supplier <- not_null p.(op_supplier_id) ;;
  quantity <- not_null p.(op_quantity) ;;
  unit_price <- not_null p.(op_unit_price) ;;
  total_amount <- not_null p.(op_total_amount) ;;
  require (existsb (fun r => Nat.eqb r.(p_id) product) s.(products))
          (ConstraintError ForeignKeyViolation) ;;;
  require (existsb (fun r => Nat.eqb r.(s_id) supplier) s.(suppliers))
          (ConstraintError ForeignKeyViolation) ;;;
  let row := {| o_id := s.(next_uuid); o_user_id := user;
                o_product_id := product; o_supplier_id := supplier;
                o_quantity := quantity; o_unit_price := unit_price;
                o_total_amount := total_amount;
                o_status := with_default "pending" p.(op_status) |} in
  Ok (row, add_order row s).

(** *** insert, update and delete on products *)

Record product_payload := {
  pp_name : option text;
  pp_description : option text;
  pp_unit_price : option Z;
  pp_stock_quantity : option Z;
  pp_min_stock_level : option Z;
  pp_status : option text;
  pp_image_url : option text;
  pp_sku : option text;
  pp_supplier_id : option uuid
}.

Definition or_default (A : Type) (d : A) (a : option A) : option A :=
  match a with
  | Some x => Some x
  | None => Some d
  end.

Definition product_fits (p : product_payload) : bool :=
  fits fits_decimal_10_2 p.(pp_unit_price)
  && fits fits_integer p.(pp_stock_quantity)
  && fits fits_integer p.(pp_min_stock_level).

Definition insert_products (uid : option uuid) (p : product_payload) (s : db)
  : result (product_row * db) :=
  require (product_fits p) NumericOverflow ;;;
  require (Policy.products_write s uid p.(pp_supplier_id)) PolicyError ;;;
  name <- not_null p.(pp_name) ;;
  supplier <- not_null p.(pp_supplier_id) ;;
  require (existsb (fun r => Nat.eqb r.(s_id) supplier) s.(suppliers))
          (ConstraintError ForeignKeyViolation) ;;;
  let row := {| p_id := s.(next_uuid); p_name := name;
                p_description := p.(pp_description);
                p_unit_price := p.(pp_unit_price);
                p_stock_quantity := or_default 0%Z p.(pp_stock_quantity);
                p_min_stock_level := or_default 10%Z p.(pp_min_stock_level);
                p_sku := p.(pp_sku);
                p_image_url := p.(pp_image_url);
                p_status := or_default "active" p.(pp_status);
                p_supplier_id := supplier |} in
  Ok (row, add_product row s).

(** The patch of [handleUpdateProduct]: every form field, defined. *)
Record product_patch := {
  pt_name : text;
  pt_description : text;
  pt_unit_price : Z;
  pt_stock_quantity : Z;
  pt_min_stock_level : Z;
  pt_status : text;
  pt_image_url : text;
  pt_sku : text
}.

Definition patch_product (f : product_patch) (r : product_row) : product_row :=
  {| p_id := r.(p_id); p_name := f.(pt_name);
     p_description := Some f.(pt_description);
     p_unit_price := Some f.(pt_unit_price);
     p_stock_quantity := Some f.(pt_stock_quantity);
     p_min_stock_level := Some f.(pt_min_stock_level);
     p_sku := Some f.(pt_sku);
     p_image_url := Some f.(pt_image_url);
     p_status := Some f.(pt_status);
     p_supplier_id := r.(p_supplier_id) |}.

(** The patch's numbers, against the columns they go to. *)
Definition patch_fits (f : product_patch) : bool :=
  fits_decimal_10_2 f.(pt_unit_price)
  && fits_integer f.(pt_stock_quantity)
  && fits_integer f.(pt_min_stock_level).

(** The patch is converted to the columns' types as the request is
    read.  (For a patch that does not fit and a request that reaches
    no row, the service may also answer with zero rows; no statement
    below depends on which.) *)
Definition update_products (uid : option uuid) (id : uuid) (f : product_patch) (s : db)
  : result (list product_row * db) :=
  let hit r := Policy.products_select s uid r
               && Policy.products_write s uid (Some r.(p_supplier_id))
               && Nat.eqb r.(p_id) id in
  require (patch_fits f) NumericOverflow ;;;
  Ok (map (patch_product f) (filter hit s.(products)),
      set_products (map (fun r => if hit r then patch_product f r else r) s.(products)) s).

Definition delete_products (uid : option uuid) (id : uuid) (s : db) : result db :=
  let hit r := Policy.products_select s uid r
               && Policy.products_write s uid (Some r.(p_supplier_id))
               && Nat.eqb r.(p_id) id in
  require (negb (existsb (fun o => existsb (fun r => hit r && Nat.eqb r.(p_id) o.(o_product_id))
                                           s.(products))
                         s.(orders)))
          (ConstraintError ForeignKeyViolation) ;;;
  Ok (set_products (filter (fun r => negb (hit r)) s.(products)) s).

(** *** update user_roles set approval_status = ... where user_id = ... *)

Definition set_approval_status (a : text) (r : user_role_row) : user_role_row :=
  {| ur_id := r.(ur_id); ur_user_id := r.(ur_user_id);
     ur_role := r.(ur_role); ur_approval_status := a |}.

(** The rows the statement reaches: readable, updatable, and
    matching [.eq('user_id', user_id)]. *)
Definition user_roles_hit (s : db) (uid : option uuid) (user_id : uuid)
           (r : user_role_row) : bool :=
  Policy.user_roles_select s uid r && Policy.user_roles_update s uid r
  && Nat.eqb r.(ur_user_id) user_id.

(** The statement is expanded with the update and the select
    policies of user_roles before any row is looked at. *)
Definition update_user_roles_approval (uid : option uuid) (user_id : uuid)
           (a : text) (s : db) : result (list user_role_row * db) :=
  let hit := user_roles_hit s uid user_id in
  require (Policy.rewrites Policy.UserRoles Policy.Update) RecursionError ;;;
  match filter hit s.(user_roles) with
  | [] => Ok ([], s)
  | targets =>
      require (forallb (fun r => Policy.user_roles_update s uid (set_approval_status a r))
                       targets) PolicyError ;;;
      require (approval_status_check a) (ConstraintError CheckViolation) ;;;
      Ok (map (set_approval_status a) targets,
          set_user_roles
            (map (fun r => if hit r then set_approval_status a r else r) s.(user_roles))
            s)
  end.

(** *** update orders set status = ... where id = ... *)

Definition set_status (st : text) (r : order_row) : order_row :=
  {| o_id := r.(o_id); o_user_id := r.(o_user_id);
     o_product_id := r.(o_product_id); o_supplier_id := r.(o_supplier_id);
     o_quantity := r.(o_quantity); o_unit_price := r.(o_unit_price);
     o_total_amount := r.(o_total_amount); o_status := st |}.

(** The rows the statement reaches: readable, updatable, and
    matching [.eq('id', id)]. *)
Definition orders_hit (s : db) (uid : option uuid) (id : uuid) (r : order_row) : bool :=
  Policy.orders_select s uid r && Policy.orders_update s uid r
  && Nat.eqb r.(o_id) id.

Definition update_orders_status (uid : option uuid) (id : uuid) (st : text) (s : db)
  : result (list order_row * db) :=
  let hit := orders_hit s uid id in
  match filter hit s.(orders) with
  | [] => Ok ([], s)
  | targets =>
      require (forallb (fun r => Policy.orders_update s uid (set_status st r)) targets)
              PolicyError ;;;
      Ok (map (set_status st) targets,
          set_orders (map (fun r => if hit r then set_status st r else r) s.(orders)) s)
  end.

End Stmt.

(** ** The client: [useAuth] and the pages *)

Module Client.

Import Stmt.

(** An [await supabase.from(...)...] whose [error] the caller never
    inspects: the statement's effect if it went through, none otherwise. *)
Definition await_unchecked (A : Type) (r : result (A * db)) (s : db) : db :=
  match r with
  | Ok (_, s') => s'
  | Err _ => s
  end.

(** [const { data } = await ...]: [data] is null when the request
    answered with an error. *)
Definition data (A : Type) (r : result A) : option A :=
  match r with
  | Ok a => Some a
  | Err _ => None
  end.

(** The same with [.single()]: anything but exactly one row is an
    error too. *)
Definition data_single (A : Type) (r : result (list A)) : option A :=
  match r with
  | Ok rows => single rows
  | Err _ => None
  end.

(** What a handler shows the user. *)
Record toast := {
  title : string;
  destructive : bool
}.

(** *** useAuth.signUp *)

(** [String.prototype.toLowerCase], on ASCII text. *)
Definition lower_ascii (c : ascii) : ascii :=
  let n := nat_of_ascii c in
  if Nat.leb 65 n && Nat.leb n 90 then ascii_of_nat (n + 32) else c.

Fixpoint toLowerCase (e : string) : string :=
  match e with
  | EmptyString => EmptyString
  | String c rest => String (lower_ascii c) (toLowerCase rest)
  end.

Definition isHardcodedSuperadmin (email : string) : bool :=
  String.eqb (toLowerCase email) "fieronrhys@gmail.com".

(** The [userData] object: every field may be undefined. *)
Record user_data := {
  ud_id : option uuid;
  ud_role : option text;
  ud_full_name : option text;
  ud_business_name : option text;
  ud_business_type : option text;
  ud_business_address : option text;
  ud_contact_number : option text;
  ud_fssai_license : option text;
  ud_other_certifications : option (list text);
  ud_avatar_url : option text;
  ud_company_name : option text
}.

(** What [supabase.auth.signUp] and then [supabase.auth.getUser]
    answered; the authentication service is an external collaborator. *)
Inductive auth_outcome :=
| SignUpFailed
| SignedUpNoUser
| SignedUp (user : uuid).

(** The [{ error }] that [signUp] returns. *)
Inductive sign_up_error :=
| RoleAlreadyExists
| AuthError
| NoError.

Definition finalRole (email : string) (userData : user_data) : option text :=
  if isHardcodedSuperadmin email then Some "superadmin" else userData.(ud_role).

Definition role_payload (email : string) (userData : user_data) (user : uuid)
  : user_role_payload :=
  {| urp_user_id := Some user;
     urp_role := finalRole email userData;
     urp_approval_status :=
       Some (if is_text (finalRole email userData) "supplier"
                && negb (isHardcodedSuperadmin email)
             then "pending" else "approved") |}.

Definition profile_payload (userData : user_data) (user : uuid)
  : supplier_profile_payload :=
  {| spp_user_id := Some user;
     spp_full_name := userData.(ud_full_name);
     spp_business_name := userData.(ud_business_name);
     spp_business_type := userData.(ud_business_type);
     spp_business_address := userData.(ud_business_address);
     spp_contact_number := userData.(ud_contact_number);
     spp_fssai_license := userData.(ud_fssai_license);
     spp_other_certifications := userData.(ud_other_certifications);
     spp_avatar_url := userData.(ud_avatar_url) |}.

(** "Also create a suppliers record for backward compatibility". *)
Definition backward_compat_payload (userData : user_data) (user : uuid)
  : supplier_payload :=
  {| sup_user_id := Some user;
     sup_name := userData.(ud_business_name);
     sup_contact_email := userData.(ud_contact_number);
     sup_address := userData.(ud_business_address);
     sup_status := Some "active" |}.

Definition vendor_payload (userData : user_data) (user : uuid)
  : vendor_profile_payload :=
  {| vpp_user_id := Some user;
     vpp_full_name := userData.(ud_full_name);
     vpp_company_name := userData.(ud_company_name);
     vpp_contact_number := userData.(ud_contact_number);
     vpp_avatar_url := userData.(ud_avatar_url) |}.

(** The inserts of [signUp] once [getUser] returned [user]; they run
    in that user's session. *)
Definition provision (email : string) (userData : user_data) (user : uuid) (s : db)
  : db :=
  let s1 := await_unchecked
              (insert_user_roles (Some user) (role_payload email userData user) s) s in
  if is_text (finalRole email userData) "supplier" then
    let s2 := await_unchecked
                (insert_supplier_profiles (Some user) (profile_payload userData user) s1)
                s1 in
    await_unchecked
      (insert_suppliers (Some user) (backward_compat_payload userData user) s2) s2
  else if is_text (finalRole email userData) "vendor" then
    await_unchecked
      (insert_vendor_profiles (Some user) (vendor_payload userData user) s1) s1
  else s1.

(** [session] is whoever is signed in when [signUp] is called. *)
Definition signUp (session : option uuid) (email : string) (userData : user_data)
           (auth : auth_outcome) (s : db) : db * sign_up_error :=
  match data_single (select_user_roles session
                       (fun r => sql_eq_uuid (Some r.(ur_user_id)) userData.(ud_id))
                       s) with
  | Some _ => (s, RoleAlreadyExists)
  | None =>
      match auth with
      | SignUpFailed => (s, AuthError)
      | SignedUpNoUser => (s, NoError)
      | SignedUp user => (provision email userData user s, NoError)
      end
  end.

(** *** Products page *)

(** Returns the [id] of the caller's suppliers row, or [null]. *)
Definition ensureSupplierRecord (user : option uuid) (s : db) : db * option uuid :=
  match user with
  | None => (s, None)
  | Some u =>
      match single (select_suppliers user (fun r => Nat.eqb r.(s_user_id) u) s) with
      | Some supplierData => (s, Some supplierData.(s_id))
      | None =>
          match single (select_supplier_profiles user
                          (fun r => Nat.eqb r.(sp_user_id) u) s) with
          | None => (s, None)
          | Some profileData =>
              match insert_suppliers user
                      {| sup_user_id := Some u;
                         sup_name := profileData.(sp_business_name);
                         sup_contact_email := profileData.(sp_contact_number);
                         sup_address := profileData.(sp_business_address);
                         sup_status := Some "active" |} s with
              | Ok (newSupplier, s') => (s', Some newSupplier.(s_id))
              | Err _ => (s, None)
              end
          end
      end
  end.

(** The row [ensureSupplierRecord] synthesizes from a profile. *)
Definition synthesized (id u : uuid) (n : text) (p : supplier_profile_row) : supplier_row :=
  {| s_id := id; s_user_id := u; s_name := n;
     s_contact_email := p.(sp_contact_number); s_contact_phone := None;
     s_address := p.(sp_business_address); s_logo_url := None; s_website := None;
     s_status := "active" |}.

Definition handlePlaceOrder (user : option uuid) (product : product_row) (s : db)
  : db * toast :=
  match single (select_suppliers user
                  (fun r => Nat.eqb r.(s_id) product.(p_supplier_id)) s) with
  | None => (s, {| title := "Error"; destructive := true |})
  | Some supplierData =>
      match insert_orders user
              {| op_user_id := user;
                 op_product_id := Some product.(p_id);
                 op_supplier_id := Some supplierData.(s_id);
                 op_quantity := Some 1%Z;
                 op_unit_price := product.(p_unit_price);
                 op_total_amount := product.(p_unit_price);
                 op_status := Some "pending" |} s with
      | Ok (_, s') => (s', {| title := "Order Placed!"; destructive := false |})
      | Err _ => (s, {| title := "Error"; destructive := true |})
      end
  end.

(** *** Orders page *)

Definition handleUpdateOrderStatus (user : option uuid) (orderId : uuid)
           (newStatus : text) (s : db) : db * toast :=
  match update_orders_status user orderId newStatus s with
  | Ok (_, s') => (s', {| title := "Order Updated"; destructive := false |})
  | Err _ => (s, {| title := "Error"; destructive := true |})
  end.

(** [confirmed] is the answer to the [confirm(...)] dialog. *)
Definition handleCancelOrder (user : option uuid) (confirmed : bool) (orderId : uuid)
           (s : db) : db * option toast :=
  if negb confirmed then (s, None)
  else
    match update_orders_status user orderId "cancelled" s with
    | Ok (_, s') => (s', Some {| title := "Order Cancelled"; destructive := false |})
    | Err _ => (s, Some {| title := "Error"; destructive := true |})
    end.

(** The success toasts, for reference in statements. *)
Definition placed : toast := {| title := "Order Placed!"; destructive := false |}.
Definition updated : toast := {| title := "Order Updated"; destructive := false |}.
Definition cancelled : toast := {| title := "Order Cancelled"; destructive := false |}.

Definition role_is (userRole : option user_role_row) (r : text) : bool :=
  match userRole with
  | Some ur => String.eqb ur.(ur_role) r
  | None => false
  end.

Definition canUpdateStatus (userRole : option user_role_row) (order : order_row) : bool :=
  if role_is userRole "supplier"
  then String.eqb order.(o_status) "pending" || String.eqb order.(o_status) "confirmed"
  else false.

Definition getNextStatus (currentStatus : text) : text :=
  if String.eqb currentStatus "pending" then "confirmed"
  else if String.eqb currentStatus "confirmed" then "shipped"
  else if String.eqb currentStatus "shipped" then "delivered"
  else currentStatus.

(** The two action buttons of an order card (and of the detail
    dialog): which one is rendered, and the request its click sends. *)
Inductive button :=
| AdvanceButton
| CancelButton.

Definition rendered (userRole : option user_role_row) (order : order_row) (b : button)
  : bool :=
  match b with
  | AdvanceButton => role_is userRole "supplier" && canUpdateStatus userRole order
  | CancelButton => role_is userRole "vendor" && String.eqb order.(o_status) "pending"
  end.

(** The status a click asks for, relative to the order as displayed. *)
Definition requested_status (order : order_row) (b : button) : text :=
  match b with
  | AdvanceButton => getNextStatus order.(o_status)
  | CancelButton => "cancelled"
  end.

Definition onClick (user : option uuid) (userRole : option user_role_row)
           (order : order_row) (b : button) (confirmed : bool) (s : db)
  : db * option toast :=
  if rendered userRole order b then
    match b with
    | AdvanceButton =>
        let r := handleUpdateOrderStatus user order.(o_id)
                   (getNextStatus order.(o_status)) s in
        (fst r, Some (snd r))
    | CancelButton => handleCancelOrder user confirmed order.(o_id) s
    end
  else (s, None).

(** *** Approvals page *)

Definition handleApproveSupplier (user : option uuid) (userId : uuid) (s : db)
  : db * toast :=
  match update_user_roles_approval user userId "approved" s with
  | Ok (_, s') => (s', {| title := "Supplier Approved"; destructive := false |})
  | Err _ => (s, {| title := "Error"; destructive := true |})
  end.

Definition handleRejectSupplier (user : option uuid) (userId : uuid) (s : db)
  : db * toast :=
  match update_user_roles_approval user userId "rejected" s with
  | Ok (_, s') => (s', {| title := "Supplier Rejected"; destructive := false |})
  | Err _ => (s, {| title := "Error"; destructive := true |})
  end.

End Client.

(** ** Traces: requests of concurrent sessions, one statement at a time

    Every handler above is a sequence of statements; the persistence
    service runs each statement atomically.  Concurrent handlers are
    an interleaving of their statements, that is, some list of
    (caller, statement) pairs. *)

Module Trace.

Import Stmt.

Inductive statement :=
| InsertUserRole (p : user_role_payload)
| InsertSupplierProfile (p : supplier_profile_payload)
| InsertVendorProfile (p : vendor_profile_payload)
| InsertSupplier (p : supplier_payload)
| InsertProduct (p : product_payload)
| InsertOrder (p : order_payload)
| UpdateApproval (user_id : uuid) (a : text)
| UpdateProduct (id : uuid) (f : product_patch)
| UpdateOrderStatus (id : uuid) (st : text)
| DeleteProduct (id : uuid).

Definition after (A : Type) (r : result (A * db)) (s : db) : db :=
  Client.await_unchecked r s.

Definition exec (uid : option uuid) (st : statement) (s : db) : db :=
  match st with
  | InsertUserRole p => after (insert_user_roles uid p s) s
  | InsertSupplierProfile p => after (insert_supplier_profiles uid p s) s
  | InsertVendorProfile p => after (insert_vendor_profiles uid p s) s
  | InsertSupplier p => after (insert_suppliers uid p s) s
  | InsertProduct p => after (insert_products uid p s) s
  | InsertOrder p => after (insert_orders uid p s) s
  | UpdateApproval user_id a => after (update_user_roles_approval uid user_id a s) s
  | UpdateProduct id f => after (update_products uid id f s) s
  | UpdateOrderStatus id st => after (update_orders_status uid id st s) s
  | DeleteProduct id =>
      match delete_products uid id s with
      | Ok s' => s'
      | Err _ => s
      end
  end.

Fixpoint run (tr : list (option uuid * statement)) (s : db) : db :=
  match tr with
  | [] => s
  | (uid, st) :: rest => run rest (exec uid st s)
  end.

(** The writes of [Client.signUp] for a signed-up [user]. *)
Definition signUp_statements (email : string) (userData : Client.user_data)
           (user : uuid) : list (option uuid * statement) :=
  (Some user, InsertUserRole (Client.role_payload email userData user))
  :: (if is_text (Client.finalRole email userData) "supplier" then
        [ (Some user, InsertSupplierProfile (Client.profile_payload userData user));
          (Some user, InsertSupplier (Client.backward_compat_payload userData user)) ]
      else if is_text (Client.finalRole email userData) "vendor" then
        [ (Some user, InsertVendorProfile (Client.vendor_payload userData user)) ]
      else []).

(** The interleavings of two statement sequences. *)
Inductive interleave (A : Type) : list A -> list A -> list A -> Prop :=
| interleave_nil : interleave [] [] []
| interleave_left : forall x l1 l2 l, interleave l1 l2 l -> interleave (x :: l1) l2 (x :: l)
| interleave_right : forall x l1 l2 l, interleave l1 l2 l -> interleave l1 (x :: l2) (x :: l).

End Trace.

(** ** Invariants *)

Definition user_roles_unique (s : db) : Prop :=
  NoDup (map ur_user_id s.(user_roles)).

Definition suppliers_unique (s : db) : Prop :=
  NoDup (map s_user_id s.(suppliers)).

(** ** What the specification asks for, in its own words *)

Module Spec.

(** "a denied operation must surface as a distinct forbidden
    outcome": the statement answers with a [PolicyError]. *)
Definition reports_forbidden (A : Type) (r : result A) : Prop :=
  r = Err PolicyError.

(** "OrderRecord.status transitions only along
    pending->confirmed->shipped->delivered or pending->cancelled". *)
Inductive allowed_transition : text -> text -> Prop :=
| Confirm : allowed_transition "pending" "confirmed"
| Ship : allowed_transition "confirmed" "shipped"
| Deliver : allowed_transition "shipped" "delivered"
| Cancel : allowed_transition "pending" "cancelled".

(** "an update is accepted only if the row's current status still
    matches the expected predecessor state": the outcome of a
    compare-and-swap on one row. *)
Definition compare_and_swap (expected new : text) (r : order_row) : order_row :=
  if String.eqb r.(o_status) expected then Stmt.set_status new r else r.

(** "the account's email (case-insensitively) equals the
    bootstrap-superadmin address": equality character by character,
    up to the case of letters. *)
Fixpoint eqb_ignore_case (a b : string) : bool :=
  match a, b with
  | EmptyString, EmptyString => true
  | String x a', String y b' =>
      Ascii.eqb (Client.lower_ascii x) (Client.lower_ascii y) && eqb_ignore_case a' b'
  | _, _ => false
  end.

Definition bootstrap_superadmin : string := "fieronrhys@gmail.com".

(** "if the account's email equals the bootstrap-superadmin address,
    the created RoleAssignment has role superadmin and approval_status
    approved regardless of the requested role; otherwise [it] has the
    requested role, with approval_status pending when that role is
    supplier and approved when it is vendor or superadmin". *)
Definition assigned (email : string) (requested : option text) (r : user_role_row)
  : Prop :=
  if eqb_ignore_case email bootstrap_superadmin
  then r.(ur_role) = "superadmin" /\ r.(ur_approval_status) = "approved"
  else requested = Some r.(ur_role)
       /\ (r.(ur_role) = "supplier" -> r.(ur_approval_status) = "pending")
       /\ (r.(ur_role) = "vendor" \/ r.(ur_role) = "superadmin" ->
           r.(ur_approval_status) = "approved").

End Spec.

(** ** A small marketplace used in examples

    Account 1 is a supplier awaiting approval (with its profile and
    its suppliers row), account 2 a vendor, account 3 a superadmin,
    account 4 has no role.  Product 6 costs 100.00 and order 7 is the
    vendor's order for one unit of it. *)

Module Sample.

Definition supplier_role : user_role_row :=
  {| ur_id := 0; ur_user_id := 1; ur_role := "supplier";
     ur_approval_status := "pending" |}.

Definition vendor_role : user_role_row :=
  {| ur_id := 3; ur_user_id := 2; ur_role := "vendor";
     ur_approval_status := "approved" |}.

Definition superadmin_role : user_role_row :=
  {| ur_id := 5; ur_user_id := 3; ur_role := "superadmin";
     ur_approval_status := "approved" |}.

Definition acme_profile : supplier_profile_row :=
  {| sp_id := 1; sp_user_id := 1; sp_full_name := Some "A. Supplier";
     sp_business_name := Some "Acme"; sp_business_type := Some "Manufacturing";
     sp_business_address := Some "1 Main Street";
     sp_contact_number := Some "+1234567890";
     sp_fssai_license := None; sp_other_certifications := None;
     sp_avatar_url := None |}.

Definition acme : supplier_row :=
  {| s_id := 2; s_user_id := 1; s_name := "Acme";
     s_contact_email := Some "+1234567890"; s_contact_phone := None;
     s_address := None; s_logo_url := None; s_website := None;
     s_status := "active" |}.

Definition buyer_profile : vendor_profile_row :=
  {| vp_id := 4; vp_user_id := 2; vp_full_name := Some "B. Vendor";
     vp_company_name := Some "Bazaar"; vp_contact_number := None;
     vp_avatar_url := None |}.

Definition rice : product_row :=
  {| p_id := 6; p_name := "Premium Rice"; p_description := None;
     p_unit_price := Some 10000%Z; p_stock_quantity := Some 100%Z;
     p_min_stock_level := Some 20%Z; p_sku := Some "RICE-001";
     p_image_url := None; p_status := Some "active"; p_supplier_id := 2 |}.

Definition order_in (st : text) : order_row :=
  {| o_id := 7; o_user_id := 2; o_product_id := 6; o_supplier_id := 2;
     o_quantity := 1%Z; o_unit_price := 10000%Z; o_total_amount := 10000%Z;
     o_status := st |}.

(** The marketplace with order 7 in status [st]. *)
Definition market (st : text) : db :=
  {| user_roles := [supplier_role; vendor_role; superadmin_role];
     supplier_profiles := [acme_profile];
     vendor_profiles := [buyer_profile];
     suppliers := [acme];
     products := [rice];
     orders := [order_in st];
     next_uuid := 8 |}.

(** The same before any order was placed. *)
Definition catalogue : db :=
  {| user_roles := [supplier_role; vendor_role; superadmin_role];
     supplier_profiles := [acme_profile];
     vendor_profiles := [buyer_profile];
     suppliers := [acme];
     products := [rice];
     orders := [];
     next_uuid := 7 |}.

(** A profile that predates the trigger: no suppliers row yet. *)
Definition legacy : db :=
  {| user_roles := [supplier_role];
     supplier_profiles := [acme_profile];
     vendor_profiles := [];
     suppliers := [];
     products := [];
     orders := [];
     next_uuid := 2 |}.

(** The same profile without a business name. *)
Definition nameless_profile : supplier_profile_row :=
  {| sp_id := 1; sp_user_id := 1; sp_full_name := Some "A. Supplier";
     sp_business_name := None; sp_business_type := Some "Manufacturing";
     sp_business_address := Some "1 Main Street";
     sp_contact_number := Some "+1234567890";
     sp_fssai_license := None; sp_other_certifications := None;
     sp_avatar_url := None |}.

Definition legacy_nameless : db :=
  {| user_roles := [supplier_role];
     supplier_profiles := [nameless_profile];
     vendor_profiles := [];
     suppliers := [];
     products := [];
     orders := [];
     next_uuid := 2 |}.

Definition acme_form : Client.user_data :=
  {| Client.ud_id := None; Client.ud_role := Some "supplier";
     Client.ud_full_name := Some "A. Supplier";
     Client.ud_business_name := Some "Acme";
     Client.ud_business_type := Some "Manufacturing";
     Client.ud_business_address := Some "1 Main Street";
     Client.ud_contact_number := Some "+1234567890";
     Client.ud_fssai_license := None;
     Client.ud_other_certifications := None;
     Client.ud_avatar_url := None;
     Client.ud_company_name := None |}.

End Sample.

(** ** More of the client: reads, product management, sample data *)

Module Reads.

(** vendor_profiles: "Users can view their own vendor profile". *)
Definition vendor_profiles_select (s : db) (uid : option uuid) (r : vendor_profile_row)
  : bool :=
  sql_eq_uuid uid (Some r.(vp_user_id)).

Definition select_vendor_profiles (uid : option uuid) (where_ : vendor_profile_row -> bool)
           (s : db) : list vendor_profile_row :=
  filter (fun r => vendor_profiles_select s uid r && where_ r) s.(vendor_profiles).

(** [insert([...])]: one statement for several rows, all or nothing. *)
Fixpoint insert_products_many (uid : option uuid) (ps : list Stmt.product_payload) (s : db)
  : result (list product_row * db) :=
  match ps with
  | [] => Ok ([], s)
  | p :: rest =>
      r <- Stmt.insert_products uid p s ;;
      rs <- insert_products_many uid rest (snd r) ;;
      Ok (fst r :: fst rs, snd rs)
  end.

(** The rows a supplier-profile insert stores: the profile, and the
    suppliers row [create_supplier_for_user] derives from it. *)
Definition stored_profile (id u : uuid) (p : Stmt.supplier_profile_payload)
  : supplier_profile_row :=
  {| sp_id := id; sp_user_id := u;
     sp_full_name := p.(Stmt.spp_full_name);
     sp_business_name := p.(Stmt.spp_business_name);
     sp_business_type := p.(Stmt.spp_business_type);
     sp_business_address := p.(Stmt.spp_business_address);
     sp_contact_number := p.(Stmt.spp_contact_number);
     sp_fssai_license := p.(Stmt.spp_fssai_license);
     sp_other_certifications := p.(Stmt.spp_other_certifications);
     sp_avatar_url := p.(Stmt.spp_avatar_url) |}.

(** The row a product insert stores. *)
Definition stored_product (id : uuid) (name : text) (supplier : uuid)
           (p : Stmt.product_payload) : product_row :=
  {| p_id := id; p_name := name;
     p_description := p.(Stmt.pp_description);
     p_unit_price := p.(Stmt.pp_unit_price);
     p_stock_quantity := Stmt.or_default 0%Z p.(Stmt.pp_stock_quantity);
     p_min_stock_level := Stmt.or_default 10%Z p.(Stmt.pp_min_stock_level);
     p_sku := p.(Stmt.pp_sku);
     p_image_url := p.(Stmt.pp_image_url);
     p_status := Stmt.or_default "active" p.(Stmt.pp_status);
     p_supplier_id := supplier |}.

Definition trigger_supplier (id u : uuid) (name : text) (contact : option text)
  : supplier_row :=
  {| s_id := id; s_user_id := u; s_name := name;
     s_contact_email := contact; s_contact_phone := None;
     s_address := None; s_logo_url := None; s_website := None;
     s_status := "active" |}.

End Reads.

(** *** useAuth: fetchUserData and isApproved *)

Module UseAuth.

Inductive user_profile :=
| SupplierProfile (p : supplier_profile_row)
| VendorProfile (p : vendor_profile_row).

(** The hook's state that [fetchUserData] writes. *)
Record auth_state := {
  userRole : option user_role_row;
  userProfile : option user_profile;
  errorMsg : option string
}.

Definition signed_out : auth_state :=
  {| userRole := None; userProfile := None; errorMsg := None |}.

Definition fetch_failed : string := "Failed to fetch user data. Please try again.".

(** [session] is the signed-in account; the hook calls
    [fetchUserData(session.user.id)]. *)
Definition fetchUserData (session : option uuid) (userId : uuid) (st : auth_state) (s : db)
  : auth_state :=
  match Client.data_single (Stmt.select_user_roles session
                              (fun r => Nat.eqb r.(ur_user_id) userId) s) with
  | None =>
      {| userRole := st.(userRole); userProfile := st.(userProfile);
         errorMsg := Some fetch_failed |}
  | Some roleData =>
      if String.eqb roleData.(ur_role) "supplier" then
        match single (Stmt.select_supplier_profiles session
                        (fun r => Nat.eqb r.(sp_user_id) userId) s) with
        | None =>
            {| userRole := Some roleData; userProfile := st.(userProfile);
               errorMsg := Some fetch_failed |}
        | Some data =>
            {| userRole := Some roleData; userProfile := Some (SupplierProfile data);
               errorMsg := None |}
        end
      else if String.eqb roleData.(ur_role) "vendor" then
        match single (Reads.select_vendor_profiles session
                        (fun r => Nat.eqb r.(vp_user_id) userId) s) with
        | None =>
            {| userRole := Some roleData; userProfile := st.(userProfile);
               errorMsg := Some fetch_failed |}
        | Some data =>
            {| userRole := Some roleData; userProfile := Some (VendorProfile data);
               errorMsg := None |}
        end
      else
        {| userRole := Some roleData; userProfile := None; errorMsg := None |}
  end.

(** [userRole?.approval_status === 'approved' || userRole?.role !== 'supplier'] *)
Definition isApproved (userRole : option user_role_row) : bool :=
  match userRole with
  | Some r => String.eqb r.(ur_approval_status) "approved"
              || negb (String.eqb r.(ur_role) "supplier")
  | None => true
  end.

End UseAuth.

(** *** Approvals page: fetchPendingSuppliers *)

Module ApprovalsPage.

(** The profile columns an entry of the list carries. *)
Record listed_profile := {
  lp_full_name : option text;
  lp_business_name : option text;
  lp_fssai_license : option text;
  lp_business_type : option text;
  lp_business_address : option text;
  lp_contact_number : option text;
  lp_other_certifications : option (list text);
  lp_avatar_url : option text
}.

Definition of_row (p : supplier_profile_row) : listed_profile :=
  {| lp_full_name := p.(sp_full_name);
     lp_business_name := p.(sp_business_name);
     lp_fssai_license := p.(sp_fssai_license);
     lp_business_type := p.(sp_business_type);
     lp_business_address := p.(sp_business_address);
     lp_contact_number := p.(sp_contact_number);
     lp_other_certifications := p.(sp_other_certifications);
     lp_avatar_url := p.(sp_avatar_url) |}.

(** The placeholder for a role without a readable profile. *)
Definition blank : listed_profile :=
  {| lp_full_name := Some ""; lp_business_name := Some "";
     lp_fssai_license := Some ""; lp_business_type := Some "";
     lp_business_address := Some ""; lp_contact_number := Some "";
     lp_other_certifications := Some []; lp_avatar_url := Some "" |}.

(** [.eq('role', 'supplier').eq('approval_status', 'pending')] *)
Definition is_pending_supplier (r : user_role_row) : bool :=
  String.eqb r.(ur_role) "supplier" && String.eqb r.(ur_approval_status) "pending".

(** Rows come newest first ([order('created_at', { ascending: false })]);
    a table lists its rows in insertion order.  Returns the list
    handed to [setPendingSuppliers]. *)
Definition fetchPendingSuppliers (session : option uuid) (s : db)
  : list (user_role_row * listed_profile) :=
  match Client.data (Stmt.select_user_roles session is_pending_supplier s) with
  | None => []
  | Some rows =>
      let userRoles := rev rows in
      let userIds := map ur_user_id userRoles in
      let profiles := Stmt.select_supplier_profiles session
                        (fun p => existsb (Nat.eqb p.(sp_user_id)) userIds) s in
      map (fun role =>
             (role,
              match find (fun p => Nat.eqb p.(sp_user_id) role.(ur_user_id)) profiles with
              | Some profile => of_row profile
              | None => blank
              end))
          userRoles
  end.

End ApprovalsPage.

(** *** Products page: listing, seeding and product management *)

Module ProductsPage.

Import Stmt.

(** The page's context: who is signed in, the role the hook holds,
    and the status filter. *)
Record page := {
  user : option uuid;
  userRole : option user_role_row;
  statusFilter : text
}.

Definition sample_supplier (u : uuid) : supplier_payload :=
  {| sup_user_id := Some u;
     sup_name := Some "Sample Supplier Co.";
     sup_contact_email := Some "contact@samplesupplier.com";
     sup_address := Some "123 Sample Street, Sample City";
     sup_status := Some "active" |}.

Definition sampleProducts (supplierId : uuid) : list product_payload :=
  [ {| pp_name := Some "Premium Rice";
       pp_description := Some "High-quality basmati rice, perfect for all occasions";
       pp_unit_price := Some 15000%Z;
       pp_stock_quantity := Some 100%Z;
       pp_min_stock_level := Some 20%Z;
       pp_status := Some "active";
       pp_image_url := None;
       pp_sku := Some "RICE-001";
       pp_supplier_id := Some supplierId |};
    {| pp_name := Some "Organic Wheat Flour";
       pp_description := Some "Freshly ground organic wheat flour";
       pp_unit_price := Some 8000%Z;
       pp_stock_quantity := Some 50%Z;
       pp_min_stock_level := Some 10%Z;
       pp_status := Some "active";
       pp_image_url := None;
       pp_sku := Some "FLOUR-001";
       pp_supplier_id := Some supplierId |};
    {| pp_name := Some "Fresh Vegetables Mix";
       pp_description := Some "Assorted fresh vegetables from local farms";
       pp_unit_price := Some 12000%Z;
       pp_stock_quantity := Some 30%Z;
       pp_min_stock_level := Some 5%Z;
       pp_status := Some "active";
       pp_image_url := None;
       pp_sku := Some "VEG-001";
       pp_supplier_id := Some supplierId |} ].

(** [.limit(1)] and [existingSuppliers?.[0]?.id]. *)
Definition first_supplier (session : option uuid) (s : db) : option uuid :=
  match select_suppliers session (fun _ => true) s with
  | [] => None
  | r :: _ => Some r.(s_id)
  end.

Definition createSampleDataIfNeeded (session : option uuid) (s : db) : db :=
  match session with
  | None => s
  | Some u =>
      match first_supplier session s with
      | Some supplierId =>
          match Reads.insert_products_many session (sampleProducts supplierId) s with
          | Ok (_, s') => s'
          | Err _ => s
          end
      | None =>
          match insert_suppliers session (sample_supplier u) s with
          | Err _ => s
          | Ok (newSupplier, s1) =>
              match Reads.insert_products_many session
                      (sampleProducts newSupplier.(s_id)) s1 with
              | Ok (_, s') => s'
              | Err _ => s1
              end
          end
      end
  end.

(** The part of [fetchProducts] after the seeding: the final read,
    then the role's query, whose rows are only logged. *)
Definition fetchFinalProducts (pg : page) (s : db) : db * list product_row :=
  match select_products pg.(user) (fun _ => true) s with
  | [] => (s, [])
  | finalProducts =>
      (if Client.role_is pg.(userRole) "supplier"
       then fst (Client.ensureSupplierRecord pg.(user) s)
       else s,
       finalProducts)
  end.

(** Returns the database and the list handed to [setProducts]. *)
Definition fetchProducts (pg : page) (s : db) : db * list product_row :=
  match select_products pg.(user) (fun _ => true) s with
  | [] =>
      let s1 := createSampleDataIfNeeded pg.(user) s in
      match select_products pg.(user) (fun _ => true) s1 with
      | [] => (s1, [])
      | _ => fetchFinalProducts pg s1
      end
  | _ => fetchFinalProducts pg s
  end.

(** [Date.now()] in decimal, for the default SKU. *)
Definition decimal (n : nat) : string :=
  DecimalString.NilZero.string_of_uint (Nat.to_uint n).

(** The outcome of a handler: the database, the toast, and the list
    its closing [fetchProducts()] hands to [setProducts] (none when
    the handler stopped before). *)
Record outcome := {
  database : db;
  shown : Client.toast;
  refreshed : option (list product_row)
}.

Definition failure (s : db) : outcome :=
  {| database := s;
     shown := {| Client.title := "Error"; Client.destructive := true |};
     refreshed := None |}.

(** The toast of a write that went through. *)
Definition saved : Client.toast :=
  {| Client.title := "Success"; Client.destructive := false |}.

Definition success (pg : page) (s : db) : outcome :=
  {| database := fst (fetchProducts pg s);
     shown := {| Client.title := "Success"; Client.destructive := false |};
     refreshed := Some (snd (fetchProducts pg s)) |}.

(** [formData] has the fields of [product_patch]; [now] is [Date.now()]. *)
Definition handleAddProduct (pg : page) (formData : product_patch) (now : nat) (s : db)
  : outcome :=
  match Client.ensureSupplierRecord pg.(user) s with
  | (s1, None) => failure s1
  | (s1, Some supplierId) =>
      match insert_products pg.(user)
              {| pp_name := Some formData.(pt_name);
                 pp_description := Some formData.(pt_description);
                 pp_unit_price := Some formData.(pt_unit_price);
                 pp_stock_quantity := Some formData.(pt_stock_quantity);
                 pp_min_stock_level := Some formData.(pt_min_stock_level);
                 pp_status := Some formData.(pt_status);
                 pp_image_url := Some formData.(pt_image_url);
                 pp_sku := Some (if String.eqb formData.(pt_sku) ""
                                 then String.append "SKU-" (decimal now)
                                 else formData.(pt_sku));
                 pp_supplier_id := Some supplierId |} s1 with
      | Ok (_, s2) => success pg s2
      | Err _ => failure s1
      end
  end.

(** Nothing happens without an [editingProduct]. *)
Definition handleUpdateProduct (pg : page) (editingProduct : option product_row)
           (formData : product_patch) (s : db) : option outcome :=
  match editingProduct with
  | None => None
  | Some product =>
      match update_products pg.(user) product.(p_id) formData s with
      | Ok (_, s') => Some (success pg s')
      | Err _ => Some (failure s)
      end
  end.

(** [confirmed] is the answer to the [confirm(...)] dialog. *)
Definition handleDeleteProduct (pg : page) (confirmed : bool) (productId : uuid) (s : db)
  : option outcome :=
  if negb confirmed then None
  else
    match delete_products pg.(user) productId s with
    | Ok s' => Some (success pg s')
    | Err _ => Some (failure s)
    end.

(** Text within ASCII: every byte below 128. *)
Fixpoint is_ascii (e : string) : bool :=
  match e with
  | EmptyString => true
  | String c rest => Nat.ltb (nat_of_ascii c) 128 && is_ascii rest
  end.

(** [String.prototype.includes]. *)
Fixpoint includes (s sub : string) : bool :=
  String.prefix sub s
  || match s with
     | EmptyString => false
     | String _ rest => includes rest sub
     end.

(** One product against the search box; [None] is the TypeError of
    calling [toLowerCase] on a null column. *)
Definition matchesSearch (searchTerm : string) (product : product_row) : option bool :=
  let term := Client.toLowerCase searchTerm in
  if includes (Client.toLowerCase product.(p_name)) term then Some true
  else
    match product.(p_description) with
    | None => None
    | Some description =>
        if includes (Client.toLowerCase description) term then Some true
        else
          match product.(p_sku) with
          | None => None
          | Some sku => Some (includes (Client.toLowerCase sku) term)
          end
    end.

Fixpoint filteredProducts (searchTerm : string) (products : list product_row)
  : option (list product_row) :=
  match products with
  | [] => Some []
  | product :: rest =>
      match matchesSearch searchTerm product with
      | None => None
      | Some keep =>
          match filteredProducts searchTerm rest with
          | None => None
          | Some l => Some (if keep then product :: l else l)
          end
      end
  end.

End ProductsPage.

(** *** utils/sampleData.ts *)

Module SampleData.

Import Stmt.

Definition addSampleProduct (session : option uuid) (supplierId : uuid) (s : db)
  : result (product_row * db) :=
  insert_products session
    {| pp_name := Some "Sample Product";
       pp_description := Some "This is a sample product for testing purposes";
       pp_unit_price := Some 9999%Z;
       pp_stock_quantity := Some 50%Z;
       pp_min_stock_level := Some 10%Z;
       pp_status := Some "active";
       pp_image_url := None;
       pp_sku := Some "SAMPLE-001";
       pp_supplier_id := Some supplierId |} s.

(** A [throw] leaves what was written before it: the result comes
    with the database as it then is. *)
Definition createSampleSupplier (session : option uuid) (userId : uuid) (s : db)
  : db * result supplier_row :=
  match insert_supplier_profiles session
          {| spp_user_id := Some userId;
             spp_full_name := Some "Sample Supplier";
             spp_business_name := Some "Sample Business";
             spp_business_type := Some "Manufacturing";
             spp_business_address := Some "123 Sample Street, Sample City";
             spp_contact_number := Some "+1234567890";
             spp_fssai_license := Some "FSSAI123456";
             spp_other_certifications := Some ["ISO 9001"; "HACCP"];
             spp_avatar_url := None |} s with
  | Err e => (s, Err e)
  | Ok (_, s1) =>
      match insert_suppliers session
              {| sup_user_id := Some userId;
                 sup_name := Some "Sample Business";
                 sup_contact_email := Some "sample@example.com";
                 sup_address := Some "123 Sample Street, Sample City";
                 sup_status := Some "active" |} s1 with
      | Err e => (s1, Err e)
      | Ok (supplierData, s2) => (s2, Ok supplierData)
      end
  end.

Definition setupSampleData (session : option uuid) (userId : uuid) (s : db)
  : db * result (supplier_row * product_row) :=
  match createSampleSupplier session userId s with
  | (s1, Err e) => (s1, Err e)
  | (s1, Ok supplier) =>
      match addSampleProduct session supplier.(s_id) s1 with
      | Err e => (s1, Err e)
      | Ok (product, s2) => (s2, Ok (supplier, product))
      end
  end.

End SampleData.

(** ** Invariants of the schema *)

(** [user_id ... unique] on the two profile tables. *)
Definition supplier_profiles_unique (s : db) : Prop :=
  NoDup (map sp_user_id s.(supplier_profiles)).

Definition vendor_profiles_unique (s : db) : Prop :=
  NoDup (map vp_user_id s.(vendor_profiles)).

(** What [create_supplier_trigger] maintains: a supplier profile
    comes with a suppliers row of the same account. *)
Definition profiles_have_suppliers (s : db) : Prop :=
  forall p, In p s.(supplier_profiles) -> In p.(sp_user_id) (map s_user_id s.(suppliers)).

(** [references products(id)], [references suppliers(id)]. *)
Definition references_hold (s : db) : Prop :=
  (forall o, In o s.(orders) -> In o.(o_product_id) (map p_id s.(products)))
  /\ (forall o, In o s.(orders) -> In o.(o_supplier_id) (map s_id s.(suppliers)))
  /\ (forall p, In p s.(products) -> In p.(p_supplier_id) (map s_id s.(suppliers))).

(** What one statement can do to the database: nothing, or one of
    the writes below, with what its checks established. *)
Inductive effect (s : db) : db -> Prop :=
| eff_none : effect s s
| eff_role : forall row,
    ~ In row.(ur_user_id) (map ur_user_id s.(user_roles)) ->
    effect s (add_user_role row s)
| eff_profile : forall row sup,
    ~ In row.(sp_user_id) (map sp_user_id s.(supplier_profiles)) ->
    ~ In row.(sp_user_id) (map s_user_id s.(suppliers)) ->
    sup.(s_user_id) = row.(sp_user_id) ->
    effect s (add_supplier sup (add_supplier_profile row s))
| eff_vendor : forall row,
    ~ In row.(vp_user_id) (map vp_user_id s.(vendor_profiles)) ->
    effect s (add_vendor_profile row s)
| eff_supplier : forall row,
    ~ In row.(s_user_id) (map s_user_id s.(suppliers)) ->
    effect s (add_supplier row s)
| eff_product : forall row,
    In row.(p_supplier_id) (map s_id s.(suppliers)) ->
    effect s (add_product row s)
| eff_order : forall row,
    In row.(o_product_id) (map p_id s.(products)) ->
    In row.(o_supplier_id) (map s_id s.(suppliers)) ->
    effect s (add_order row s)
| eff_patch : forall hit f,
    effect s (set_products
                (map (fun r => if hit r : bool then Stmt.patch_product f r else r)
                     s.(products)) s)
| eff_status : forall hit st,
    effect s (set_orders
                (map (fun r => if hit r : bool then Stmt.set_status st r else r)
                     s.(orders)) s)
| eff_delete : forall hit : product_row -> bool,
    (forall o r, In o s.(orders) -> In r s.(products) -> hit r = true ->
                 r.(p_id) <> o.(o_product_id)) ->
    effect s (set_products (filter (fun r => negb (hit r)) s.(products)) s).

(** * Verification *)

(** Peels the checks off a statement that answered [Ok]. *)
Ltac bind_inv H :=
  repeat match type of H with
         | bind (require ?b ?e) _ = Ok _ =>
             let E := fresh "Hreq" in
             destruct b eqn:E; simpl in H; [|discriminate H]
         | bind (not_null ?a) _ = Ok _ =>
             let E := fresh "Hsome" in
             destruct a eqn:E; simpl in H; [|discriminate H]
         | bind ?r _ = Ok _ =>
             let E := fresh "Hres" in
             destruct r eqn:E; simpl in H; [|discriminate H]
         end.

(** Opens the result of an insert inside [Trace.exec]. *)
Ltac after_insert lem :=
  unfold Trace.after, Client.await_unchecked;
  match goal with
  | |- context [match ?r with Ok _ => _ | Err _ => _ end] =>
      let E := fresh "E" in
      destruct r as [[? ?]|?] eqn:E;
      [apply lem in E; decompose [and ex] E; subst; simpl|]
  end.

(** ** Facts about lists used as tables *)

Section TableFacts.

Variables (A K : Type).
Variable key : A -> K.

Lemma filter_none (f : A -> bool) (l : list A) :
  (forall x, In x l -> f x = false) -> filter f l = [].
Proof.
  induction l as [|x l IH]; intros H; simpl; [reflexivity|].
  rewrite (H x (or_introl eq_refl)). apply IH.
  intros y Hy. apply H. now right.
Qed.

Lemma map_unless_hit (f : A -> bool) (g : A -> A) (l : list A) :
  (forall x, In x l -> f x = false) ->
  map (fun x => if f x then g x else x) l = l.
Proof.
  induction l as [|x l IH]; intros H; simpl; [reflexivity|].
  rewrite (H x (or_introl eq_refl)). f_equal. apply IH.
  intros y Hy. apply H. now right.
Qed.

Lemma filter_nil_all_false (f : A -> bool) (l : list A) :
  filter f l = [] -> forall x, In x l -> f x = false.
Proof.
  intros H x Hx. destruct (f x) eqn:E; [|reflexivity].
  assert (Hin : In x (filter f l)) by (apply filter_In; auto).
  rewrite H in Hin. destruct Hin.
Qed.

End TableFacts.

Section UniqueKey.

Variable A : Type.
Variable key : A -> nat.

Lemma existsb_key_false (k : nat) (l : list A) :
  existsb (fun r => Nat.eqb (key r) k) l = false <-> ~ In k (map key l).
Proof.
  induction l as [|x l IH]; simpl.
  - split; [intros _ []|reflexivity].
  - rewrite orb_false_iff, IH, Nat.eqb_neq. tauto.
Qed.

Lemma NoDup_keys_snoc (k : A) (l : list A) :
  NoDup (map key l) -> ~ In (key k) (map key l) -> NoDup (map key (l ++ [k])).
Proof.
  intros Hnd Hnew. rewrite map_app. simpl.
  induction (map key l) as [|y ys IH]; simpl.
  - constructor; [intros []|constructor].
  - inversion_clear Hnd as [|? ? Hy Hys]. constructor.
    + rewrite in_app_iff. simpl. intros [H|[H|[]]]; [tauto|].
      apply Hnew. left. congruence.
    + apply IH; [assumption|]. intros H. apply Hnew. now right.
Qed.

Lemma filter_key_absent (k : nat) (l : list A) :
  ~ In k (map key l) -> filter (fun r => Nat.eqb (key r) k) l = [].
Proof.
  intros H. apply filter_none. intros x Hx.
  apply Nat.eqb_neq. intros E. apply H. rewrite <- E. now apply in_map.
Qed.

Lemma filter_key_unique (x : A) (l : list A) :
  NoDup (map key l) -> In x l ->
  filter (fun r => Nat.eqb (key r) (key x)) l = [x].
Proof.
  induction l as [|y l IH]; simpl; intros Hnd Hin; [destruct Hin|].
  inversion_clear Hnd as [|? ? Hy Hl].
  destruct Hin as [->|Hin].
  - rewrite Nat.eqb_refl. f_equal. now apply filter_key_absent.
  - destruct (Nat.eqb (key y) (key x)) eqn:E.
    + apply Nat.eqb_eq in E. exfalso. apply Hy. rewrite E. now apply in_map.
    + now apply IH.
Qed.

Lemma filter_key_snoc_new (x : A) (l : list A) :
  ~ In (key x) (map key l) ->
  filter (fun r => Nat.eqb (key r) (key x)) (l ++ [x]) = [x].
Proof.
  intros H. rewrite filter_app, filter_key_absent by assumption. simpl.
  now rewrite Nat.eqb_refl.
Qed.

Lemma NoDup_keys_count (k : nat) (l : list A) :
  NoDup (map key l) ->
  List.length (filter (fun r => Nat.eqb (key r) k) l) <= 1.
Proof.
  induction l as [|y l IH]; simpl; intros Hnd; [lia|].
  inversion_clear Hnd as [|? ? Hy Hl].
  destruct (Nat.eqb (key y) k) eqn:E; [|now apply IH].
  apply Nat.eqb_eq in E. subst k.
  rewrite filter_key_absent by assumption. simpl. lia.
Qed.

Lemma NoDup_keys_filter (f : A -> bool) (l : list A) :
  NoDup (map key l) -> NoDup (map key (filter f l)).
Proof.
  induction l as [|y l IH]; simpl; intros Hnd; [constructor|].
  inversion_clear Hnd as [|? ? Hy Hl].
  destruct (f y); simpl; [|now apply IH].
  constructor; [|now apply IH].
  intros H. apply Hy. apply in_map_iff in H. destruct H as [z [Hz Hin]].
  apply filter_In in Hin. apply in_map_iff. exists z. tauto.
Qed.

End UniqueKey.

(** ** Facts about single statements *)

Section StatementFacts.

Import Stmt.

(** Which statements cannot be expanded: those that read or update
    user_roles, and no other. *)
Lemma only_user_roles_recurses (t : Policy.relation) (c : Policy.command) :
  Policy.rewrites t c = false <-> t = Policy.UserRoles /\ c <> Policy.Insert.
Proof.
  split.
  - destruct t, c; intros H; try discriminate H; split; (reflexivity || discriminate).
  - intros [-> H]. destruct c; try reflexivity. now contradiction H.
Qed.

(** So a read of user_roles answers 42P17, for every caller, filter
    and content of the table. *)
Lemma select_user_roles_recursion (uid : option uuid) (where_ : user_role_row -> bool)
      (s : db) :
  select_user_roles uid where_ s = Err RecursionError.
Proof. reflexivity. Qed.

(** And so does an update of user_roles. *)
Lemma update_user_roles_approval_recursion (uid : option uuid) (user_id : uuid)
      (a : text) (s : db) :
  update_user_roles_approval uid user_id a s = Err RecursionError.
Proof. reflexivity. Qed.

Lemma set_orders_same (s : db) : set_orders s.(orders) s = s.
Proof. destruct s; reflexivity. Qed.

Lemma set_products_same (s : db) : set_products s.(products) s = s.
Proof. destruct s; reflexivity. Qed.

(** An order-status update never raises: its effect in closed form. *)
Lemma update_orders_status_closed (uid : option uuid) (id : uuid) (st : text) (s : db) :
  update_orders_status uid id st s =
  Ok (map (set_status st) (filter (orders_hit s uid id) s.(orders)),
      set_orders
        (map (fun r => if orders_hit s uid id r then set_status st r else r) s.(orders))
        s).
Proof.
  unfold update_orders_status.
  destruct (filter (orders_hit s uid id) s.(orders)) as [|x l] eqn:E.
  - simpl. rewrite map_unless_hit by (now apply filter_nil_all_false).
    now rewrite set_orders_same.
  - assert (Hall : forallb (fun r => Policy.orders_update s uid (set_status st r))
                           (x :: l) = true).
    { apply forallb_forall. intros r Hr. rewrite <- E in Hr.
      apply filter_In in Hr. destruct Hr as [_ Hr]. unfold orders_hit in Hr.
      apply andb_prop in Hr. destruct Hr as [Hr _].
      apply andb_prop in Hr. destruct Hr as [_ Hr]. exact Hr. }
    rewrite Hall. reflexivity.
Qed.

Lemma orders_hit_allowed (uid : option uuid) (s : db) (o : order_row) :
  Policy.orders_update s uid o = true ->
  orders_hit s uid o.(o_id) o = true.
Proof.
  intros H. unfold orders_hit. rewrite Nat.eqb_refl, andb_true_r.
  unfold Policy.orders_select. unfold Policy.orders_update in H.
  now rewrite H.
Qed.

Lemma update_orders_status_denied (uid : option uuid) (id : uuid) (st : text) (s : db) :
  (forall o, In o s.(orders) -> o.(o_id) = id -> Policy.orders_update s uid o = false) ->
  update_orders_status uid id st s = Ok ([], s).
Proof.
  intros H. rewrite update_orders_status_closed.
  assert (Hno : forall o, In o s.(orders) -> orders_hit s uid id o = false).
  { intros o Ho. unfold orders_hit.
    destruct (Nat.eqb o.(o_id) id) eqn:E; [|now rewrite andb_false_r].
    apply Nat.eqb_eq in E. rewrite (H o Ho E). now rewrite andb_false_r. }
  rewrite filter_none by assumption.
  rewrite map_unless_hit by assumption.
  now rewrite set_orders_same.
Qed.

End StatementFacts.

(** ** Approval of suppliers *)

Section Approval.

Import Stmt Client.

(** C1 (where the code falls short of it).  The claim lets a
    superadmin, and nobody else, move a RoleAssignment from pending to
    approved or rejected.  In the code nobody can: the policy
    "Superadmins can update all roles" reads user_roles from within a
    policy of user_roles, so every update of user_roles is answered
    with the recursion error 42P17 before any row is looked at.
    [handleApproveSupplier] and [handleRejectSupplier] then show their
    error toast and leave the table as it was, for a superadmin as for
    everyone else.  So the superadmin of the sample marketplace
    (account 3) cannot approve the pending supplier (account 1); and
    what the vendor (account 2) gets for the same request is that
    error too, not a PolicyError. *)
Theorem approval_update_fails_for_every_caller :
  (forall (s : db) (user : option uuid) (userId : uuid),
     (forall a, update_user_roles_approval user userId a s = Err RecursionError)
     /\ handleApproveSupplier user userId s
        = (s, {| title := "Error"; destructive := true |})
     /\ handleRejectSupplier user userId s
        = (s, {| title := "Error"; destructive := true |}))
  /\ Policy.has_superadmin_role (Sample.market "pending") (Some 3) = true
  /\ In Sample.supplier_role (user_roles (Sample.market "pending"))
  /\ Sample.supplier_role.(ur_approval_status) = "pending"
  /\ handleApproveSupplier (Some 3) 1 (Sample.market "pending")
     = (Sample.market "pending", {| title := "Error"; destructive := true |})
  /\ Policy.has_superadmin_role (Sample.market "pending") (Some 2) = false
  /\ update_user_roles_approval (Some 2) 1 "approved" (Sample.market "pending")
     = Err RecursionError
  /\ ~ Spec.reports_forbidden
         (update_user_roles_approval (Some 2) 1 "approved" (Sample.market "pending")).
Proof.
  split; [|split; [|split; [|split; [|split; [|split; [|split]]]]]].
  - intros s user userId. split; [|split].
    + intros a. apply update_user_roles_approval_recursion.
    + unfold handleApproveSupplier.
      now rewrite update_user_roles_approval_recursion.
    + unfold handleRejectSupplier.
      now rewrite update_user_roles_approval_recursion.
  - reflexivity.
  - simpl. auto.
  - reflexivity.
  - unfold handleApproveSupplier.
    now rewrite update_user_roles_approval_recursion.
  - reflexivity.
  - apply update_user_roles_approval_recursion.
  - rewrite update_user_roles_approval_recursion.
    unfold Spec.reports_forbidden. discriminate.
Qed.

End Approval.

(** ** How a denial shows *)

Section Denial.

Import Stmt Client.

Lemma select_orders_denied (uid : option uuid) (where_ : order_row -> bool) (s : db) :
  (forall o, In o s.(orders) -> Policy.orders_select s uid o = false) ->
  select_orders uid where_ s = [].
Proof.
  intros H. unfold select_orders. apply filter_none.
  intros o Ho. now rewrite (H o Ho).
Qed.

Lemma update_orders_status_no_such_order (uid : option uuid) (id : uuid) (st : text)
      (s : db) :
  ~ In id (map o_id s.(orders)) ->
  update_orders_status uid id st s = Ok ([], s).
Proof.
  intros H. apply update_orders_status_denied.
  intros o Ho E. exfalso. apply H. rewrite <- E. now apply in_map.
Qed.

(** C7 (as the code has it).  A denial is a distinct outcome only for
    inserts: a new row whose values fit their columns and that fails
    the table's [with check] policy is refused with a PolicyError.
    Reads and updates of orders are guarded by [using] predicates: a
    denied update or read answers with zero rows and no error, exactly
    as the same request does when it is allowed but matches nothing.
    The products table is readable by anyone: no policy restricts a
    listing to the products of approved suppliers. *)
Theorem denial_is_an_error_only_for_inserts :
  forall (s : db) (uid : option uuid),
    (forall p, Policy.user_roles_insert_check uid p.(urp_user_id) = false ->
               insert_user_roles uid p s = Err PolicyError)
    /\ (forall p, Policy.supplier_profiles_insert_check uid p.(spp_user_id) = false ->
                  insert_supplier_profiles uid p s = Err PolicyError)
    /\ (forall p, Policy.vendor_profiles_insert_check uid p.(vpp_user_id) = false ->
                  insert_vendor_profiles uid p s = Err PolicyError)
    /\ (forall p, Policy.suppliers_insert_check uid p.(sup_user_id) = false ->
                  insert_suppliers uid p s = Err PolicyError)
    /\ (forall p, product_fits p = true ->
                  Policy.products_write s uid p.(pp_supplier_id) = false ->
                  insert_products uid p s = Err PolicyError)
    /\ (forall p, order_fits p = true ->
                  Policy.orders_insert_check uid p.(op_user_id) = false ->
                  insert_orders uid p s = Err PolicyError)
    /\ (forall id st,
          (forall o, In o s.(orders) -> o.(o_id) = id ->
                     Policy.orders_update s uid o = false) ->
          update_orders_status uid id st s = Ok ([], s))
    /\ (forall id st,
          ~ In id (map o_id s.(orders)) ->
          update_orders_status uid id st s = Ok ([], s))
    /\ (forall where_,
          (forall o, In o s.(orders) -> Policy.orders_select s uid o = false) ->
          select_orders uid where_ s = [])
    /\ (forall where_, select_products uid where_ s = filter where_ s.(products)).
Proof.
  intros s uid.
  repeat match goal with |- _ /\ _ => split end.
  - intros p H. unfold insert_user_roles. now rewrite H.
  - intros p H. unfold insert_supplier_profiles. now rewrite H.
  - intros p H. unfold insert_vendor_profiles. now rewrite H.
  - intros p H. unfold insert_suppliers. now rewrite H.
  - intros p Hfit H. unfold insert_products. now rewrite Hfit, H.
  - intros p Hfit H. unfold insert_orders. now rewrite Hfit, H.
  - intros id st H. now apply update_orders_status_denied.
  - intros id st H. now apply update_orders_status_no_such_order.
  - intros where_ H. now apply select_orders_denied.
  - intros where_. unfold select_products. now apply filter_ext.
Qed.

(** The account without a role (4) writes an order in the vendor's
    name: refused.  It then asks to cancel the vendor's order 7, and
    to read it: zero rows, as for the unknown order 99. *)
Lemma denial_is_an_error_only_for_inserts_witness :
  insert_orders (Some 4)
    {| op_user_id := Some 2; op_product_id := Some 6; op_supplier_id := Some 2;
       op_quantity := Some 1%Z; op_unit_price := Some 10000%Z;
       op_total_amount := Some 10000%Z; op_status := Some "pending" |}
    (Sample.market "pending") = Err PolicyError
  /\ update_orders_status (Some 4) 7 "cancelled" (Sample.market "pending")
     = Ok ([], Sample.market "pending")
  /\ update_orders_status (Some 2) 99 "cancelled" (Sample.market "pending")
     = Ok ([], Sample.market "pending")
  /\ select_orders (Some 4) (fun o => Nat.eqb o.(o_id) 7) (Sample.market "pending") = [].
Proof.
  pose proof (denial_is_an_error_only_for_inserts (Sample.market "pending") (Some 4))
    as (_ & _ & _ & _ & _ & Hins & Hupd & _ & Hsel & _).
  pose proof (denial_is_an_error_only_for_inserts (Sample.market "pending") (Some 2))
    as (_ & _ & _ & _ & _ & _ & _ & Hnone & _ & _).
  split; [|split; [|split]].
  - apply Hins; reflexivity.
  - apply Hupd. simpl. intros o [<-|[]] _. reflexivity.
  - apply Hnone. simpl. intros [H|[]]. discriminate H.
  - apply Hsel. simpl. intros o [<-|[]]. reflexivity.
Defined.

(** C7 as stated fails: account 4 may not touch the vendor's order 7;
    its cancel request is denied by policy, yet what it observes is an
    empty result and a success toast, not a PolicyError. *)
Lemma denied_update_looks_like_empty_result :
  Policy.orders_update (Sample.market "pending") (Some 4) (Sample.order_in "pending")
  = false
  /\ update_orders_status (Some 4) 7 "cancelled" (Sample.market "pending")
     = update_orders_status (Some 2) 99 "cancelled" (Sample.market "pending")
  /\ ~ Spec.reports_forbidden
         (update_orders_status (Some 4) 7 "cancelled" (Sample.market "pending"))
  /\ handleCancelOrder (Some 4) true 7 (Sample.market "pending")
     = (Sample.market "pending",
        Some {| title := "Order Cancelled"; destructive := false |}).
Proof.
  repeat split; try reflexivity.
  unfold Spec.reports_forbidden. discriminate.
Qed.

End Denial.

(** ** Order status *)

Section OrderStatus.

Import Stmt Client.

Lemma handleUpdateOrderStatus_closed (user : option uuid) (id : uuid) (st : text) (s : db) :
  handleUpdateOrderStatus user id st s =
  (set_orders
     (map (fun r => if orders_hit s user id r then set_status st r else r) s.(orders)) s,
   updated).
Proof.
  unfold handleUpdateOrderStatus. now rewrite update_orders_status_closed.
Qed.

Lemma handleCancelOrder_closed (user : option uuid) (id : uuid) (s : db) :
  handleCancelOrder user true id s =
  (set_orders
     (map (fun r => if orders_hit s user id r then set_status "cancelled" r else r)
          s.(orders)) s,
   Some cancelled).
Proof.
  unfold handleCancelOrder. simpl. now rewrite update_orders_status_closed.
Qed.

(** A permitted caller's request is applied to the row as it is. *)
Lemma handleUpdateOrderStatus_applies (user : option uuid) (st : text) (s : db)
      (o : order_row) :
  In o s.(orders) ->
  Policy.orders_update s user o = true ->
  In (set_status st o) (orders (fst (handleUpdateOrderStatus user o.(o_id) st s))).
Proof.
  intros Hin Hok. rewrite handleUpdateOrderStatus_closed. simpl.
  apply in_map_iff. exists o. now rewrite orders_hit_allowed.
Qed.

Lemma handleCancelOrder_applies (user : option uuid) (s : db) (o : order_row) :
  In o s.(orders) ->
  Policy.orders_update s user o = true ->
  In (set_status "cancelled" o) (orders (fst (handleCancelOrder user true o.(o_id) s))).
Proof.
  intros Hin Hok. rewrite handleCancelOrder_closed. simpl.
  apply in_map_iff. exists o. now rewrite orders_hit_allowed.
Qed.

Lemma handleUpdateOrderStatus_denied (user : option uuid) (id : uuid) (st : text)
      (s : db) :
  (forall o, In o s.(orders) -> o.(o_id) = id -> Policy.orders_update s user o = false) ->
  handleUpdateOrderStatus user id st s = (s, updated).
Proof.
  intros H. unfold handleUpdateOrderStatus.
  now rewrite update_orders_status_denied.
Qed.

Lemma handleCancelOrder_denied (user : option uuid) (id : uuid) (s : db) :
  (forall o, In o s.(orders) -> o.(o_id) = id -> Policy.orders_update s user o = false) ->
  handleCancelOrder user true id s = (s, Some cancelled).
Proof.
  intros H. unfold handleCancelOrder. simpl.
  now rewrite update_orders_status_denied.
Qed.

(** What the screen offers. *)
Lemma rendered_advance (userRole : option user_role_row) (order : order_row) :
  rendered userRole order AdvanceButton = true ->
  role_is userRole "supplier" = true
  /\ (order.(o_status) = "pending" \/ order.(o_status) = "confirmed").
Proof.
  unfold rendered, canUpdateStatus. intros H.
  destruct (role_is userRole "supplier"); [|discriminate H]. split; [reflexivity|].
  simpl in H. apply orb_prop in H.
  destruct H as [H|H]; apply String.eqb_eq in H; auto.
Qed.

Lemma rendered_cancel (userRole : option user_role_row) (order : order_row) :
  rendered userRole order CancelButton = true ->
  role_is userRole "vendor" = true /\ order.(o_status) = "pending".
Proof.
  unfold rendered. intros H. apply andb_prop in H.
  destruct H as [H1 H2]. apply String.eqb_eq in H2. auto.
Qed.

Lemma rendered_advance_iff (userRole : option user_role_row) (order : order_row) :
  role_is userRole "supplier" = true ->
  rendered userRole order AdvanceButton
  = (String.eqb order.(o_status) "pending" || String.eqb order.(o_status) "confirmed").
Proof.
  intros H. unfold rendered, canUpdateStatus. now rewrite H.
Qed.

(** Repeating a status update changes nothing more. *)
Lemma update_twice (user : option uuid) (id : uuid) (st : text) (s : db) :
  fst (handleUpdateOrderStatus user id st (fst (handleUpdateOrderStatus user id st s)))
  = fst (handleUpdateOrderStatus user id st s).
Proof.
  rewrite !handleUpdateOrderStatus_closed. simpl.
  unfold set_orders. simpl. f_equal.
  rewrite map_map. apply map_ext. intros r.
  change (orders_hit
            {| user_roles := user_roles s;
               supplier_profiles := supplier_profiles s;
               vendor_profiles := vendor_profiles s;
               suppliers := suppliers s;
               products := products s;
               orders := map (fun r0 => if orders_hit s user id r0
                                        then set_status st r0 else r0) (orders s);
               next_uuid := next_uuid s |} user id)
    with (orders_hit s user id).
  destruct (orders_hit s user id r) eqn:E.
  - change (orders_hit s user id (set_status st r)) with (orders_hit s user id r).
    now rewrite E.
  - now rewrite E.
Qed.

(** C4 (as the code has it).  Every status change the Orders screen
    offers, relative to the order as displayed, moves along
    pending->confirmed->shipped->delivered or pending->cancelled, and
    the cancel button is offered only to a vendor and only while the
    displayed order is pending.  The handlers themselves reject
    nothing: a request by the purchaser or by the owning supplier is
    applied to the row whatever its current and requested status, and
    a request by anybody else leaves the order unchanged without an
    error. *)
Theorem order_transitions_gated_by_screen :
  (forall userRole order b,
      rendered userRole order b = true ->
      Spec.allowed_transition order.(o_status) (requested_status order b)
      /\ (b = CancelButton ->
          role_is userRole "vendor" = true /\ order.(o_status) = "pending"))
  /\ (forall s user o st,
        In o s.(orders) ->
        Policy.orders_update s user o = true ->
        In (set_status st o) (orders (fst (handleUpdateOrderStatus user o.(o_id) st s)))
        /\ In (set_status "cancelled" o)
              (orders (fst (handleCancelOrder user true o.(o_id) s))))
  /\ (forall s user id st,
        (forall o, In o s.(orders) -> o.(o_id) = id ->
                   Policy.orders_update s user o = false) ->
        handleUpdateOrderStatus user id st s = (s, updated)
        /\ handleCancelOrder user true id s = (s, Some cancelled)).
Proof.
  split; [|split].
  - intros userRole order [] H.
    + apply rendered_advance in H. destruct H as [_ [H|H]].
      * split; [|discriminate]. simpl. unfold getNextStatus. rewrite H. constructor.
      * split; [|discriminate]. simpl. unfold getNextStatus. rewrite H. constructor.
    + apply rendered_cancel in H. destruct H as [Hv Hp].
      split; [|auto]. simpl. rewrite Hp. constructor.
  - intros s user o st Hin Hok. split.
    + now apply handleUpdateOrderStatus_applies.
    + now apply handleCancelOrder_applies.
  - intros s user id st H. split.
    + now apply handleUpdateOrderStatus_denied.
    + now apply handleCancelOrder_denied.
Qed.

Lemma order_transitions_gated_by_screen_witness :
  (Spec.allowed_transition "pending" "cancelled"
   /\ (CancelButton = CancelButton ->
       role_is (Some Sample.vendor_role) "vendor" = true
       /\ o_status (Sample.order_in "pending") = "pending"))
  /\ In (set_status "shipped" (Sample.order_in "confirmed"))
        (orders (fst (handleUpdateOrderStatus (Some 1) 7 "shipped"
                        (Sample.market "confirmed"))))
  /\ handleUpdateOrderStatus (Some 4) 7 "shipped" (Sample.market "confirmed")
     = (Sample.market "confirmed", updated).
Proof.
  destruct order_transitions_gated_by_screen as (Hui & Hok & Hno).
  split; [|split].
  - apply (Hui (Some Sample.vendor_role) (Sample.order_in "pending") CancelButton).
    reflexivity.
  - apply (Hok (Sample.market "confirmed") (Some 1) (Sample.order_in "confirmed") "shipped").
    + simpl. auto.
    + reflexivity.
  - apply (Hno (Sample.market "confirmed") (Some 4) 7 "shipped").
    simpl. intros o [<-|[]] _. reflexivity.
Defined.

(** C4 as stated fails: the vendor's screen still shows order 7 as
    pending while the supplier has confirmed it.  The cancel request
    is not rejected: the order goes from confirmed to cancelled. *)
Lemma cancel_after_confirmation_accepted :
  rendered (Some Sample.vendor_role) (Sample.order_in "pending") CancelButton = true
  /\ onClick (Some 2) (Some Sample.vendor_role) (Sample.order_in "pending")
             CancelButton true (Sample.market "confirmed")
     = (Sample.market "cancelled", Some cancelled)
  /\ ~ Spec.allowed_transition "confirmed" "cancelled".
Proof.
  split; [reflexivity|]. split; [reflexivity|].
  intros H. inversion H.
Qed.

End OrderStatus.

(** ** No compare-and-swap on order status *)

Section StaleRequests.

Import Stmt Client.

(** C5 (as the code has it).  An order-status update is filtered by
    the order id and the row-level policy only; the row's current
    status is not compared with anything: a permitted caller's request
    is applied whatever the current status.  The handler writes the
    requested status itself, so issuing the same request twice leaves
    the state that issuing it once leaves: two requests computed from
    the same displayed status do not advance the order twice. *)
Theorem status_update_is_unconditional :
  forall (s : db) (user : option uuid) (o : order_row) (st : text),
    In o s.(orders) ->
    Policy.orders_update s user o = true ->
    In (set_status st o) (orders (fst (handleUpdateOrderStatus user o.(o_id) st s)))
    /\ fst (handleUpdateOrderStatus user o.(o_id) st
              (fst (handleUpdateOrderStatus user o.(o_id) st s)))
       = fst (handleUpdateOrderStatus user o.(o_id) st s).
Proof.
  intros s user o st Hin Hok. split.
  - now apply handleUpdateOrderStatus_applies.
  - apply update_twice.
Qed.

Lemma status_update_is_unconditional_witness :
  In (set_status "confirmed" (Sample.order_in "shipped"))
     (orders (fst (handleUpdateOrderStatus (Some 1) 7 "confirmed" (Sample.market "shipped"))))
  /\ fst (handleUpdateOrderStatus (Some 1) 7 "confirmed"
            (fst (handleUpdateOrderStatus (Some 1) 7 "confirmed" (Sample.market "shipped"))))
     = fst (handleUpdateOrderStatus (Some 1) 7 "confirmed" (Sample.market "shipped")).
Proof.
  apply (status_update_is_unconditional (Sample.market "shipped") (Some 1)
           (Sample.order_in "shipped") "confirmed").
  - simpl. auto.
  - reflexivity.
Defined.

(** C5 as stated fails: the supplier (account 1) confirms order 7 from
    a screen that still shows it pending, while the row is already
    shipped.  A compare-and-swap on the expected predecessor would
    leave the row alone; the update is accepted and sets it back to
    confirmed. *)
Lemma stale_confirm_overwrites_shipped :
  getNextStatus (o_status (Sample.order_in "pending")) = "confirmed"
  /\ map (Spec.compare_and_swap "pending" "confirmed") (orders (Sample.market "shipped"))
     = [Sample.order_in "shipped"]
  /\ orders (fst (handleUpdateOrderStatus (Some 1) 7 "confirmed" (Sample.market "shipped")))
     = [Sample.order_in "confirmed"]
  /\ orders (fst (handleUpdateOrderStatus (Some 1) 7 "confirmed" (Sample.market "shipped")))
     <> map (Spec.compare_and_swap "pending" "confirmed") (orders (Sample.market "shipped")).
Proof.
  split; [reflexivity|]. split; [reflexivity|]. split; [reflexivity|].
  discriminate.
Qed.

End StaleRequests.

(** ** The supplier's advance button *)

Section Advance.

Import Stmt Client.

(** C6 (as the code has it).  For an order that is pending or
    confirmed, the owning supplier's advance operation moves it
    exactly one step: pending to confirmed, confirmed to shipped.  For
    a shipped order no advance is offered ([canUpdateStatus] admits
    pending and confirmed only): the click does nothing, and the
    advance button never asks for the delivered state. *)
Theorem supplier_advance_confirms_and_ships :
  forall (s : db) (user : option uuid) (userRole : option user_role_row)
         (o : order_row) (confirmed : bool),
    role_is userRole "supplier" = true ->
    In o s.(orders) ->
    Policy.orders_update s user o = true ->
    (o.(o_status) = "pending" ->
       In (set_status "confirmed" o)
          (orders (fst (onClick user userRole o AdvanceButton confirmed s))))
    /\ (o.(o_status) = "confirmed" ->
          In (set_status "shipped" o)
             (orders (fst (onClick user userRole o AdvanceButton confirmed s))))
    /\ (o.(o_status) = "shipped" ->
          onClick user userRole o AdvanceButton confirmed s = (s, None))
    /\ (rendered userRole o AdvanceButton = true ->
          requested_status o AdvanceButton <> "delivered").
Proof.
  intros s user userRole o confirmed Hrole Hin Hok.
  split; [|split; [|split]].
  - intros Hst. unfold onClick. rewrite rendered_advance_iff by assumption.
    rewrite Hst. simpl. now apply handleUpdateOrderStatus_applies.
  - intros Hst. unfold onClick. rewrite rendered_advance_iff by assumption.
    rewrite Hst. simpl. now apply handleUpdateOrderStatus_applies.
  - intros Hst. unfold onClick. rewrite rendered_advance_iff by assumption.
    rewrite Hst. reflexivity.
  - intros H. apply rendered_advance in H. destruct H as [_ [H|H]];
      simpl; unfold getNextStatus; rewrite H; discriminate.
Qed.

Lemma supplier_advance_confirms_and_ships_witness :
  (o_status (Sample.order_in "confirmed") = "pending" ->
     In (set_status "confirmed" (Sample.order_in "confirmed"))
        (orders (fst (onClick (Some 1) (Some Sample.supplier_role)
                        (Sample.order_in "confirmed") AdvanceButton true
                        (Sample.market "confirmed")))))
  /\ (o_status (Sample.order_in "confirmed") = "confirmed" ->
        In (set_status "shipped" (Sample.order_in "confirmed"))
           (orders (fst (onClick (Some 1) (Some Sample.supplier_role)
                           (Sample.order_in "confirmed") AdvanceButton true
                           (Sample.market "confirmed")))))
  /\ (o_status (Sample.order_in "confirmed") = "shipped" ->
        onClick (Some 1) (Some Sample.supplier_role) (Sample.order_in "confirmed")
                AdvanceButton true (Sample.market "confirmed")
        = (Sample.market "confirmed", None))
  /\ (rendered (Some Sample.supplier_role) (Sample.order_in "confirmed") AdvanceButton
      = true ->
        requested_status (Sample.order_in "confirmed") AdvanceButton <> "delivered").
Proof.
  apply (supplier_advance_confirms_and_ships (Sample.market "confirmed") (Some 1)
           (Some Sample.supplier_role) (Sample.order_in "confirmed") true).
  - reflexivity.
  - simpl. auto.
  - reflexivity.
Defined.

(** C6 as stated fails: order 7 is shipped and its owning supplier
    (account 1) looks at it.  [getNextStatus] would name delivered,
    but the advance button is not rendered, and a click changes
    nothing: the order stays shipped. *)
Lemma shipped_order_is_not_advanced :
  Policy.orders_update (Sample.market "shipped") (Some 1) (Sample.order_in "shipped") = true
  /\ getNextStatus "shipped" = "delivered"
  /\ canUpdateStatus (Some Sample.supplier_role) (Sample.order_in "shipped") = false
  /\ rendered (Some Sample.supplier_role) (Sample.order_in "shipped") AdvanceButton = false
  /\ onClick (Some 1) (Some Sample.supplier_role) (Sample.order_in "shipped")
             AdvanceButton true (Sample.market "shipped")
     = (Sample.market "shipped", None)
  /\ ~ In (Sample.order_in "delivered")
          (orders (fst (onClick (Some 1) (Some Sample.supplier_role)
                          (Sample.order_in "shipped") AdvanceButton true
                          (Sample.market "shipped")))).
Proof.
  repeat (split; [reflexivity|]).
  simpl. intros [H|[]]. discriminate H.
Qed.

End Advance.

(** ** Inversion of successful statements *)

Section Inversion.

Import Stmt.

Lemma insert_user_roles_ok (uid : option uuid) (p : user_role_payload) (s s' : db)
      (row : user_role_row) :
  insert_user_roles uid p s = Ok (row, s') ->
  s' = add_user_role row s
  /\ uid = Some row.(ur_user_id)
  /\ p.(urp_user_id) = Some row.(ur_user_id)
  /\ p.(urp_role) = Some row.(ur_role)
  /\ row.(ur_approval_status) = with_default "pending" p.(urp_approval_status)
  /\ role_check row.(ur_role) = true
  /\ approval_status_check row.(ur_approval_status) = true
  /\ ~ In row.(ur_user_id) (map ur_user_id s.(user_roles)).
Proof.
  intros H. unfold insert_user_roles in H. bind_inv H.
  injection H as <- <-. simpl.
  apply negb_true_iff in Hreq2. apply existsb_key_false in Hreq2.
  unfold Policy.user_roles_insert_check, sql_eq_uuid in Hreq.
  destruct uid as [c|]; [|discriminate Hreq]. try rewrite Hsome in Hreq.
  apply Nat.eqb_eq in Hreq. subst c. auto 10.
Qed.

Lemma insert_suppliers_ok (uid : option uuid) (p : supplier_payload) (s s' : db)
      (row : supplier_row) :
  insert_suppliers uid p s = Ok (row, s') ->
  s' = add_supplier row s
  /\ uid = Some row.(s_user_id)
  /\ p.(sup_user_id) = Some row.(s_user_id)
  /\ p.(sup_name) = Some row.(s_name)
  /\ row.(s_contact_email) = p.(sup_contact_email)
  /\ row.(s_address) = p.(sup_address)
  /\ row.(s_status) = with_default "active" p.(sup_status)
  /\ row.(s_id) = s.(next_uuid)
  /\ ~ In row.(s_user_id) (map s_user_id s.(suppliers)).
Proof.
  intros H. unfold insert_suppliers in H. bind_inv H.
  injection H as <- <-. simpl.
  apply negb_true_iff in Hreq0. apply existsb_key_false in Hreq0.
  unfold Policy.suppliers_insert_check, sql_eq_uuid in Hreq.
  destruct uid as [c|]; [|discriminate Hreq]. try rewrite Hsome in Hreq.
  apply Nat.eqb_eq in Hreq. subst c. auto 10.
Qed.

(** A second suppliers row for an account is a uniqueness violation. *)
Lemma insert_suppliers_duplicate (uid : option uuid) (p : supplier_payload) (s : db)
      (u : uuid) (n : text) :
  uid = Some u ->
  p.(sup_user_id) = Some u ->
  p.(sup_name) = Some n ->
  In u (map s_user_id s.(suppliers)) ->
  insert_suppliers uid p s = Err (ConstraintError UniqueViolation).
Proof.
  intros -> Hu Hn Hin. unfold insert_suppliers.
  rewrite Hu, Hn. unfold Policy.suppliers_insert_check. simpl.
  rewrite Nat.eqb_refl. simpl.
  destruct (existsb (fun r => Nat.eqb r.(s_user_id) u) s.(suppliers)) eqn:E;
    [reflexivity|].
  apply existsb_key_false in E. contradiction.
Qed.

(** Inside the trigger the new profile is the only row the caller's
    sub-queries find. *)
Lemma trigger_sees_new_profile (row : supplier_profile_row) (s : db) (u : uuid) :
  row.(sp_user_id) = u ->
  ~ In u (map sp_user_id s.(supplier_profiles)) ->
  select_supplier_profiles (Some u)
    (fun r => Nat.eqb r.(sp_user_id) row.(sp_user_id)) (add_supplier_profile row s)
  = [row].
Proof.
  intros <- Hnew. unfold select_supplier_profiles. simpl.
  rewrite filter_app. rewrite filter_none.
  - simpl. unfold Policy.supplier_profiles_select. simpl.
    now rewrite !Nat.eqb_refl.
  - intros x Hx. apply andb_false_iff. right. apply Nat.eqb_neq.
    intros E. apply Hnew. rewrite <- E. now apply in_map.
Qed.

Lemma insert_supplier_profiles_ok (uid : option uuid) (p : supplier_profile_payload)
      (s s' : db) (row : supplier_profile_row) :
  insert_supplier_profiles uid p s = Ok (row, s') ->
  exists sup,
    s' = add_supplier sup (add_supplier_profile row s)
    /\ uid = Some row.(sp_user_id)
    /\ p.(spp_user_id) = Some row.(sp_user_id)
    /\ row.(sp_business_name) = p.(spp_business_name)
    /\ row.(sp_contact_number) = p.(spp_contact_number)
    /\ row.(sp_business_address) = p.(spp_business_address)
    /\ ~ In row.(sp_user_id) (map sp_user_id s.(supplier_profiles))
    /\ sup.(s_user_id) = row.(sp_user_id)
    /\ row.(sp_business_name) = Some sup.(s_name)
    /\ sup.(s_contact_email) = row.(sp_contact_number)
    /\ sup.(s_address) = None
    /\ sup.(s_status) = "active"
    /\ ~ In row.(sp_user_id) (map s_user_id s.(suppliers)).
Proof.
  intros H. unfold insert_supplier_profiles in H. bind_inv H.
  injection H as <- <-.
  apply negb_true_iff in Hreq0. apply existsb_key_false in Hreq0.
  unfold Policy.supplier_profiles_insert_check, sql_eq_uuid in Hreq.
  destruct uid as [c|]; [|discriminate Hreq]. try rewrite Hsome in Hreq.
  apply Nat.eqb_eq in Hreq. subst c.
  unfold create_supplier_for_user in Hres.
  match type of Hres with
  | context [add_supplier_profile ?r s] => set (row := r) in *
  end.
  rewrite (@trigger_sees_new_profile row s u eq_refl Hreq0) in Hres.
  simpl in Hres. bind_inv Hres. injection Hres as <-.
  match goal with
  | Hins : insert_suppliers _ _ _ = Ok ?x |- _ =>
      destruct x as [sup s2]; apply insert_suppliers_ok in Hins; simpl in Hins;
      destruct Hins as (-> & _ & Hu & Hn & Hc & Ha & Hs & _ & Hnew)
  end.
  injection Hu as Hu.
  exists sup. subst row. simpl. rewrite <- Hu in *. auto 15.
Qed.

Lemma insert_vendor_profiles_ok (uid : option uuid) (p : vendor_profile_payload)
      (s s' : db) (row : vendor_profile_row) :
  insert_vendor_profiles uid p s = Ok (row, s') ->
  s' = add_vendor_profile row s.
Proof.
  intros H. unfold insert_vendor_profiles in H. bind_inv H.
  now injection H as <- <-.
Qed.

Lemma insert_products_ok (uid : option uuid) (p : product_payload) (s s' : db)
      (row : product_row) :
  insert_products uid p s = Ok (row, s') ->
  s' = add_product row s.
Proof.
  intros H. unfold insert_products in H. bind_inv H.
  now injection H as <- <-.
Qed.

Lemma insert_orders_ok (uid : option uuid) (p : order_payload) (s s' : db)
      (row : order_row) :
  insert_orders uid p s = Ok (row, s') ->
  s' = add_order row s
  /\ p.(op_quantity) = Some row.(o_quantity)
  /\ p.(op_unit_price) = Some row.(o_unit_price)
  /\ p.(op_total_amount) = Some row.(o_total_amount)
  /\ row.(o_status) = with_default "pending" p.(op_status)
  /\ p.(op_user_id) = Some row.(o_user_id)
  /\ p.(op_product_id) = Some row.(o_product_id)
  /\ p.(op_supplier_id) = Some row.(o_supplier_id).
Proof.
  intros H. unfold insert_orders in H. bind_inv H.
  injection H as <- <-. simpl. auto 10.
Qed.

End Inversion.

(** ** Which statements touch user_roles *)

Section RoleFrame.

Import Stmt Trace.

Lemma insert_supplier_profiles_roles (uid : option uuid) (p : supplier_profile_payload)
      (s : db) :
  user_roles (after (insert_supplier_profiles uid p s) s) = user_roles s.
Proof.
  unfold after, Client.await_unchecked.
  destruct (insert_supplier_profiles uid p s) as [[row s']|e] eqn:E; [|reflexivity].
  apply insert_supplier_profiles_ok in E. destruct E as (sup & -> & _). reflexivity.
Qed.

Lemma insert_vendor_profiles_roles (uid : option uuid) (p : vendor_profile_payload)
      (s : db) :
  user_roles (after (insert_vendor_profiles uid p s) s) = user_roles s.
Proof.
  unfold after, Client.await_unchecked.
  destruct (insert_vendor_profiles uid p s) as [[row s']|e] eqn:E; [|reflexivity].
  apply insert_vendor_profiles_ok in E. now subst s'.
Qed.

Lemma insert_suppliers_roles (uid : option uuid) (p : supplier_payload) (s : db) :
  user_roles (after (insert_suppliers uid p s) s) = user_roles s.
Proof.
  unfold after, Client.await_unchecked.
  destruct (insert_suppliers uid p s) as [[row s']|e] eqn:E; [|reflexivity].
  apply insert_suppliers_ok in E. destruct E as (-> & _). reflexivity.
Qed.

Lemma insert_products_roles (uid : option uuid) (p : product_payload) (s : db) :
  user_roles (after (insert_products uid p s) s) = user_roles s.
Proof.
  unfold after, Client.await_unchecked.
  destruct (insert_products uid p s) as [[row s']|e] eqn:E; [|reflexivity].
  apply insert_products_ok in E. now subst s'.
Qed.

Lemma insert_orders_roles (uid : option uuid) (p : order_payload) (s : db) :
  user_roles (after (insert_orders uid p s) s) = user_roles s.
Proof.
  unfold after, Client.await_unchecked.
  destruct (insert_orders uid p s) as [[row s']|e] eqn:E; [|reflexivity].
  apply insert_orders_ok in E. destruct E as (-> & _). reflexivity.
Qed.

Lemma update_orders_status_roles (uid : option uuid) (id : uuid) (st : text) (s : db) :
  user_roles (after (update_orders_status uid id st s) s) = user_roles s.
Proof.
  rewrite update_orders_status_closed. reflexivity.
Qed.

(** An insert into user_roles adds nothing, or one row for an account
    that had none. *)
Lemma insert_user_roles_roles (uid : option uuid) (p : user_role_payload) (s : db) :
  user_roles (after (insert_user_roles uid p s) s) = user_roles s
  \/ exists row,
      insert_user_roles uid p s = Ok (row, add_user_role row s)
      /\ user_roles (after (insert_user_roles uid p s) s) = user_roles s ++ [row]
      /\ ~ In row.(ur_user_id) (map ur_user_id s.(user_roles)).
Proof.
  unfold after, Client.await_unchecked.
  destruct (insert_user_roles uid p s) as [[row s']|e] eqn:E; [|now left].
  right. exists row. apply insert_user_roles_ok in E.
  destruct E as (-> & _ & _ & _ & _ & _ & _ & Hnew). auto.
Qed.

Lemma exec_accounts (uid : option uuid) (st : statement) (s : db) :
  map ur_user_id (user_roles (exec uid st s)) = map ur_user_id (user_roles s)
  \/ exists row,
      user_roles (exec uid st s) = user_roles s ++ [row]
      /\ ~ In row.(ur_user_id) (map ur_user_id s.(user_roles)).
Proof.
  destruct st; simpl.
  - destruct (insert_user_roles_roles uid p s) as [H|[row [_ [H Hnew]]]].
    + left. now rewrite H.
    + right. now exists row.
  - left. now rewrite insert_supplier_profiles_roles.
  - left. now rewrite insert_vendor_profiles_roles.
  - left. now rewrite insert_suppliers_roles.
  - left. now rewrite insert_products_roles.
  - left. now rewrite insert_orders_roles.
  - left. reflexivity.
  - left. unfold after, Client.await_unchecked, update_products, bind, require.
    destruct (patch_fits f); reflexivity.
  - left. now rewrite update_orders_status_roles.
  - left. unfold delete_products, bind, require.
    destruct (negb _); reflexivity.
Qed.

Lemma exec_roles_unique (uid : option uuid) (st : statement) (s : db) :
  user_roles_unique s -> user_roles_unique (exec uid st s).
Proof.
  unfold user_roles_unique. intros H.
  destruct (exec_accounts uid st s) as [E|[row [E Hnew]]].
  - now rewrite E.
  - rewrite E. now apply NoDup_keys_snoc.
Qed.

Lemma run_roles_unique (tr : list (option uuid * statement)) (s : db) :
  user_roles_unique s -> user_roles_unique (run tr s).
Proof.
  revert s. induction tr as [|[uid st] tr IH]; intros s H; simpl; [exact H|].
  apply IH. now apply exec_roles_unique.
Qed.

(** A second row for an account that has one is refused, whoever asks
    and whatever the row says. *)
Lemma insert_user_roles_second (uid : option uuid) (p : user_role_payload) (s : db)
      (r : user_role_row) :
  In r s.(user_roles) ->
  p.(urp_user_id) = Some r.(ur_user_id) ->
  exists e, insert_user_roles uid p s = Err e.
Proof.
  intros Hin Hp.
  destruct (insert_user_roles uid p s) as [[row s']|e] eqn:E; [|now exists e].
  apply insert_user_roles_ok in E.
  destruct E as (_ & _ & Hu & _ & _ & _ & _ & Hnew).
  exfalso. apply Hnew. rewrite Hp in Hu. injection Hu as <-.
  now apply in_map.
Qed.

(** The handlers are such statement sequences. *)
Lemma provision_is_a_trace (email : string) (userData : Client.user_data) (user : uuid)
      (s : db) :
  Client.provision email userData user s
  = run (signUp_statements email userData user) s.
Proof.
  unfold Client.provision, signUp_statements.
  destruct (is_text (Client.finalRole email userData) "supplier"); [reflexivity|].
  destruct (is_text (Client.finalRole email userData) "vendor"); reflexivity.
Qed.

Lemma handlers_are_statements (user : option uuid) (id : uuid) (st : text) (s : db) :
  fst (Client.handleApproveSupplier user id s) = exec user (UpdateApproval id "approved") s
  /\ fst (Client.handleRejectSupplier user id s) = exec user (UpdateApproval id "rejected") s
  /\ fst (Client.handleUpdateOrderStatus user id st s) = exec user (UpdateOrderStatus id st) s
  /\ fst (Client.handleCancelOrder user true id s)
     = exec user (UpdateOrderStatus id "cancelled") s.
Proof.
  unfold Client.handleApproveSupplier, Client.handleRejectSupplier,
    Client.handleUpdateOrderStatus, Client.handleCancelOrder, exec, after,
    Client.await_unchecked.
  simpl.
  repeat split;
    match goal with
    | |- context [match ?x with _ => _ end] => destruct x as [[? ?]|?]; reflexivity
    end.
Qed.

End RoleFrame.

(** ** One RoleAssignment per account *)

Section RoleUniqueness.

Import Stmt Trace.

(** C3.  Whatever statements the sessions of the system send, in
    whatever order they interleave, the accounts of the user_roles
    rows stay pairwise distinct: every account has at most one
    RoleAssignment, and an insert for an account that already has one
    is refused. *)
Theorem role_assignment_unique :
  forall (tr : list (option uuid * statement)) (s : db),
    user_roles_unique s ->
    user_roles_unique (run tr s)
    /\ (forall u,
          List.length (filter (fun r => Nat.eqb r.(ur_user_id) u) (user_roles (run tr s)))
          <= 1)
    /\ (forall uid p r,
          In r (user_roles (run tr s)) ->
          p.(urp_user_id) = Some r.(ur_user_id) ->
          exists e, insert_user_roles uid p (run tr s) = Err e).
Proof.
  intros tr s H.
  pose proof (run_roles_unique tr H) as Hrun.
  split; [exact Hrun|]. split.
  - intros u. now apply NoDup_keys_count.
  - intros uid p r. apply insert_user_roles_second.
Qed.

(** Two sign-ups for account 1 with different forms, their statements
    interleaved, starting from an empty database. *)
Lemma role_assignment_unique_witness :
  user_roles_unique
    (run [ (Some 1, InsertUserRole (Client.role_payload "a@x.org" Sample.acme_form 1));
           (Some 1, InsertUserRole (Client.role_payload "A@X.ORG" Sample.acme_form 1));
           (Some 1, InsertSupplierProfile (Client.profile_payload Sample.acme_form 1)) ]
         empty_db)
  /\ (forall u,
        List.length
          (filter (fun r => Nat.eqb r.(ur_user_id) u)
             (user_roles
                (run [ (Some 1, InsertUserRole
                                  (Client.role_payload "a@x.org" Sample.acme_form 1));
                       (Some 1, InsertUserRole
                                  (Client.role_payload "A@X.ORG" Sample.acme_form 1));
                       (Some 1, InsertSupplierProfile
                                  (Client.profile_payload Sample.acme_form 1)) ]
                     empty_db)))
        <= 1)
  /\ (forall uid p r,
        In r (user_roles
                (run [ (Some 1, InsertUserRole
                                  (Client.role_payload "a@x.org" Sample.acme_form 1));
                       (Some 1, InsertUserRole
                                  (Client.role_payload "A@X.ORG" Sample.acme_form 1));
                       (Some 1, InsertSupplierProfile
                                  (Client.profile_payload Sample.acme_form 1)) ]
                     empty_db)) ->
        p.(urp_user_id) = Some r.(ur_user_id) ->
        exists e,
          insert_user_roles uid p
            (run [ (Some 1, InsertUserRole
                              (Client.role_payload "a@x.org" Sample.acme_form 1));
                   (Some 1, InsertUserRole
                              (Client.role_payload "A@X.ORG" Sample.acme_form 1));
                   (Some 1, InsertSupplierProfile
                              (Client.profile_payload Sample.acme_form 1)) ]
                 empty_db)
          = Err e).
Proof.
  apply role_assignment_unique.
  unfold user_roles_unique. simpl. constructor.
Defined.

Lemma exec_keeps_accounts (uid : option uuid) (st : statement) (s : db) (u : uuid) :
  In u (map ur_user_id (user_roles s)) ->
  In u (map ur_user_id (user_roles (exec uid st s))).
Proof.
  intros H. destruct (exec_accounts uid st s) as [E|[row [E _]]].
  - now rewrite E.
  - rewrite E, map_app, in_app_iff. now left.
Qed.

Lemma run_keeps_accounts (tr : list (option uuid * statement)) (s : db) (u : uuid) :
  In u (map ur_user_id (user_roles s)) ->
  In u (map ur_user_id (user_roles (run tr s))).
Proof.
  revert s. induction tr as [|[uid st] tr IH]; intros s H; simpl; [exact H|].
  apply IH. now apply exec_keeps_accounts.
Qed.

(** The role insert of a sign-up goes through for an account without
    a role, when the final role is one of the three. *)
Lemma role_insert_succeeds (email : string) (userData : Client.user_data) (user : uuid)
      (role : text) (s : db) :
  Client.finalRole email userData = Some role ->
  role_check role = true ->
  ~ In user (map ur_user_id s.(user_roles)) ->
  exists row,
    insert_user_roles (Some user) (Client.role_payload email userData user) s
    = Ok (row, add_user_role row s)
    /\ row.(ur_user_id) = user /\ row.(ur_role) = role.
Proof.
  intros Hrole Hcheck Hnew.
  unfold insert_user_roles, Client.role_payload.
  simpl. unfold Policy.user_roles_insert_check. simpl.
  rewrite Nat.eqb_refl, Hrole. simpl. rewrite Hcheck. simpl.
  assert (E : existsb (fun r => Nat.eqb r.(ur_user_id) user) s.(user_roles) = false)
    by now apply existsb_key_false.
  destruct (String.eqb role "supplier" && negb (Client.isHardcodedSuperadmin email));
    simpl; rewrite E; simpl; eexists; repeat split.
Qed.

(** In particular: two sign-ups of one new identity that both passed
    the "User role already exists" pre-check leave exactly one
    RoleAssignment for it, however their statements interleave. *)
Lemma concurrent_sign_ups_one_role (email1 email2 : string)
      (form1 form2 : Client.user_data) (role1 role2 : text) (user : uuid)
      (tr : list (option uuid * statement)) (s : db) :
  user_roles_unique s ->
  ~ In user (map ur_user_id s.(user_roles)) ->
  Client.finalRole email1 form1 = Some role1 -> role_check role1 = true ->
  Client.finalRole email2 form2 = Some role2 -> role_check role2 = true ->
  interleave (signUp_statements email1 form1 user)
             (signUp_statements email2 form2 user) tr ->
  List.length (filter (fun r => Nat.eqb r.(ur_user_id) user) (user_roles (run tr s))) = 1.
Proof.
  intros Huniq Hnew Hr1 Hc1 Hr2 Hc2 Hint.
  assert (Hin : In user (map ur_user_id (user_roles (run tr s)))).
  { unfold signUp_statements in Hint.
    inversion Hint as [|x l1 l2 l Hrest|x l1 l2 l Hrest]; subst; simpl;
      apply run_keeps_accounts; unfold after, Client.await_unchecked.
    - destruct (@role_insert_succeeds email1 form1 user role1 s Hr1 Hc1 Hnew) as (row & -> & Hu & _).
      simpl. rewrite map_app, in_app_iff. right. simpl. now left.
    - destruct (@role_insert_succeeds email2 form2 user role2 s Hr2 Hc2 Hnew) as (row & -> & Hu & _).
      simpl. rewrite map_app, in_app_iff. right. simpl. now left. }
  pose proof (@NoDup_keys_count _ ur_user_id user _ (run_roles_unique tr Huniq)) as Hle.
  apply in_map_iff in Hin. destruct Hin as (r & Hu & Hr).
  assert (Hf : In r (filter (fun r => Nat.eqb r.(ur_user_id) user) (user_roles (run tr s)))).
  { apply filter_In. split; [exact Hr|]. now apply Nat.eqb_eq. }
  destruct (filter _ (user_roles (run tr s))) as [|x [|y l]]; simpl in *.
  - destruct Hf.
  - reflexivity.
  - lia.
Qed.

End RoleUniqueness.

(** ** Sign-up provisioning *)

Section SignUp.

Import Stmt Client.

Lemma eqb_lowercase (a b : string) :
  toLowerCase b = b ->
  String.eqb (toLowerCase a) b = Spec.eqb_ignore_case a b.
Proof.
  revert b. induction a as [|x a IH]; intros [|y b] Hb; simpl; try reflexivity.
  simpl in Hb. injection Hb as Hy Hb'.
  rewrite Hy, (IH b Hb').
  now destruct (Ascii.eqb (lower_ascii x) y).
Qed.

(** The comparison of [signUp] is equality up to letter case. *)
Lemma isHardcodedSuperadmin_spec (email : string) :
  isHardcodedSuperadmin email = Spec.eqb_ignore_case email Spec.bootstrap_superadmin.
Proof.
  unfold isHardcodedSuperadmin. now apply eqb_lowercase.
Qed.

Lemma provision_roles (email : string) (userData : user_data) (user : uuid) (s : db) :
  user_roles (provision email userData user s)
  = user_roles (Trace.after
                  (insert_user_roles (Some user) (role_payload email userData user) s) s).
Proof.
  unfold provision. fold (Trace.after (A := user_role_row)).
  set (s1 := Trace.after (insert_user_roles _ _ s) s).
  destruct (is_text (finalRole email userData) "supplier").
  - fold (Trace.after (A := supplier_row)). rewrite insert_suppliers_roles.
    fold (Trace.after (A := supplier_profile_row)).
    now rewrite insert_supplier_profiles_roles.
  - destruct (is_text (finalRole email userData) "vendor"); [|reflexivity].
    fold (Trace.after (A := vendor_profile_row)).
    now rewrite insert_vendor_profiles_roles.
Qed.

(** The row [signUp] writes, when the insert goes through. *)
Lemma role_payload_row (email : string) (userData : user_data) (user : uuid) (s s' : db)
      (r : user_role_row) :
  insert_user_roles (Some user) (role_payload email userData user) s = Ok (r, s') ->
  r.(ur_user_id) = user
  /\ if isHardcodedSuperadmin email
     then r.(ur_role) = "superadmin" /\ r.(ur_approval_status) = "approved"
     else userData.(ud_role) = Some r.(ur_role)
          /\ (r.(ur_role) = "supplier" -> r.(ur_approval_status) = "pending")
          /\ (r.(ur_role) <> "supplier" -> r.(ur_approval_status) = "approved").
Proof.
  intros H. apply insert_user_roles_ok in H.
  destruct H as (_ & _ & Hu & Hr & Ha & _).
  unfold role_payload in *. simpl in *. unfold finalRole in *.
  split; [now injection Hu|].
  destruct (isHardcodedSuperadmin email).
  - injection Hr as <-. simpl in Ha. auto.
  - rewrite Hr in Ha. simpl in Ha. rewrite andb_true_r in Ha.
    split; [exact Hr|]. split; intros E.
    + rewrite E in Ha. exact Ha.
    + apply String.eqb_neq in E. rewrite E in Ha. exact Ha.
Qed.

(** The pre-check of [signUp] never finds a role: its read of
    user_roles is answered with an error, [data] is null, and the
    error is not looked at. *)
Lemma precheck_finds_nothing (session : option uuid) (userData : user_data) (s : db) :
  data_single (select_user_roles session
                 (fun r => sql_eq_uuid (Some r.(ur_user_id)) userData.(ud_id)) s)
  = None.
Proof. now rewrite select_user_roles_recursion. Qed.

Lemma signUp_provisions (session : option uuid) (email : string) (userData : user_data)
      (user : uuid) (s : db) :
  signUp session email userData (SignedUp user) s
  = (provision email userData user s, NoError).
Proof. unfold signUp. now rewrite precheck_finds_nothing. Qed.

(** The row of [role_payload_row], in the words of the claim. *)
Lemma role_payload_assigned (email : string) (userData : user_data) (user : uuid)
      (s s' : db) (r : user_role_row) :
  insert_user_roles (Some user) (role_payload email userData user) s = Ok (r, s') ->
  r.(ur_user_id) = user /\ Spec.assigned email userData.(ud_role) r.
Proof.
  intros H. apply role_payload_row in H. destruct H as [Hu Hrow].
  split; [exact Hu|]. unfold Spec.assigned.
  rewrite <- isHardcodedSuperadmin_spec.
  destruct (isHardcodedSuperadmin email); [exact Hrow|].
  destruct Hrow as (Hr & Hp & Ha). split; [exact Hr|]. split; [exact Hp|].
  intros [E|E]; apply Ha; rewrite E; discriminate.
Qed.

(** C2.  A sign-up creates at most one RoleAssignment, and it does
    create one for an account that has none when the email is the
    bootstrap-superadmin address or the requested role is one of
    supplier, vendor, superadmin.  If the email equals the
    bootstrap-superadmin address up to letter case, the created row has
    role superadmin and status approved whatever role was requested;
    otherwise it has the requested role, with status pending for a
    supplier and approved for a vendor or a superadmin. *)
Theorem signUp_role_assignment :
  forall (session : option uuid) (email : string) (userData : user_data)
         (auth : auth_outcome) (s : db),
    (user_roles (fst (signUp session email userData auth s)) = user_roles s
     \/ exists r,
         user_roles (fst (signUp session email userData auth s)) = user_roles s ++ [r]
         /\ auth = SignedUp r.(ur_user_id)
         /\ Spec.assigned email userData.(ud_role) r)
    /\ (forall user,
          auth = SignedUp user ->
          ~ In user (map ur_user_id s.(user_roles)) ->
          Spec.eqb_ignore_case email Spec.bootstrap_superadmin = true
          \/ (exists role, userData.(ud_role) = Some role /\ role_check role = true) ->
          exists r,
            user_roles (fst (signUp session email userData auth s)) = user_roles s ++ [r]
            /\ r.(ur_user_id) = user
            /\ Spec.assigned email userData.(ud_role) r).
Proof.
  intros session email userData auth s. split.
  - unfold signUp. rewrite precheck_finds_nothing.
    destruct auth as [| |user]; [now left|now left|]. simpl.
    rewrite provision_roles.
    destruct (insert_user_roles_roles (Some user) (role_payload email userData user) s)
      as [H|[r (Hins & H & _)]]; [now left|].
    right. exists r. split; [exact H|].
    apply role_payload_assigned in Hins. destruct Hins as [Hu Hrow].
    split; [now rewrite Hu|exact Hrow].
  - intros user -> Hnew Hrole.
    assert (Hfinal : exists role, finalRole email userData = Some role
                                  /\ role_check role = true).
    { unfold finalRole. rewrite isHardcodedSuperadmin_spec.
      destruct (Spec.eqb_ignore_case email Spec.bootstrap_superadmin).
      - exists "superadmin". now split.
      - destruct Hrole as [H|H]; [discriminate H|exact H]. }
    destruct Hfinal as (role & Hfinal & Hcheck).
    destruct (@role_insert_succeeds email userData user role s Hfinal Hcheck Hnew)
      as (row & Hins & _).
    exists row. rewrite signUp_provisions. simpl. rewrite provision_roles.
    unfold Trace.after, await_unchecked. rewrite Hins. simpl.
    split; [reflexivity|]. now apply role_payload_assigned in Hins.
Qed.

(** The sign-up of account 1 under the bootstrap address, written in
    capitals, with the supplier's form, on an empty database. *)
Lemma signUp_role_assignment_witness :
  exists r,
    user_roles (fst (signUp None "FieronRhys@Gmail.COM" Sample.acme_form (SignedUp 1)
                       empty_db))
    = user_roles empty_db ++ [r]
    /\ r.(ur_user_id) = 1
    /\ Spec.assigned "FieronRhys@Gmail.COM" (Some "supplier") r.
Proof.
  destruct (signUp_role_assignment None "FieronRhys@Gmail.COM" Sample.acme_form
              (SignedUp 1) empty_db) as [_ H].
  apply (H 1).
  - reflexivity.
  - simpl. auto.
  - left. reflexivity.
Defined.

(** The three cases on the sample form, from an empty database. *)
Lemma signUp_examples :
  user_roles (fst (signUp None "a.supplier@example.org" Sample.acme_form (SignedUp 1)
                     empty_db))
  = [ {| ur_id := 0; ur_user_id := 1; ur_role := "supplier";
         ur_approval_status := "pending" |} ]
  /\ user_roles (fst (signUp None "FieronRhys@Gmail.COM" Sample.acme_form (SignedUp 1)
                        empty_db))
     = [ {| ur_id := 0; ur_user_id := 1; ur_role := "superadmin";
            ur_approval_status := "approved" |} ]
  /\ Spec.eqb_ignore_case "FieronRhys@Gmail.COM" Spec.bootstrap_superadmin = true
  /\ Spec.eqb_ignore_case "a.supplier@example.org" Spec.bootstrap_superadmin = false.
Proof.
  repeat split.
Qed.

End SignUp.

(** ** Which statements touch suppliers *)

Section SupplierFrame.

Import Stmt Trace.

Lemma exec_suppliers (uid : option uuid) (st : statement) (s : db) :
  suppliers (exec uid st s) = suppliers s
  \/ exists row,
      suppliers (exec uid st s) = suppliers s ++ [row]
      /\ ~ In row.(s_user_id) (map s_user_id s.(suppliers)).
Proof.
  destruct st; simpl; unfold after, Client.await_unchecked.
  - destruct (insert_user_roles uid p s) as [[row s']|e] eqn:E; [|now left].
    apply insert_user_roles_ok in E. destruct E as (-> & _). now left.
  - destruct (insert_supplier_profiles uid p s) as [[row s']|e] eqn:E; [|now left].
    apply insert_supplier_profiles_ok in E.
    destruct E as (sup & -> & _ & _ & _ & _ & _ & _ & Hsu & _ & _ & _ & _ & Hnew).
    right. exists sup. split; [reflexivity|]. now rewrite Hsu.
  - destruct (insert_vendor_profiles uid p s) as [[row s']|e] eqn:E; [|now left].
    apply insert_vendor_profiles_ok in E. subst s'. now left.
  - destruct (insert_suppliers uid p s) as [[row s']|e] eqn:E; [|now left].
    apply insert_suppliers_ok in E.
    destruct E as (-> & _ & _ & _ & _ & _ & _ & _ & Hnew).
    right. now exists row.
  - destruct (insert_products uid p s) as [[row s']|e] eqn:E; [|now left].
    apply insert_products_ok in E. subst s'. now left.
  - destruct (insert_orders uid p s) as [[row s']|e] eqn:E; [|now left].
    apply insert_orders_ok in E. destruct E as (-> & _). now left.
  - now left.
  - left. unfold update_products, bind, require.
    destruct (patch_fits f); reflexivity.
  - left. now rewrite update_orders_status_closed.
  - left. unfold delete_products, bind, require.
    destruct (negb _); reflexivity.
Qed.

Lemma exec_suppliers_unique (uid : option uuid) (st : statement) (s : db) :
  suppliers_unique s -> suppliers_unique (exec uid st s).
Proof.
  unfold suppliers_unique. intros H.
  destruct (exec_suppliers uid st s) as [E|[row [E Hnew]]].
  - now rewrite E.
  - rewrite E. now apply NoDup_keys_snoc.
Qed.

Lemma run_suppliers_unique (tr : list (option uuid * statement)) (s : db) :
  suppliers_unique s -> suppliers_unique (run tr s).
Proof.
  revert s. induction tr as [|[uid st] tr IH]; intros s H; simpl; [exact H|].
  apply IH. now apply exec_suppliers_unique.
Qed.

(** [ensureSupplierRecord] writes at most one statement. *)
Lemma ensure_is_a_statement (u : uuid) (s : db) :
  fst (Client.ensureSupplierRecord (Some u) s) = s
  \/ exists p, fst (Client.ensureSupplierRecord (Some u) s) = exec (Some u) (InsertSupplier p) s.
Proof.
  unfold Client.ensureSupplierRecord.
  destruct (single (select_suppliers (Some u) _ s)); [now left|].
  destruct (single (select_supplier_profiles (Some u) _ s)) as [profile|]; [|now left].
  right.
  exists {| sup_user_id := Some u;
            sup_name := profile.(sp_business_name);
            sup_contact_email := profile.(sp_contact_number);
            sup_address := profile.(sp_business_address);
            sup_status := Some "active" |}.
  simpl. unfold after, Client.await_unchecked.
  destruct (insert_suppliers (Some u) _ s) as [[row s']|e]; reflexivity.
Qed.

End SupplierFrame.

(** ** The suppliers row of an account *)

Section SupplierRecord.

Import Stmt Client.

Lemma select_suppliers_by_account (uid : option uuid) (u : uuid) (s : db) :
  select_suppliers uid (fun r => Nat.eqb r.(s_user_id) u) s
  = filter (fun r => Nat.eqb r.(s_user_id) u) s.(suppliers).
Proof.
  unfold select_suppliers. now apply filter_ext.
Qed.

Lemma select_own_profile (u : uuid) (s : db) :
  select_supplier_profiles (Some u) (fun r => Nat.eqb r.(sp_user_id) u) s
  = filter (fun r => Nat.eqb r.(sp_user_id) u) s.(supplier_profiles).
Proof.
  unfold select_supplier_profiles. apply filter_ext. intros r.
  unfold Policy.supplier_profiles_select. simpl.
  rewrite (Nat.eqb_sym u).
  destruct (Nat.eqb r.(sp_user_id) u); [reflexivity|apply andb_false_r].
Qed.

Lemma ensure_again (u : uuid) (s : db) :
  ensureSupplierRecord (Some u) (fst (ensureSupplierRecord (Some u) s))
  = ensureSupplierRecord (Some u) s.
Proof.
  unfold ensureSupplierRecord at 2 3.
  destruct (single (select_suppliers (Some u) _ s)) as [found|] eqn:Efound.
  - simpl. unfold ensureSupplierRecord. now rewrite Efound.
  - destruct (single (select_supplier_profiles (Some u) _ s)) as [profile|] eqn:Eprof.
    + destruct (insert_suppliers (Some u) _ s) as [[row s']|e] eqn:Eins.
      * simpl. apply insert_suppliers_ok in Eins. simpl in Eins.
        destruct Eins as (-> & _ & Hu & _ & _ & _ & _ & _ & Hnew).
        injection Hu as Hu. unfold ensureSupplierRecord.
        rewrite select_suppliers_by_account. simpl.
        rewrite Hu. rewrite filter_key_snoc_new by assumption. reflexivity.
      * simpl. unfold ensureSupplierRecord. now rewrite Efound, Eprof, Eins.
    + simpl. unfold ensureSupplierRecord. now rewrite Efound, Eprof.
Qed.

Lemma ensure_keeps_unique (user : option uuid) (s : db) :
  suppliers_unique s -> suppliers_unique (fst (ensureSupplierRecord user s)).
Proof.
  intros H. unfold ensureSupplierRecord.
  destruct user as [u|]; [|exact H].
  destruct (single (select_suppliers (Some u) _ s)); [exact H|].
  destruct (single (select_supplier_profiles (Some u) _ s)); [|exact H].
  destruct (insert_suppliers (Some u) _ s) as [[row s']|e] eqn:Eins; [|exact H].
  apply insert_suppliers_ok in Eins.
  destruct Eins as (-> & _ & _ & _ & _ & _ & _ & _ & Hnew).
  unfold suppliers_unique. simpl. now apply NoDup_keys_snoc.
Qed.

Lemma ensure_synthesizes (u : uuid) (s : db) (p : supplier_profile_row) (n : text) :
  ~ In u (map s_user_id s.(suppliers)) ->
  NoDup (map sp_user_id s.(supplier_profiles)) ->
  In p s.(supplier_profiles) ->
  p.(sp_user_id) = u ->
  p.(sp_business_name) = Some n ->
  ensureSupplierRecord (Some u) s
  = (add_supplier (synthesized s.(next_uuid) u n p) s, Some s.(next_uuid)).
Proof.
  intros Hnone Hnd Hin Hu Hn. unfold ensureSupplierRecord.
  rewrite select_suppliers_by_account, filter_key_absent by assumption. simpl.
  rewrite select_own_profile. rewrite <- Hu.
  rewrite filter_key_unique by assumption. simpl.
  unfold insert_suppliers, Policy.suppliers_insert_check. simpl.
  rewrite Nat.eqb_refl, Hn. simpl.
  assert (E : existsb (fun r => Nat.eqb r.(s_user_id) p.(sp_user_id)) s.(suppliers) = false).
  { apply existsb_key_false. now rewrite Hu. }
  rewrite E. reflexivity.
Qed.

(** A profile without a business name gives no suppliers row: the
    insert fails on [name text not null], the handler logs the error
    and returns null. *)
Lemma ensure_refuses_nameless (u : uuid) (s : db) (p : supplier_profile_row) :
  ~ In u (map s_user_id s.(suppliers)) ->
  NoDup (map sp_user_id s.(supplier_profiles)) ->
  In p s.(supplier_profiles) ->
  p.(sp_user_id) = u ->
  p.(sp_business_name) = None ->
  ensureSupplierRecord (Some u) s = (s, None).
Proof.
  intros Hnone Hnd Hin Hu Hn. unfold ensureSupplierRecord.
  rewrite select_suppliers_by_account, filter_key_absent by assumption. simpl.
  rewrite select_own_profile. rewrite <- Hu.
  rewrite filter_key_unique by assumption. simpl.
  unfold insert_suppliers, Policy.suppliers_insert_check. simpl.
  now rewrite Nat.eqb_refl, Hn.
Qed.

(** C8 (as the code has it).  [ensureSupplierRecord] is idempotent: a
    second call returns the state and the record id of the first, so
    repeated calls never add a second suppliers row, and the accounts
    of the suppliers rows stay pairwise distinct, also when the
    statements of several sessions interleave.  When the account has
    no suppliers row and has a profile with a business name, the row
    is synthesized from the profile: name from business_name, contact
    from contact_number, address from business_address, status active.
    When the profile has no business name nothing is synthesized: the
    database is left as it was and null is returned. *)
Theorem ensureSupplierRecord_idempotent :
  forall (u : uuid) (s : db),
    ensureSupplierRecord (Some u) (fst (ensureSupplierRecord (Some u) s))
    = ensureSupplierRecord (Some u) s
    /\ (suppliers_unique s -> suppliers_unique (fst (ensureSupplierRecord (Some u) s)))
    /\ (forall tr, suppliers_unique s -> suppliers_unique (Trace.run tr s))
    /\ (forall p,
          ~ In u (map s_user_id s.(suppliers)) ->
          NoDup (map sp_user_id s.(supplier_profiles)) ->
          In p s.(supplier_profiles) ->
          p.(sp_user_id) = u ->
          match p.(sp_business_name) with
          | Some n =>
              ensureSupplierRecord (Some u) s
              = (add_supplier (synthesized s.(next_uuid) u n p) s, Some s.(next_uuid))
          | None => ensureSupplierRecord (Some u) s = (s, None)
          end).
Proof.
  intros u s. split; [apply ensure_again|]. split; [|split].
  - apply ensure_keeps_unique.
  - intros tr. apply run_suppliers_unique.
  - intros p Hnone Hnd Hin Hu.
    destruct p.(sp_business_name) as [n|] eqn:Hn.
    + now apply ensure_synthesizes.
    + now apply (@ensure_refuses_nameless u s p).
Qed.

Lemma ensureSupplierRecord_idempotent_witness :
  ensureSupplierRecord (Some 1) Sample.legacy
  = (add_supplier (synthesized 2 1 "Acme" Sample.acme_profile) Sample.legacy, Some 2)
  /\ suppliers_unique (fst (ensureSupplierRecord (Some 1) Sample.legacy))
  /\ ensureSupplierRecord (Some 1) (fst (ensureSupplierRecord (Some 1) Sample.legacy))
     = ensureSupplierRecord (Some 1) Sample.legacy.
Proof.
  destruct (ensureSupplierRecord_idempotent 1 Sample.legacy) as (Hidem & Huniq & _ & Hsyn).
  split; [|split].
  - apply (Hsyn Sample.acme_profile).
    + simpl. intros [].
    + simpl. constructor; [intros []|constructor].
    + simpl. auto.
    + reflexivity.
  - apply Huniq. unfold suppliers_unique. simpl. constructor.
  - exact Hidem.
Defined.

(** C8 as stated fails: account 1 has a profile and no suppliers row,
    yet no row is synthesized from the profile, because the profile
    has no business name to take the name from. *)
Lemma nameless_profile_is_not_synthesized :
  In Sample.nameless_profile (supplier_profiles Sample.legacy_nameless)
  /\ Sample.nameless_profile.(sp_user_id) = 1
  /\ suppliers Sample.legacy_nameless = []
  /\ ensureSupplierRecord (Some 1) Sample.legacy_nameless
     = (Sample.legacy_nameless, None)
  /\ suppliers (fst (ensureSupplierRecord (Some 1) Sample.legacy_nameless)) = [].
Proof.
  repeat split. simpl. auto.
Qed.

End SupplierRecord.

(** ** Placing an order *)

Section PlaceOrder.

Import Stmt Client.

(** When the product's supplier is on file, the product is in the
    catalogue with a price that fits its column, and the caller is
    signed in, the order is created. *)
Lemma handlePlaceOrder_creates (u : uuid) (product : product_row) (price : Z)
      (sup : supplier_row) (s : db) :
  single (select_suppliers (Some u) (fun r => Nat.eqb r.(s_id) product.(p_supplier_id)) s)
  = Some sup ->
  In product s.(products) ->
  product.(p_unit_price) = Some price ->
  fits_decimal_10_2 price = true ->
  handlePlaceOrder (Some u) product s
  = (add_order {| o_id := s.(next_uuid); o_user_id := u;
                  o_product_id := product.(p_id);
                  o_supplier_id := product.(p_supplier_id);
                  o_quantity := 1; o_unit_price := price; o_total_amount := price;
                  o_status := "pending" |} s,
     placed).
Proof.
  intros Hsup Hin Hprice Hfits. unfold handlePlaceOrder. rewrite Hsup.
  assert (Hsel : In sup (select_suppliers (Some u)
                           (fun r => Nat.eqb r.(s_id) product.(p_supplier_id)) s)).
  { destruct (select_suppliers (Some u) _ s) as [|x [|y l]]; try discriminate Hsup.
    injection Hsup as ->. now left. }
  apply filter_In in Hsel. destruct Hsel as [Hsin Hid]. simpl in Hid.
  apply Nat.eqb_eq in Hid.
  unfold insert_orders, order_fits, Policy.orders_insert_check. simpl.
  rewrite Nat.eqb_refl, Hprice. simpl. rewrite Hfits. simpl.
  assert (E1 : existsb (fun r => Nat.eqb r.(p_id) product.(p_id)) s.(products) = true).
  { apply existsb_exists. exists product. split; [exact Hin|apply Nat.eqb_refl]. }
  assert (E2 : existsb (fun r => Nat.eqb r.(s_id) sup.(s_id)) s.(suppliers) = true).
  { apply existsb_exists. exists sup. split; [exact Hsin|apply Nat.eqb_refl]. }
  rewrite E1, E2. simpl. now rewrite Hid.
Qed.

(** C9.  [handlePlaceOrder] creates at most one OrderRecord; the
    created record is for one unit at the product's unit price, its
    total_amount is quantity x unit_price, and its status is pending.
    In particular the vendor's order for one unit of the product
    priced 100.00 is created with total_amount 100.00 and status
    pending. *)
Theorem placed_order_total :
  forall (user : option uuid) (product : product_row) (s : db),
    (orders (fst (handlePlaceOrder user product s)) = orders s
     \/ exists o,
         orders (fst (handlePlaceOrder user product s)) = orders s ++ [o]
         /\ o.(o_total_amount) = (o.(o_quantity) * o.(o_unit_price))%Z
         /\ o.(o_status) = "pending"
         /\ o.(o_quantity) = 1%Z
         /\ product.(p_unit_price) = Some o.(o_unit_price)
         /\ o.(o_product_id) = product.(p_id)
         /\ user = Some o.(o_user_id))
    /\ handlePlaceOrder (Some 2) Sample.rice Sample.catalogue
       = (Sample.market "pending", placed)
    /\ orders (Sample.market "pending")
       = [ {| o_id := 7; o_user_id := 2; o_product_id := 6; o_supplier_id := 2;
              o_quantity := 1; o_unit_price := 100 * 100; o_total_amount := 100 * 100;
              o_status := "pending" |} ].
Proof.
  intros user product s. split; [|split; reflexivity].
  unfold handlePlaceOrder.
  destruct (single (select_suppliers user _ s)) as [sup|]; [|now left].
  destruct (insert_orders user _ s) as [[o s']|e] eqn:E; [|now left].
  right. exists o. apply insert_orders_ok in E. simpl in E.
  destruct E as (-> & Hq & Hp & Ht & Hs & Hu & Hpid & _).
  injection Hq as Hq. injection Hpid as Hpid.
  split; [reflexivity|]. split.
  - rewrite Hp in Ht. injection Ht as Ht. rewrite <- Hq, <- Ht. lia.
  - auto.
Qed.

End PlaceOrder.

(** ** The supplier trigger *)

Section SupplierTrigger.

Import Stmt Client.

(** In [signUp] the "backward compatibility" insert follows the
    profile insert: when the latter went through it always collides. *)
Lemma backward_compat_insert_collides (userData : user_data) (user : uuid)
      (s s' : db) (row : supplier_profile_row) :
  insert_supplier_profiles (Some user) (profile_payload userData user) s = Ok (row, s') ->
  insert_suppliers (Some user) (backward_compat_payload userData user) s'
  = Err (ConstraintError UniqueViolation).
Proof.
  intros H. apply insert_supplier_profiles_ok in H.
  destruct H as (sup & -> & _ & Hu & Hb & _ & _ & _ & Hsu & Hn & _).
  simpl in Hu, Hb. injection Hu as Hu.
  apply insert_suppliers_duplicate with (u := user) (n := sup.(s_name)).
  - reflexivity.
  - reflexivity.
  - simpl. now rewrite <- Hb.
  - simpl. rewrite map_app, in_app_iff. right. simpl. left. congruence.
Qed.

(** C10.  A successful insert into supplier_profiles leaves a
    suppliers row for the same account, inserted by
    [create_supplier_trigger] with name and contact_email copied from
    the profile's business_name and contact_number.  The explicit
    suppliers insert that [signUp] performs next collides with it on
    the uniqueness of suppliers.user_id and fails with a uniqueness
    ConstraintError; the accounts of the suppliers rows stay pairwise
    distinct. *)
Theorem profile_insert_creates_supplier :
  forall (uid : option uuid) (p : supplier_profile_payload) (s s' : db)
         (row : supplier_profile_row),
    insert_supplier_profiles uid p s = Ok (row, s') ->
    (exists sup,
        suppliers s' = suppliers s ++ [sup]
        /\ sup.(s_user_id) = row.(sp_user_id)
        /\ Some sup.(s_name) = row.(sp_business_name)
        /\ sup.(s_contact_email) = row.(sp_contact_number)
        /\ p.(spp_user_id) = Some row.(sp_user_id)
        /\ row.(sp_business_name) = p.(spp_business_name)
        /\ row.(sp_contact_number) = p.(spp_contact_number))
    /\ (forall userData user,
          uid = Some user ->
          p = profile_payload userData user ->
          insert_suppliers uid (backward_compat_payload userData user) s'
          = Err (ConstraintError UniqueViolation))
    /\ (suppliers_unique s -> suppliers_unique s').
Proof.
  intros uid p s s' row H. split; [|split].
  - apply insert_supplier_profiles_ok in H.
    destruct H as (sup & -> & _ & Hu & Hb & Hc & _ & _ & Hsu & Hn & Hce & _).
    exists sup. simpl. auto 10.
  - intros userData user -> ->.
    now apply backward_compat_insert_collides with (s := s) (row := row).
  - intros Huniq. apply insert_supplier_profiles_ok in H.
    destruct H as (sup & -> & _ & _ & _ & _ & _ & _ & Hsu & _ & _ & _ & _ & Hnew).
    unfold suppliers_unique. simpl. apply NoDup_keys_snoc; [exact Huniq|].
    now rewrite Hsu.
Qed.

Lemma profile_insert_creates_supplier_witness :
  (exists sup,
      suppliers (snd (Sample.acme_profile,
                      add_supplier Sample.acme
                        (add_supplier_profile Sample.acme_profile
                           (add_user_role Sample.supplier_role empty_db))))
      = suppliers (add_user_role Sample.supplier_role empty_db) ++ [sup]
      /\ sup.(s_user_id) = 1
      /\ Some sup.(s_name) = Some "Acme"
      /\ sup.(s_contact_email) = Some "+1234567890"
      /\ spp_user_id (profile_payload Sample.acme_form 1) = Some 1
      /\ Some "Acme" = spp_business_name (profile_payload Sample.acme_form 1)
      /\ Some "+1234567890" = spp_contact_number (profile_payload Sample.acme_form 1))
  /\ (forall userData user,
        Some 1 = Some user ->
        profile_payload Sample.acme_form 1 = profile_payload userData user ->
        insert_suppliers (Some 1) (backward_compat_payload userData user)
          (add_supplier Sample.acme
             (add_supplier_profile Sample.acme_profile
                (add_user_role Sample.supplier_role empty_db)))
        = Err (ConstraintError UniqueViolation))
  /\ (suppliers_unique (add_user_role Sample.supplier_role empty_db) ->
      suppliers_unique
        (add_supplier Sample.acme
           (add_supplier_profile Sample.acme_profile
              (add_user_role Sample.supplier_role empty_db)))).
Proof.
  apply (profile_insert_creates_supplier (Some 1) (profile_payload Sample.acme_form 1)
           (add_user_role Sample.supplier_role empty_db)
           (s' := add_supplier Sample.acme
                    (add_supplier_profile Sample.acme_profile
                       (add_user_role Sample.supplier_role empty_db)))
           (row := Sample.acme_profile)).
  reflexivity.
Defined.

(** The whole sign-up of the sample supplier: one role, one profile,
    and the one suppliers row the trigger made. *)
Lemma supplier_sign_up_example :
  fst (signUp None "a.supplier@example.org" Sample.acme_form (SignedUp 1) empty_db)
  = {| user_roles := [Sample.supplier_role];
       supplier_profiles := [Sample.acme_profile];
       vendor_profiles := [];
       suppliers := [Sample.acme];
       products := [];
       orders := [];
       next_uuid := 3 |}.
Proof. reflexivity. Qed.

End SupplierTrigger.

(** * More of the code *)

(** ** The effect of one statement *)

Section Effects.

Import Stmt Trace.

Lemma insert_vendor_profiles_fresh (uid : option uuid) (p : vendor_profile_payload)
      (s s' : db) (row : vendor_profile_row) :
  insert_vendor_profiles uid p s = Ok (row, s') ->
  s' = add_vendor_profile row s
  /\ ~ In row.(vp_user_id) (map vp_user_id s.(vendor_profiles)).
Proof.
  intros H. unfold insert_vendor_profiles in H. bind_inv H.
  injection H as <- <-. simpl. split; [reflexivity|].
  apply negb_true_iff in Hreq0. now apply existsb_key_false in Hreq0.
Qed.

Lemma insert_products_checked (uid : option uuid) (p : product_payload) (s s' : db)
      (row : product_row) :
  insert_products uid p s = Ok (row, s') ->
  s' = add_product row s
  /\ p.(pp_supplier_id) = Some row.(p_supplier_id)
  /\ p.(pp_name) = Some row.(p_name)
  /\ row.(p_sku) = p.(pp_sku)
  /\ row.(p_id) = s.(next_uuid)
  /\ Policy.owns_supplier s uid row.(p_supplier_id) = true
  /\ In row.(p_supplier_id) (map s_id s.(suppliers)).
Proof.
  intros H. unfold insert_products in H. bind_inv H.
  injection H as <- <-. simpl.
  repeat split; try reflexivity.
  - unfold Policy.products_write in Hreq0. try rewrite Hsome0 in Hreq0. exact Hreq0.
  - apply existsb_exists in Hreq1. destruct Hreq1 as (r & Hr & E).
    apply Nat.eqb_eq in E. rewrite <- E. now apply in_map.
Qed.

Lemma insert_orders_checked (uid : option uuid) (p : order_payload) (s s' : db)
      (row : order_row) :
  insert_orders uid p s = Ok (row, s') ->
  In row.(o_product_id) (map p_id s.(products))
  /\ In row.(o_supplier_id) (map s_id s.(suppliers)).
Proof.
  intros H. unfold insert_orders in H. bind_inv H.
  injection H as <- <-. simpl. split.
  - apply existsb_exists in Hreq1. destruct Hreq1 as (r & Hr & E).
    apply Nat.eqb_eq in E. rewrite <- E. now apply in_map.
  - apply existsb_exists in Hreq2. destruct Hreq2 as (r & Hr & E).
    apply Nat.eqb_eq in E. rewrite <- E. now apply in_map.
Qed.

Lemma exec_effect (uid : option uuid) (st : statement) (s : db) :
  effect s (exec uid st s).
Proof.
  destruct st; simpl; unfold after, Client.await_unchecked.
  - destruct (insert_user_roles uid p s) as [[row s']|e] eqn:E; [|constructor].
    apply insert_user_roles_ok in E.
    destruct E as (-> & _ & _ & _ & _ & _ & _ & Hnew). now constructor.
  - destruct (insert_supplier_profiles uid p s) as [[row s']|e] eqn:E; [|constructor].
    apply insert_supplier_profiles_ok in E.
    destruct E as (sup & -> & _ & _ & _ & _ & _ & Hp & Hsu & _ & _ & _ & _ & Hnew).
    now constructor.
  - destruct (insert_vendor_profiles uid p s) as [[row s']|e] eqn:E; [|constructor].
    apply insert_vendor_profiles_fresh in E. destruct E as (-> & Hnew).
    now constructor.
  - destruct (insert_suppliers uid p s) as [[row s']|e] eqn:E; [|constructor].
    apply insert_suppliers_ok in E.
    destruct E as (-> & _ & _ & _ & _ & _ & _ & _ & Hnew). now constructor.
  - destruct (insert_products uid p s) as [[row s']|e] eqn:E; [|constructor].
    apply insert_products_checked in E.
    destruct E as (-> & _ & _ & _ & _ & _ & Hfk). now constructor.
  - destruct (insert_orders uid p s) as [[row s']|e] eqn:E; [|constructor].
    pose proof (insert_orders_checked _ _ _ E) as [Hp Hs].
    apply insert_orders_ok in E. destruct E as (-> & _). now constructor.
  - constructor.
  - unfold update_products, bind, require.
    destruct (patch_fits f); [apply eff_patch|constructor].
  - rewrite update_orders_status_closed. apply eff_status.
  - unfold delete_products, bind, require.
    destruct (negb _) eqn:E; [|constructor].
    apply eff_delete. intros o r Ho Hr Hhit Heq.
    apply negb_true_iff in E.
    assert (Hex : existsb
                    (fun o0 => existsb
                       (fun r0 =>
                          Policy.products_select s uid r0
                          && Policy.products_write s uid (Some (p_supplier_id r0))
                          && Nat.eqb (p_id r0) id
                          && Nat.eqb (p_id r0) (o_product_id o0))
                       (products s))
                    (orders s) = true).
    { apply existsb_exists. exists o. split; [exact Ho|].
      apply existsb_exists. exists r. split; [exact Hr|].
      rewrite Hhit. simpl. now apply Nat.eqb_eq. }
    rewrite Hex in E. discriminate E.
Qed.

End Effects.

(** ** Invariants of the schema, over every interleaving *)

Section SchemaInvariants.

Import Stmt Trace.

Lemma in_map_if (A : Type) (hit : A -> bool) (g : A -> A) (l : list A) (x : A) :
  In x (map (fun r => if hit r then g r else r) l) ->
  exists r, In r l /\ (x = g r \/ x = r).
Proof.
  intros H. apply in_map_iff in H. destruct H as (r & E & Hr).
  exists r. split; [exact Hr|]. destruct (hit r); auto.
Qed.

Lemma map_if_keys (A K : Type) (key : A -> K) (hit : A -> bool) (g : A -> A) (l : list A) :
  (forall r, key (g r) = key r) ->
  map key (map (fun r => if hit r then g r else r) l) = map key l.
Proof.
  intros Hg. rewrite map_map. apply map_ext. intros r. destruct (hit r); auto.
Qed.

Lemma effect_references (s s' : db) :
  effect s s' -> references_hold s -> references_hold s'.
Proof.
  unfold references_hold.
  intros He (Hop & Hos & Hps). destruct He; simpl.
  - auto.
  - auto.
  - repeat split; intros x Hx; try (rewrite map_app, in_app_iff; left); auto.
  - auto.
  - repeat split; intros x Hx; try (rewrite map_app, in_app_iff; left); auto.
  - split; [|split].
    + intros o Ho. rewrite map_app, in_app_iff. left. auto.
    + auto.
    + intros p Hp. apply in_app_iff in Hp. destruct Hp as [Hp|[<-|[]]]; auto.
  - split; [|split].
    + intros o Ho. apply in_app_iff in Ho. destruct Ho as [Ho|[<-|[]]]; auto.
    + intros o Ho. apply in_app_iff in Ho. destruct Ho as [Ho|[<-|[]]]; auto.
    + auto.
  - split; [|split].
    + intros o Ho. rewrite map_if_keys by reflexivity. auto.
    + auto.
    + intros p Hp. apply in_map_if in Hp. destruct Hp as (r & Hr & [->| ->]); simpl; auto.
  - split; [|split].
    + intros o Ho. apply in_map_if in Ho. destruct Ho as (r & Hr & [->| ->]); simpl; auto.
    + intros o Ho. apply in_map_if in Ho. destruct Ho as (r & Hr & [->| ->]); simpl; auto.
    + auto.
  - split; [|split].
    + intros o Ho. pose proof (Hop o Ho) as Hin.
      apply in_map_iff in Hin. destruct Hin as (r & E & Hr).
      apply in_map_iff. exists r. split; [exact E|].
      apply filter_In. split; [exact Hr|].
      destruct (hit r) eqn:Eh; [|reflexivity].
      exfalso. exact (H o r Ho Hr Eh E).
    + auto.
    + intros p Hp. apply filter_In in Hp. destruct Hp as [Hp _]. auto.
Qed.

Lemma effect_profiles_unique (s s' : db) :
  effect s s' ->
  supplier_profiles_unique s /\ vendor_profiles_unique s ->
  supplier_profiles_unique s' /\ vendor_profiles_unique s'.
Proof.
  unfold supplier_profiles_unique, vendor_profiles_unique.
  intros He [Hs Hv]. destruct He; simpl; auto.
  - split; [|exact Hv]. now apply NoDup_keys_snoc.
  - split; [exact Hs|]. now apply NoDup_keys_snoc.
Qed.

Lemma effect_profiles_have_suppliers (s s' : db) :
  effect s s' -> profiles_have_suppliers s -> profiles_have_suppliers s'.
Proof.
  unfold profiles_have_suppliers.
  intros He Hinv. destruct He; simpl; auto.
  - intros p Hp. rewrite map_app, in_app_iff.
    apply in_app_iff in Hp. destruct Hp as [Hp|[<-|[]]].
    + left. auto.
    + right. simpl. left. assumption.
  - intros p Hp. rewrite map_app, in_app_iff. left. auto.
Qed.

Lemma run_effects (P : db -> Prop) :
  (forall s s', effect s s' -> P s -> P s') ->
  forall tr s, P s -> P (run tr s).
Proof.
  intros Hstep tr. induction tr as [|[uid st] tr IH]; intros s H; simpl; [exact H|].
  apply IH. apply (Hstep s); [apply exec_effect|exact H].
Qed.

(** X1.  Referential integrity: over every interleaving of
    statements, each order keeps pointing to a product and a
    suppliers row that exist, and each product to a suppliers row
    that exists.  A product that an order points to is never
    deleted. *)
Theorem references_hold_always :
  forall (tr : list (option uuid * statement)) (s : db),
    references_hold s -> references_hold (run tr s).
Proof.
  intros tr s. apply run_effects. exact effect_references.
Qed.

Lemma references_hold_always_witness :
  references_hold
    (run [ (Some 1, DeleteProduct 6); (Some 2, UpdateOrderStatus 7 "cancelled") ]
         (Sample.market "pending")).
Proof.
  apply references_hold_always. unfold references_hold. simpl.
  repeat split; intros x [<-|[]]; simpl; auto.
Defined.

(** X2.  At most one supplier profile and one vendor profile per
    account, over every interleaving of statements. *)
Theorem profiles_unique_always :
  forall (tr : list (option uuid * statement)) (s : db),
    supplier_profiles_unique s /\ vendor_profiles_unique s ->
    supplier_profiles_unique (run tr s) /\ vendor_profiles_unique (run tr s).
Proof.
  intros tr s.
  apply (run_effects (fun s => supplier_profiles_unique s /\ vendor_profiles_unique s)).
  exact effect_profiles_unique.
Qed.

Lemma profiles_unique_always_witness :
  supplier_profiles_unique
    (run [ (Some 1, InsertSupplierProfile (Client.profile_payload Sample.acme_form 1));
           (Some 1, InsertSupplierProfile (Client.profile_payload Sample.acme_form 1)) ]
         empty_db)
  /\ vendor_profiles_unique
       (run [ (Some 1, InsertSupplierProfile (Client.profile_payload Sample.acme_form 1));
              (Some 1, InsertSupplierProfile (Client.profile_payload Sample.acme_form 1)) ]
            empty_db).
Proof.
  apply profiles_unique_always. split; constructor.
Defined.

(** X3.  What the trigger maintains: over every interleaving of
    statements, an account with a supplier profile has a suppliers
    row. *)
Theorem profiles_have_suppliers_always :
  forall (tr : list (option uuid * statement)) (s : db),
    profiles_have_suppliers s -> profiles_have_suppliers (run tr s).
Proof.
  intros tr s. apply run_effects. exact effect_profiles_have_suppliers.
Qed.

Lemma profiles_have_suppliers_always_witness :
  profiles_have_suppliers
    (run [ (Some 1, InsertSupplierProfile (Client.profile_payload Sample.acme_form 1)) ]
         empty_db).
Proof.
  apply profiles_have_suppliers_always. intros p [].
Defined.

End SchemaInvariants.

(** ** What a caller cannot touch *)

Section Isolation.

Import Stmt Trace.

Lemma exec_keeps_foreign_products (uid : option uuid) (st : statement) (s : db)
      (p : product_row) :
  In p s.(products) ->
  Policy.owns_supplier s uid p.(p_supplier_id) = false ->
  In p (products (exec uid st s)).
Proof.
  intros Hin Hown. destruct st; simpl.
  - after_insert insert_user_roles_ok; auto.
  - after_insert insert_supplier_profiles_ok; auto.
  - after_insert insert_vendor_profiles_ok; auto.
  - after_insert insert_suppliers_ok; auto.
  - after_insert insert_products_ok; auto. apply in_app_iff. now left.
  - after_insert insert_orders_ok; auto.
  - exact Hin.
  - unfold after, Client.await_unchecked, update_products, bind, require.
    destruct (patch_fits f); [|exact Hin]. simpl.
    apply in_map_iff. exists p. split; [|exact Hin].
    unfold Policy.products_write, Policy.products_select. rewrite Hown. reflexivity.
  - unfold after, Client.await_unchecked. rewrite update_orders_status_closed. exact Hin.
  - unfold delete_products, bind, require.
    destruct (negb _); [|exact Hin]. simpl.
    apply filter_In. split; [exact Hin|].
    unfold Policy.products_write, Policy.products_select. rewrite Hown. reflexivity.
Qed.

Lemma exec_keeps_foreign_orders (uid : option uuid) (st : statement) (s : db)
      (o : order_row) :
  In o s.(orders) ->
  Policy.orders_update s uid o = false ->
  In o (orders (exec uid st s)).
Proof.
  intros Hin Hown. destruct st; simpl.
  - after_insert insert_user_roles_ok; auto.
  - after_insert insert_supplier_profiles_ok; auto.
  - after_insert insert_vendor_profiles_ok; auto.
  - after_insert insert_suppliers_ok; auto.
  - after_insert insert_products_ok; auto.
  - after_insert insert_orders_ok; auto. apply in_app_iff. now left.
  - exact Hin.
  - unfold after, Client.await_unchecked, update_products, bind, require.
    destruct (patch_fits f); exact Hin.
  - unfold after, Client.await_unchecked. rewrite update_orders_status_closed. simpl.
    apply in_map_iff. exists o. split; [|exact Hin].
    unfold orders_hit. rewrite Hown. now rewrite andb_false_r.
  - unfold delete_products, bind, require.
    destruct (negb _); exact Hin.
Qed.

(** No statement changes or removes a row of user_roles, whoever
    sends it: the only update of user_roles cannot be expanded. *)
Lemma exec_roles_stay (uid : option uuid) (st : statement) (s : db) (r : user_role_row) :
  In r s.(user_roles) ->
  In r (user_roles (exec uid st s)).
Proof.
  intros Hin. destruct st; simpl.
  - destruct (insert_user_roles_roles uid p s) as [E|(row & _ & E & _)]; rewrite E.
    + exact Hin.
    + apply in_app_iff. now left.
  - now rewrite insert_supplier_profiles_roles.
  - now rewrite insert_vendor_profiles_roles.
  - now rewrite insert_suppliers_roles.
  - now rewrite insert_products_roles.
  - now rewrite insert_orders_roles.
  - exact Hin.
  - unfold after, Client.await_unchecked, update_products, bind, require.
    destruct (patch_fits f); exact Hin.
  - now rewrite update_orders_status_roles.
  - unfold delete_products, bind, require.
    destruct (negb _); exact Hin.
Qed.

Lemma exec_keeps_roles (uid : option uuid) (st : statement) (s : db) (r : user_role_row) :
  In r s.(user_roles) ->
  Policy.has_superadmin_role s uid = false ->
  In r (user_roles (exec uid st s)).
Proof.
  intros Hin _. now apply exec_roles_stay.
Qed.

(** X4.  Isolation of writes, for every statement a caller can send:
    a product of a suppliers row the caller does not own, an order
    the caller neither placed nor supplies, and (unless the caller is
    a superadmin) every RoleAssignment are still there, unchanged,
    after the statement. *)
Theorem foreign_rows_untouched :
  forall (uid : option uuid) (st : statement) (s : db),
    (forall p, In p s.(products) ->
               Policy.owns_supplier s uid p.(p_supplier_id) = false ->
               In p (products (exec uid st s)))
    /\ (forall o, In o s.(orders) ->
                  Policy.orders_update s uid o = false ->
                  In o (orders (exec uid st s)))
    /\ (forall r, In r s.(user_roles) ->
                  Policy.has_superadmin_role s uid = false ->
                  In r (user_roles (exec uid st s))).
Proof.
  intros uid st s. split; [|split].
  - intros p. apply exec_keeps_foreign_products.
  - intros o. apply exec_keeps_foreign_orders.
  - intros r. apply exec_keeps_roles.
Qed.

(** The vendor (account 2) tries to delete the supplier's product,
    the account without a role (4) to cancel the vendor's order, and
    the supplier (account 1) to approve itself. *)
Lemma foreign_rows_untouched_witness :
  In Sample.rice (products (exec (Some 2) (DeleteProduct 6) (Sample.market "pending")))
  /\ In (Sample.order_in "pending")
        (orders (exec (Some 4) (UpdateOrderStatus 7 "cancelled") (Sample.market "pending")))
  /\ In Sample.supplier_role
        (user_roles (exec (Some 1) (UpdateApproval 1 "approved") (Sample.market "pending"))).
Proof.
  split; [|split].
  - apply (foreign_rows_untouched (Some 2) (DeleteProduct 6) (Sample.market "pending"));
      [simpl; auto|reflexivity].
  - apply (foreign_rows_untouched (Some 4) (UpdateOrderStatus 7 "cancelled")
             (Sample.market "pending")); [simpl; auto|reflexivity].
  - apply (foreign_rows_untouched (Some 1) (UpdateApproval 1 "approved")
             (Sample.market "pending")); [simpl; auto|reflexivity].
Defined.

Lemma effect_append_only (s s' : db) :
  effect s s' ->
  (forall x, In x s.(supplier_profiles) -> In x s'.(supplier_profiles))
  /\ (forall x, In x s.(vendor_profiles) -> In x s'.(vendor_profiles))
  /\ (forall x, In x s.(suppliers) -> In x s'.(suppliers)).
Proof.
  intros He. destruct He; simpl; repeat split; intros x Hx;
    try (apply in_app_iff; left); exact Hx.
Qed.

(** X5.  Profiles and suppliers rows are append-only: no statement
    the client sends, by any caller, changes or removes a supplier
    profile, a vendor profile or a suppliers row, in any
    interleaving. *)
Theorem profiles_and_suppliers_append_only :
  forall (tr : list (option uuid * statement)) (s : db),
    (forall x, In x s.(supplier_profiles) -> In x (supplier_profiles (run tr s)))
    /\ (forall x, In x s.(vendor_profiles) -> In x (vendor_profiles (run tr s)))
    /\ (forall x, In x s.(suppliers) -> In x (suppliers (run tr s))).
Proof.
  intros tr. induction tr as [|[uid st] tr IH]; intros s; simpl; [auto|].
  destruct (effect_append_only (exec_effect uid st s)) as (H1 & H2 & H3).
  destruct (IH (exec uid st s)) as (I1 & I2 & I3).
  repeat split; auto.
Qed.

End Isolation.

(** ** Lazy provisioning in reachable states *)

Section ReachableStates.

Import Stmt Trace.

Lemma ensure_writes_nothing (user : option uuid) (s : db) :
  profiles_have_suppliers s ->
  suppliers_unique s ->
  fst (Client.ensureSupplierRecord user s) = s.
Proof.
  intros Hinv Huniq. unfold Client.ensureSupplierRecord.
  destruct user as [u|]; [|reflexivity].
  rewrite select_suppliers_by_account.
  destruct (in_dec Nat.eq_dec u (map s_user_id s.(suppliers))) as [Hin|Hout].
  - apply in_map_iff in Hin. destruct Hin as (row & <- & Hrow).
    now rewrite filter_key_unique.
  - rewrite filter_key_absent by assumption. simpl.
    rewrite select_own_profile, filter_none; [reflexivity|].
    intros p Hp. apply Nat.eqb_neq. intros E. apply Hout.
    rewrite <- E. now apply Hinv.
Qed.

(** X6.  In every database the client's statements can build from
    an empty one, [ensureSupplierRecord] writes nothing: the trigger
    has already made the suppliers row of every account with a
    profile, so the call finds the row or returns null. *)
Theorem ensure_writes_nothing_when_reachable :
  forall (tr : list (option uuid * statement)) (user : option uuid),
    fst (Client.ensureSupplierRecord user (run tr empty_db)) = run tr empty_db.
Proof.
  intros tr user. apply ensure_writes_nothing.
  - apply (@run_effects profiles_have_suppliers effect_profiles_have_suppliers).
    intros p [].
  - apply run_suppliers_unique. constructor.
Qed.

End ReachableStates.

(** ** What the hook reads back *)

Section HookReads.

Import Stmt Client UseAuth.

(** The read of the role is answered with an error whoever asks, so
    the hook keeps what it held and shows the error message. *)
Lemma fetchUserData_throws (session : option uuid) (userId : uuid) (st : auth_state)
      (s : db) :
  fetchUserData session userId st s
  = {| userRole := st.(userRole); userProfile := st.(userProfile);
       errorMsg := Some fetch_failed |}.
Proof.
  unfold fetchUserData. now rewrite select_user_roles_recursion.
Qed.

(** X7.  The hook never learns a role.  Whoever is signed in and
    whatever the tables hold, [fetchUserData] leaves the role and the
    profile the hook held and sets the error message: its first read,
    of user_roles, is answered with the recursion error.  A hook that
    starts without a role therefore stays without one, and its
    [isApproved] is true, also for a supplier whose RoleAssignment is
    pending or rejected. *)
Theorem fetchUserData_never_sets_the_role :
  forall (session : option uuid) (userId : uuid) (st : auth_state) (s : db),
    fetchUserData session userId st s
    = {| userRole := st.(userRole); userProfile := st.(userProfile);
         errorMsg := Some fetch_failed |}
    /\ userRole (fetchUserData session userId signed_out s) = None
    /\ isApproved (userRole (fetchUserData session userId signed_out s)) = true.
Proof.
  intros session userId st s. split; [apply fetchUserData_throws|].
  now rewrite fetchUserData_throws.
Qed.

(** X8.  [fetchUserData] fails closed: without a session, for an
    account without a RoleAssignment, or for another account read by
    a caller who is not a superadmin, it sets the error message and
    leaves the role and profile it held. *)
Theorem fetchUserData_fails_closed :
  forall (session : option uuid) (userId : uuid) (st : auth_state) (s : db),
    session = None
    \/ ~ In userId (map ur_user_id s.(user_roles))
    \/ (session <> Some userId /\ Policy.has_superadmin_role s session = false) ->
    fetchUserData session userId st s
    = {| userRole := st.(userRole); userProfile := st.(userProfile);
         errorMsg := Some fetch_failed |}.
Proof.
  intros session userId st s _. apply fetchUserData_throws.
Qed.

Lemma fetchUserData_fails_closed_witness :
  fetchUserData (Some 2) 1 signed_out (Sample.market "pending")
  = {| userRole := None; userProfile := None; errorMsg := Some fetch_failed |}.
Proof.
  apply (@fetchUserData_fails_closed (Some 2) 1 signed_out (Sample.market "pending")).
  right. right. split; [discriminate|reflexivity].
Defined.

End HookReads.

(** ** Sign-up, then the first read *)

Section SignUpThenRead.

Import Stmt Client UseAuth.

Lemma filter_key_snoc_eq (A : Type) (key : A -> nat) (x : A) (k : nat) (l : list A) :
  key x = k ->
  ~ In k (map key l) ->
  filter (fun r => Nat.eqb (key r) k) (l ++ [x]) = [x].
Proof.
  intros <- H. now apply filter_key_snoc_new.
Qed.

Lemma insert_supplier_profiles_fresh (u : uuid) (p : supplier_profile_payload) (n : text)
      (s : db) :
  p.(spp_user_id) = Some u ->
  p.(spp_business_name) = Some n ->
  ~ In u (map sp_user_id s.(supplier_profiles)) ->
  ~ In u (map s_user_id s.(suppliers)) ->
  insert_supplier_profiles (Some u) p s
  = Ok (Reads.stored_profile s.(next_uuid) u p,
        add_supplier
          (Reads.trigger_supplier (S s.(next_uuid)) u n p.(spp_contact_number))
          (add_supplier_profile (Reads.stored_profile s.(next_uuid) u p) s)).
Proof.
  intros Hu Hn Hprof Hsup.
  unfold insert_supplier_profiles, Policy.supplier_profiles_insert_check.
  rewrite Hu. simpl. rewrite Nat.eqb_refl. simpl.
  assert (E1 : existsb (fun r => Nat.eqb r.(sp_user_id) u) s.(supplier_profiles) = false)
    by now apply existsb_key_false.
  rewrite E1. simpl.
  fold (Reads.stored_profile s.(next_uuid) u p).
  unfold create_supplier_for_user.
  rewrite (@trigger_sees_new_profile (Reads.stored_profile s.(next_uuid) u p) s u
             eq_refl Hprof).
  simpl. rewrite Hn. simpl.
  unfold insert_suppliers, Policy.suppliers_insert_check. simpl.
  rewrite Nat.eqb_refl. simpl.
  assert (E2 : existsb (fun r => Nat.eqb r.(s_user_id) u) s.(suppliers) = false)
    by now apply existsb_key_false.
  rewrite E2. reflexivity.
Qed.

Lemma insert_role_fresh (u : uuid) (role status : text) (s : db) :
  role_check role = true ->
  approval_status_check status = true ->
  ~ In u (map ur_user_id s.(user_roles)) ->
  insert_user_roles (Some u)
    {| urp_user_id := Some u; urp_role := Some role; urp_approval_status := Some status |} s
  = Ok ({| ur_id := s.(next_uuid); ur_user_id := u; ur_role := role;
           ur_approval_status := status |},
        add_user_role {| ur_id := s.(next_uuid); ur_user_id := u; ur_role := role;
                         ur_approval_status := status |} s).
Proof.
  intros Hr Ha Hnew.
  unfold insert_user_roles, Policy.user_roles_insert_check. simpl.
  rewrite Nat.eqb_refl. simpl. rewrite Hr, Ha. simpl.
  assert (E : existsb (fun r => Nat.eqb r.(ur_user_id) u) s.(user_roles) = false)
    by now apply existsb_key_false.
  now rewrite E.
Qed.

Lemma await_ok (A : Type) (a : A) (s s' : db) : await_unchecked (Ok (a, s')) s = s'.
Proof. reflexivity. Qed.

Lemma await_err (A : Type) (e : db_error) (s : db) :
  await_unchecked (A := A) (Err e) s = s.
Proof. reflexivity. Qed.

(** The state a supplier's sign-up leaves, for a new account. *)
Lemma supplier_sign_up_state (session : option uuid) (email : string)
      (userData : user_data) (user : uuid) (n : text) (s : db) :
  isHardcodedSuperadmin email = false ->
  userData.(ud_role) = Some "supplier" ->
  userData.(ud_business_name) = Some n ->
  ~ In user (map ur_user_id s.(user_roles)) ->
  ~ In user (map sp_user_id s.(supplier_profiles)) ->
  ~ In user (map s_user_id s.(suppliers)) ->
  fst (signUp session email userData (SignedUp user) s)
  = add_supplier
      (Reads.trigger_supplier (S (S s.(next_uuid))) user n userData.(ud_contact_number))
      (add_supplier_profile
         (Reads.stored_profile (S s.(next_uuid)) user (profile_payload userData user))
         (add_user_role {| ur_id := s.(next_uuid); ur_user_id := user;
                           ur_role := "supplier"; ur_approval_status := "pending" |} s)).
Proof.
  intros Hhard Hrole Hname Hr Hp Hs.
  rewrite signUp_provisions. cbn [fst].
  unfold provision, role_payload, finalRole. rewrite Hhard, Hrole.
  change (is_text (Some "supplier") "supplier") with true.
  cbv iota. change (true && negb false) with true. cbv iota.
  rewrite insert_role_fresh by (reflexivity || assumption).
  rewrite !await_ok.
  set (s1 := add_user_role _ s).
  assert (E2 := @insert_supplier_profiles_fresh user (profile_payload userData user) n s1
                  eq_refl Hname Hp Hs).
  rewrite E2, !await_ok.
  rewrite (@backward_compat_insert_collides userData user s1 _ _ E2), await_err.
  reflexivity.
Qed.

(** X9.  Sign-up and first read of a supplier.  For a new account
    that signs up as a supplier with a business name, the sign-up
    leaves the pending role, the profile with the form's fields, and
    the suppliers row the trigger made (the explicit suppliers insert
    collides with it, so the row has no address).  The
    [fetchUserData] that follows does not get to see any of it: the
    hook keeps the role and profile it held and shows the error
    message.  [ensureSupplierRecord] finds the trigger's row, without
    writing. *)
Theorem supplier_sign_up_then_read :
  forall (session : option uuid) (email : string) (userData : user_data) (user : uuid)
         (n : text) (st : auth_state) (s : db),
    isHardcodedSuperadmin email = false ->
    userData.(ud_role) = Some "supplier" ->
    userData.(ud_business_name) = Some n ->
    ~ In user (map ur_user_id s.(user_roles)) ->
    ~ In user (map sp_user_id s.(supplier_profiles)) ->
    ~ In user (map s_user_id s.(suppliers)) ->
    signUp session email userData (SignedUp user) s
    = (add_supplier
         (Reads.trigger_supplier (S (S s.(next_uuid))) user n userData.(ud_contact_number))
         (add_supplier_profile
            (Reads.stored_profile (S s.(next_uuid)) user (profile_payload userData user))
            (add_user_role {| ur_id := s.(next_uuid); ur_user_id := user;
                              ur_role := "supplier"; ur_approval_status := "pending" |}
                           s)),
       NoError)
    /\ fetchUserData (Some user) user st
         (fst (signUp session email userData (SignedUp user) s))
       = {| userRole := st.(userRole); userProfile := st.(userProfile);
            errorMsg := Some fetch_failed |}
    /\ ensureSupplierRecord (Some user)
         (fst (signUp session email userData (SignedUp user) s))
       = (fst (signUp session email userData (SignedUp user) s),
          Some (S (S s.(next_uuid)))).
Proof.
  intros session email userData user n st s Hhard Hrole Hname Hr Hp Hs.
  pose proof (@supplier_sign_up_state session email userData user n s
                Hhard Hrole Hname Hr Hp Hs) as Hstate.
  split; [|split].
  - rewrite <- Hstate. now rewrite signUp_provisions.
  - apply fetchUserData_throws.
  - rewrite Hstate. unfold ensureSupplierRecord.
    rewrite select_suppliers_by_account. simpl.
    rewrite filter_key_snoc_eq by (reflexivity || assumption). reflexivity.
Qed.

Lemma supplier_sign_up_then_read_witness :
  signUp None "a.supplier@example.org" Sample.acme_form (SignedUp 1) empty_db
  = (add_supplier
       (Reads.trigger_supplier 2 1 "Acme" (Some "+1234567890"))
       (add_supplier_profile
          (Reads.stored_profile 1 1 (profile_payload Sample.acme_form 1))
          (add_user_role {| ur_id := 0; ur_user_id := 1;
                            ur_role := "supplier"; ur_approval_status := "pending" |}
                         empty_db)),
     NoError)
  /\ fetchUserData (Some 1) 1 signed_out
       (fst (signUp None "a.supplier@example.org" Sample.acme_form (SignedUp 1) empty_db))
     = {| userRole := None; userProfile := None; errorMsg := Some fetch_failed |}
  /\ ensureSupplierRecord (Some 1)
       (fst (signUp None "a.supplier@example.org" Sample.acme_form (SignedUp 1) empty_db))
     = (fst (signUp None "a.supplier@example.org" Sample.acme_form (SignedUp 1) empty_db),
        Some 2).
Proof.
  apply (@supplier_sign_up_then_read None "a.supplier@example.org" Sample.acme_form 1
           "Acme" signed_out empty_db);
    try reflexivity; simpl; intros [].
Defined.

End SignUpThenRead.

(** ** Sign-up of a vendor, and of a supplier without a business name *)

Section SignUpEdges.

Import Stmt Client UseAuth.

Lemma insert_vendor_profiles_new (u : uuid) (p : vendor_profile_payload) (s : db) :
  p.(vpp_user_id) = Some u ->
  ~ In u (map vp_user_id s.(vendor_profiles)) ->
  insert_vendor_profiles (Some u) p s
  = Ok ({| vp_id := s.(next_uuid); vp_user_id := u;
           vp_full_name := p.(vpp_full_name);
           vp_company_name := p.(vpp_company_name);
           vp_contact_number := p.(vpp_contact_number);
           vp_avatar_url := p.(vpp_avatar_url) |},
        add_vendor_profile
          {| vp_id := s.(next_uuid); vp_user_id := u;
             vp_full_name := p.(vpp_full_name);
             vp_company_name := p.(vpp_company_name);
             vp_contact_number := p.(vpp_contact_number);
             vp_avatar_url := p.(vpp_avatar_url) |} s).
Proof.
  intros Hu Hnew.
  unfold insert_vendor_profiles, Policy.vendor_profiles_insert_check.
  rewrite Hu. simpl. rewrite Nat.eqb_refl. simpl.
  assert (E : existsb (fun r => Nat.eqb r.(vp_user_id) u) s.(vendor_profiles) = false)
    by now apply existsb_key_false.
  now rewrite E.
Qed.

(** X10.  Sign-up and first read of a vendor.  For a new account
    that signs up as a vendor, the sign-up writes the role, already
    approved, and the vendor profile with the form's fields, and
    nothing else.  The [fetchUserData] that follows does not get to
    see them: the hook keeps the role and profile it held and shows
    the error message. *)
Theorem vendor_sign_up_then_read :
  forall (session : option uuid) (email : string) (userData : user_data) (user : uuid)
         (st : auth_state) (s : db),
    isHardcodedSuperadmin email = false ->
    userData.(ud_role) = Some "vendor" ->
    ~ In user (map ur_user_id s.(user_roles)) ->
    ~ In user (map vp_user_id s.(vendor_profiles)) ->
    signUp session email userData (SignedUp user) s
    = (add_vendor_profile
         {| vp_id := S s.(next_uuid); vp_user_id := user;
            vp_full_name := userData.(ud_full_name);
            vp_company_name := userData.(ud_company_name);
            vp_contact_number := userData.(ud_contact_number);
            vp_avatar_url := userData.(ud_avatar_url) |}
         (add_user_role {| ur_id := s.(next_uuid); ur_user_id := user;
                           ur_role := "vendor"; ur_approval_status := "approved" |} s),
       NoError)
    /\ fetchUserData (Some user) user st
         (fst (signUp session email userData (SignedUp user) s))
       = {| userRole := st.(userRole); userProfile := st.(userProfile);
            errorMsg := Some fetch_failed |}.
Proof.
  intros session email userData user st s Hhard Hrole Hr Hv.
  split; [|apply fetchUserData_throws].
  rewrite signUp_provisions. f_equal.
  unfold provision, role_payload, finalRole. rewrite Hhard, Hrole.
  change (is_text (Some "vendor") "supplier") with false.
  change (is_text (Some "vendor") "vendor") with true.
  cbv iota. change (false && negb false) with false. cbv iota.
  rewrite insert_role_fresh by (reflexivity || assumption).
  rewrite !await_ok.
  rewrite insert_vendor_profiles_new by (reflexivity || assumption).
  rewrite await_ok. reflexivity.
Qed.

Lemma vendor_sign_up_then_read_witness :
  signUp None "b.vendor@example.org"
    {| ud_id := None; ud_role := Some "vendor";
       ud_full_name := Some "B. Vendor"; ud_business_name := None;
       ud_business_type := None; ud_business_address := None;
       ud_contact_number := None; ud_fssai_license := None;
       ud_other_certifications := None; ud_avatar_url := None;
       ud_company_name := Some "Bazaar" |}
    (SignedUp 2) empty_db
  = (add_vendor_profile
       {| vp_id := 1; vp_user_id := 2; vp_full_name := Some "B. Vendor";
          vp_company_name := Some "Bazaar"; vp_contact_number := None;
          vp_avatar_url := None |}
       (add_user_role {| ur_id := 0; ur_user_id := 2;
                         ur_role := "vendor"; ur_approval_status := "approved" |}
                      empty_db),
     NoError)
  /\ fetchUserData (Some 2) 2 signed_out
       (fst (signUp None "b.vendor@example.org"
               {| ud_id := None; ud_role := Some "vendor";
                  ud_full_name := Some "B. Vendor"; ud_business_name := None;
                  ud_business_type := None; ud_business_address := None;
                  ud_contact_number := None; ud_fssai_license := None;
                  ud_other_certifications := None; ud_avatar_url := None;
                  ud_company_name := Some "Bazaar" |}
               (SignedUp 2) empty_db))
     = {| userRole := None; userProfile := None; errorMsg := Some fetch_failed |}.
Proof.
  apply (@vendor_sign_up_then_read None "b.vendor@example.org"
           {| ud_id := None; ud_role := Some "vendor";
              ud_full_name := Some "B. Vendor"; ud_business_name := None;
              ud_business_type := None; ud_business_address := None;
              ud_contact_number := None; ud_fssai_license := None;
              ud_other_certifications := None; ud_avatar_url := None;
              ud_company_name := Some "Bazaar" |}
           2 signed_out empty_db); try reflexivity; simpl; intros [].
Defined.

Lemma insert_supplier_profiles_nameless (u : uuid) (p : supplier_profile_payload) (s : db) :
  p.(spp_user_id) = Some u ->
  p.(spp_business_name) = None ->
  exists e, insert_supplier_profiles (Some u) p s = Err e.
Proof.
  intros Hu Hn.
  destruct (insert_supplier_profiles (Some u) p s) as [[row s']|e] eqn:E;
    [|now exists e].
  apply insert_supplier_profiles_ok in E.
  destruct E as (sup & _ & _ & _ & Hb & _ & _ & _ & _ & Hname & _).
  rewrite Hb, Hn in Hname. discriminate Hname.
Qed.

(** X11.  A supplier's sign-up without a business name leaves a role
    without a profile.  The role row is written; the profile insert
    fails with its trigger (suppliers.name is not null) and so does
    the explicit suppliers insert; [signUp] still reports no error.
    The [fetchUserData] that follows keeps the role and profile the
    hook held and shows the error message. *)
Theorem nameless_supplier_sign_up :
  forall (session : option uuid) (email : string) (userData : user_data) (user : uuid)
         (st : auth_state) (s : db),
    isHardcodedSuperadmin email = false ->
    userData.(ud_role) = Some "supplier" ->
    userData.(ud_business_name) = None ->
    ~ In user (map ur_user_id s.(user_roles)) ->
    signUp session email userData (SignedUp user) s
    = (add_user_role {| ur_id := s.(next_uuid); ur_user_id := user;
                        ur_role := "supplier"; ur_approval_status := "pending" |} s,
       NoError)
    /\ fetchUserData (Some user) user st
         (fst (signUp session email userData (SignedUp user) s))
       = {| userRole := st.(userRole); userProfile := st.(userProfile);
            errorMsg := Some fetch_failed |}.
Proof.
  intros session email userData user st s Hhard Hrole Hname Hr.
  split; [|apply fetchUserData_throws].
  rewrite signUp_provisions. f_equal.
  unfold provision, role_payload, finalRole. rewrite Hhard, Hrole.
  change (is_text (Some "supplier") "supplier") with true.
  cbv iota. change (true && negb false) with true. cbv iota.
  rewrite insert_role_fresh by (reflexivity || assumption).
  rewrite !await_ok.
  set (s1 := add_user_role _ s).
  destruct (@insert_supplier_profiles_nameless user (profile_payload userData user) s1
              eq_refl Hname) as [e ->].
  rewrite !await_err.
  unfold insert_suppliers, Policy.suppliers_insert_check, backward_compat_payload.
  simpl. rewrite Nat.eqb_refl, Hname. reflexivity.
Qed.

Lemma nameless_supplier_sign_up_witness :
  signUp None "n@example.org"
    {| ud_id := None; ud_role := Some "supplier";
       ud_full_name := Some "N"; ud_business_name := None;
       ud_business_type := None; ud_business_address := None;
       ud_contact_number := None; ud_fssai_license := None;
       ud_other_certifications := None; ud_avatar_url := None;
       ud_company_name := None |}
    (SignedUp 9) empty_db
  = (add_user_role {| ur_id := 0; ur_user_id := 9;
                      ur_role := "supplier"; ur_approval_status := "pending" |} empty_db,
     NoError).
Proof.
  apply (@nameless_supplier_sign_up None "n@example.org"
           {| ud_id := None; ud_role := Some "supplier";
              ud_full_name := Some "N"; ud_business_name := None;
              ud_business_type := None; ud_business_address := None;
              ud_contact_number := None; ud_fssai_license := None;
              ud_other_certifications := None; ud_avatar_url := None;
              ud_company_name := None |}
           9 signed_out empty_db); try reflexivity; simpl; intros [].
Defined.

End SignUpEdges.

(** ** The list of pending suppliers *)

Section PendingList.

Import Stmt Client Trace ApprovalsPage.

Lemma same_key_same_row (A : Type) (key : A -> nat) (l : list A) (x y : A) :
  NoDup (map key l) -> In x l -> In y l -> key x = key y -> x = y.
Proof.
  induction l as [|z l IH]; simpl; intros Hnd Hx Hy E; [destruct Hx|].
  inversion_clear Hnd as [|? ? Hz Hl].
  destruct Hx as [->|Hx], Hy as [->|Hy].
  - reflexivity.
  - exfalso. apply Hz. rewrite E. now apply in_map.
  - exfalso. apply Hz. rewrite <- E. now apply in_map.
  - now apply IH.
Qed.

Lemma run_roles_stay (tr : list (option uuid * statement)) (s : db) (r : user_role_row) :
  In r s.(user_roles) -> In r (user_roles (run tr s)).
Proof.
  revert s. induction tr as [|[uid st] tr IH]; intros s H; simpl; [exact H|].
  apply IH. now apply exec_roles_stay.
Qed.

(** X12.  The list of the Approvals page is empty.  Whoever opens the
    page, a superadmin included, and whatever user_roles holds,
    [fetchPendingSuppliers] hands [setPendingSuppliers] the empty
    list: its read of user_roles is answered with the recursion
    error, [data] is null, and the page takes that for no pending
    supplier.  No pending supplier of the table is ever listed. *)
Theorem fetchPendingSuppliers_lists_nothing :
  forall (session : option uuid) (s : db),
    fetchPendingSuppliers session s = []
    /\ (forall r, In r s.(user_roles) ->
                  ~ In r (map fst (fetchPendingSuppliers session s))).
Proof.
  intros session s.
  assert (H : fetchPendingSuppliers session s = []).
  { unfold fetchPendingSuppliers. now rewrite select_user_roles_recursion. }
  split; [exact H|]. intros r _. rewrite H. intros [].
Qed.

(** The superadmin (account 3) opens the page while the supplier
    (account 1) is pending. *)
Lemma fetchPendingSuppliers_lists_nothing_witness :
  ~ In Sample.supplier_role
       (map fst (fetchPendingSuppliers (Some 3) (Sample.market "pending"))).
Proof.
  destruct (fetchPendingSuppliers_lists_nothing (Some 3) (Sample.market "pending"))
    as [_ H].
  apply H. simpl. auto.
Defined.

(** X13.  A RoleAssignment never changes.  Over every interleaving of
    the statements the client sends, whoever sends them, a row of
    user_roles stays in the table as it is; with one row per account,
    the account's row after the statements is the row it had before.
    So a supplier's approval status stays what the sign-up wrote,
    whatever is clicked on the Approvals page. *)
Theorem role_rows_never_change :
  forall (tr : list (option uuid * statement)) (s : db) (r : user_role_row),
    user_roles_unique s ->
    In r s.(user_roles) ->
    In r (user_roles (run tr s))
    /\ (forall r', In r' (user_roles (run tr s)) ->
                   r'.(ur_user_id) = r.(ur_user_id) -> r' = r).
Proof.
  intros tr s r Huniq Hin.
  pose proof (run_roles_stay tr s r Hin) as Hstay.
  split; [exact Hstay|].
  intros r' Hr' E.
  apply (@same_key_same_row _ ur_user_id (user_roles (run tr s))); try assumption.
  now apply run_roles_unique.
Qed.

(** The superadmin (account 3) approves the pending supplier
    (account 1), who also tries to approve itself. *)
Lemma role_rows_never_change_witness :
  In Sample.supplier_role
     (user_roles (run [ (Some 3, UpdateApproval 1 "approved");
                        (Some 1, UpdateApproval 1 "approved") ]
                      (Sample.market "pending")))
  /\ (forall r',
        In r' (user_roles (run [ (Some 3, UpdateApproval 1 "approved");
                                 (Some 1, UpdateApproval 1 "approved") ]
                               (Sample.market "pending"))) ->
        r'.(ur_user_id) = Sample.supplier_role.(ur_user_id) -> r' = Sample.supplier_role).
Proof.
  apply (@role_rows_never_change
           [ (Some 3, UpdateApproval 1 "approved"); (Some 1, UpdateApproval 1 "approved") ]
           (Sample.market "pending") Sample.supplier_role).
  - unfold user_roles_unique. simpl.
    repeat constructor; simpl; intuition discriminate.
  - simpl. auto.
Defined.

End PendingList.

(** ** The Products page *)

Section Products.

Import Stmt Client ProductsPage.

Lemma select_all_products (uid : option uuid) (s : db) :
  select_products uid (fun _ => true) s = s.(products).
Proof.
  unfold select_products. rewrite <- (filter_true s.(products)) at 2.
  now apply filter_ext.
Qed.

Lemma select_all_suppliers (uid : option uuid) (s : db) :
  select_suppliers uid (fun _ => true) s = s.(suppliers).
Proof.
  unfold select_suppliers. rewrite <- (filter_true s.(suppliers)) at 2.
  now apply filter_ext.
Qed.

(** [ensureSupplierRecord] leaves the database, or adds a suppliers
    row of the caller. *)
Lemma ensure_frame (user : option uuid) (s : db) :
  fst (ensureSupplierRecord user s) = s
  \/ exists row, fst (ensureSupplierRecord user s) = add_supplier row s
                 /\ user = Some row.(s_user_id).
Proof.
  unfold ensureSupplierRecord. destruct user as [u|]; [|now left].
  destruct (single (select_suppliers (Some u) _ s)); [now left|].
  destruct (single (select_supplier_profiles (Some u) _ s)); [|now left].
  destruct (insert_suppliers (Some u) _ s) as [[row s']|e] eqn:E; [|now left].
  apply insert_suppliers_ok in E. destruct E as (-> & Hu & _).
  right. now exists row.
Qed.

Lemma ensure_products (user : option uuid) (s : db) :
  products (fst (ensureSupplierRecord user s)) = products s.
Proof.
  destruct (ensure_frame user s) as [->|(row & -> & _)]; reflexivity.
Qed.

Lemma owns_supplier_grows (s : db) (uid : option uuid) (id : uuid) (row : supplier_row) :
  Policy.owns_supplier s uid id = true ->
  Policy.owns_supplier (add_supplier row s) uid id = true.
Proof.
  unfold Policy.owns_supplier. simpl. intros H.
  rewrite existsb_app. now rewrite H.
Qed.

Lemma ensure_keeps_ownership (user uid : option uuid) (id : uuid) (s : db) :
  Policy.owns_supplier s uid id = true ->
  Policy.owns_supplier (fst (ensureSupplierRecord user s)) uid id = true.
Proof.
  intros H. destruct (ensure_frame user s) as [->|(row & -> & _)];
    [exact H|now apply owns_supplier_grows].
Qed.

(** The record [ensureSupplierRecord] returns is the caller's. *)
Lemma ensure_returns_own (user : option uuid) (s : db) (id : uuid) :
  snd (ensureSupplierRecord user s) = Some id ->
  Policy.owns_supplier (fst (ensureSupplierRecord user s)) user id = true.
Proof.
  unfold ensureSupplierRecord. destruct user as [u|]; [|discriminate].
  destruct (single (select_suppliers (Some u) _ s)) as [found|] eqn:Ef.
  - simpl. intros [= <-].
    assert (Hin : In found (select_suppliers (Some u)
                              (fun r => Nat.eqb r.(s_user_id) u) s)).
    { destruct (select_suppliers (Some u) _ s) as [|x [|y l]]; try discriminate Ef.
      injection Ef as ->. now left. }
    apply filter_In in Hin. destruct Hin as [Hin Hk]. simpl in Hk.
    unfold Policy.owns_supplier. apply existsb_exists. exists found.
    split; [exact Hin|]. simpl. now rewrite Nat.eqb_refl.
  - destruct (single (select_supplier_profiles (Some u) _ s)); [|discriminate].
    destruct (insert_suppliers (Some u) _ s) as [[row s']|e] eqn:E; [|discriminate].
    simpl. intros [= <-].
    apply insert_suppliers_ok in E. destruct E as (-> & Hu & _).
    injection Hu as Hu.
    unfold Policy.owns_supplier. simpl. rewrite existsb_app. simpl.
    rewrite Nat.eqb_refl, <- Hu, Nat.eqb_refl. simpl. apply orb_true_r.
Qed.

Lemma fetchFinalProducts_shows_table (pg : page) (s : db) :
  snd (fetchFinalProducts pg s) = products (fst (fetchFinalProducts pg s))
  /\ products (fst (fetchFinalProducts pg s)) = products s.
Proof.
  unfold fetchFinalProducts. rewrite select_all_products.
  destruct (products s) as [|p l] eqn:E; simpl.
  - now rewrite E.
  - destruct (role_is (userRole pg) "supplier").
    + rewrite ensure_products. now rewrite E.
    + now rewrite E.
Qed.

Lemma fetchProducts_settled (pg : page) (s : db) :
  products s <> [] -> fetchProducts pg s = fetchFinalProducts pg s.
Proof.
  intros H. unfold fetchProducts. rewrite select_all_products.
  destruct (products s); [contradiction|reflexivity].
Qed.

(** X14.  The product list is the whole table.  Whatever the role
    and the status filter, [fetchProducts] hands [setProducts] every
    row of products as the table is when it returns (inactive
    products and products of suppliers awaiting approval included),
    and a table that has products is listed as it is. *)
Theorem fetchProducts_shows_the_table :
  forall (pg : page) (s : db),
    snd (fetchProducts pg s) = products (fst (fetchProducts pg s))
    /\ (products s <> [] -> snd (fetchProducts pg s) = products s).
Proof.
  intros pg s. split.
  - unfold fetchProducts. rewrite select_all_products.
    destruct (products s) as [|p l] eqn:E.
    + cbv zeta. rewrite select_all_products.
      destruct (products (createSampleDataIfNeeded (user pg) s)) as [|q m] eqn:E1.
      * simpl. now rewrite E1.
      * apply fetchFinalProducts_shows_table.
    + apply fetchFinalProducts_shows_table.
  - intros H. rewrite fetchProducts_settled by assumption.
    destruct (fetchFinalProducts_shows_table pg s) as [H1 H2]. congruence.
Qed.

Lemma fetchProducts_shows_the_table_witness :
  snd (fetchProducts {| user := Some 2; userRole := Some Sample.vendor_role;
                        statusFilter := "active" |} (Sample.market "pending"))
  = products (Sample.market "pending").
Proof.
  apply (fetchProducts_shows_the_table
           {| user := Some 2; userRole := Some Sample.vendor_role;
              statusFilter := "active" |} (Sample.market "pending")).
  discriminate.
Defined.

End Products.

(** ** Seeding of sample products *)

Section Seeding.

Import Stmt Client ProductsPage.

Lemma owns_supplier_same_suppliers (s s' : db) (uid : option uuid) (id : uuid) :
  suppliers s' = suppliers s ->
  Policy.owns_supplier s' uid id = Policy.owns_supplier s uid id.
Proof.
  intros H. unfold Policy.owns_supplier. now rewrite H.
Qed.

Lemma owned_supplier_exists (s : db) (uid : option uuid) (id : uuid) :
  Policy.owns_supplier s uid id = true ->
  existsb (fun r => Nat.eqb r.(s_id) id) s.(suppliers) = true.
Proof.
  unfold Policy.owns_supplier. intros H.
  apply existsb_exists in H. destruct H as (r & Hr & Hc).
  apply andb_prop in Hc. destruct Hc as [Hid _].
  apply existsb_exists. now exists r.
Qed.

Lemma insert_products_many_ok (uid : option uuid) (ps : list product_payload) :
  forall (s s' : db) (rows : list product_row),
    Reads.insert_products_many uid ps s = Ok (rows, s') ->
    products s' = products s ++ rows
    /\ suppliers s' = suppliers s
    /\ user_roles s' = user_roles s
    /\ orders s' = orders s
    /\ map (fun r => Some r.(p_name)) rows = map pp_name ps
    /\ map (fun r => Some r.(p_supplier_id)) rows = map pp_supplier_id ps
    /\ (forall r, In r rows -> Policy.owns_supplier s uid r.(p_supplier_id) = true).
Proof.
  induction ps as [|p ps IH]; intros s s' rows H; simpl in H.
  - injection H as <- <-. rewrite app_nil_r. repeat split. intros r [].
  - bind_inv H. injection H as <- <-.
    destruct a as [row s1]. destruct a0 as [rest s2]. simpl in *.
    apply insert_products_checked in Hres.
    destruct Hres as (-> & Hsup & Hname & _ & _ & Hown & _).
    apply IH in Hres0. simpl in Hres0.
    destruct Hres0 as (Hp & Hs & Hr & Ho & Hn & Hsi & Hall).
    rewrite Hp, Hs, Hr, Ho, Hn, Hsi, Hname, Hsup, <- app_assoc. simpl.
    repeat split. intros r [<-|Hin]; [exact Hown|].
    rewrite <- (@owns_supplier_same_suppliers s (add_product row s)) by reflexivity.
    now apply Hall.
Qed.

Lemma insert_products_many_owned (uid : option uuid) (id : uuid)
      (ps : list product_payload) :
  (forall p, In p ps -> p.(pp_supplier_id) = Some id /\ p.(pp_name) <> None
                        /\ product_fits p = true) ->
  forall s, Policy.owns_supplier s uid id = true ->
            exists rows s', Reads.insert_products_many uid ps s = Ok (rows, s').
Proof.
  induction ps as [|p ps IH]; intros Hps s Hown; simpl.
  - now exists [], s.
  - destruct (Hps p (or_introl eq_refl)) as (Hid & Hname & Hfits).
    unfold insert_products at 1. rewrite Hfits, Hid. simpl. rewrite Hown. simpl.
    destruct p.(pp_name) as [n|]; [|contradiction]. simpl.
    rewrite (owned_supplier_exists _ _ _ Hown). simpl.
    match goal with
    | |- context [Reads.insert_products_many uid ps ?s1] =>
        destruct (IH (fun q Hq => Hps q (or_intror Hq)) s1) as (rows & s' & E);
        [exact Hown|rewrite E]
    end.
    simpl. eauto.
Qed.

Lemma sample_products_well_formed (id : uuid) :
  forall p, In p (sampleProducts id) -> p.(pp_supplier_id) = Some id /\ p.(pp_name) <> None
                                        /\ product_fits p = true.
Proof.
  intros p [<-|[<-|[<-|[]]]]; simpl; repeat split; discriminate.
Qed.

(** X15.  Seeding stays within the caller's account.  Without a
    session [createSampleDataIfNeeded] writes nothing; when the first
    suppliers row is not the caller's, the sample products are
    refused and nothing is written; and every product it adds is
    under a suppliers row the caller owns.  Roles and orders are
    never touched. *)
Theorem seeding_stays_in_own_account :
  forall (session : option uuid) (s : db),
    (session = None -> createSampleDataIfNeeded session s = s)
    /\ (forall sup rest,
          s.(suppliers) = sup :: rest ->
          Policy.owns_supplier s session sup.(s_id) = false ->
          createSampleDataIfNeeded session s = s)
    /\ (forall p, In p (products (createSampleDataIfNeeded session s)) ->
                  In p (products s)
                  \/ Policy.owns_supplier (createSampleDataIfNeeded session s) session
                       p.(p_supplier_id) = true)
    /\ user_roles (createSampleDataIfNeeded session s) = user_roles s
    /\ orders (createSampleDataIfNeeded session s) = orders s.
Proof.
  intros session s. split; [|split; [|split]].
  - intros ->. reflexivity.
  - intros sup rest Hs Hown. unfold createSampleDataIfNeeded.
    destruct session as [u|]; [|reflexivity].
    unfold first_supplier. rewrite select_all_suppliers, Hs.
    simpl. unfold insert_products. simpl. now rewrite Hown.
  - intros p Hp. unfold createSampleDataIfNeeded in *.
    destruct session as [u|]; [|now left].
    destruct (first_supplier (Some u) s) as [id|].
    + destruct (Reads.insert_products_many (Some u) (sampleProducts id) s)
        as [[rows s']|e] eqn:E; [|now left].
      apply insert_products_many_ok in E.
      destruct E as (Hprod & Hsup & _ & _ & _ & _ & Hall).
      rewrite Hprod in Hp. apply in_app_iff in Hp. destruct Hp as [Hp|Hp]; [now left|].
      right. erewrite owns_supplier_same_suppliers by exact Hsup. now apply Hall.
    + destruct (insert_suppliers (Some u) (sample_supplier u) s)
        as [[row s1]|e] eqn:E1; [|now left].
      apply insert_suppliers_ok in E1. destruct E1 as (-> & _).
      destruct (Reads.insert_products_many (Some u) (sampleProducts row.(s_id)) _)
        as [[rows s']|e] eqn:E; [|now left].
      apply insert_products_many_ok in E.
      destruct E as (Hprod & Hsup & _ & _ & _ & _ & Hall).
      rewrite Hprod in Hp. apply in_app_iff in Hp. destruct Hp as [Hp|Hp]; [now left|].
      right. erewrite owns_supplier_same_suppliers by exact Hsup. now apply Hall.
  - unfold createSampleDataIfNeeded.
    destruct session as [u|]; [|now split].
    destruct (first_supplier (Some u) s) as [id|].
    + destruct (Reads.insert_products_many (Some u) (sampleProducts id) s)
        as [[rows s']|e] eqn:E; [|now split].
      apply insert_products_many_ok in E. tauto.
    + destruct (insert_suppliers (Some u) (sample_supplier u) s)
        as [[row s1]|e] eqn:E1; [|now split].
      apply insert_suppliers_ok in E1. destruct E1 as (-> & _).
      destruct (Reads.insert_products_many (Some u) (sampleProducts row.(s_id)) _)
        as [[rows s']|e] eqn:E; [|now split].
      apply insert_products_many_ok in E. simpl in E. tauto.
Qed.

(** The vendor (account 2) opens the page on a table without
    products: the first suppliers row is the supplier's, nothing is
    written. *)
Lemma seeding_stays_in_own_account_witness :
  createSampleDataIfNeeded (Some 2) (set_products [] (Sample.market "pending"))
  = set_products [] (Sample.market "pending").
Proof.
  destruct (seeding_stays_in_own_account (Some 2)
              (set_products [] (Sample.market "pending"))) as (_ & H & _).
  apply (H Sample.acme []); reflexivity.
Defined.

(** The state after seeding an empty marketplace. *)
Lemma seed_empty (u : uuid) (s : db) :
  s.(products) = [] ->
  s.(suppliers) = [] ->
  exists rows s',
    createSampleDataIfNeeded (Some u) s = s'
    /\ suppliers s'
       = [ {| s_id := s.(next_uuid); s_user_id := u; s_name := "Sample Supplier Co.";
              s_contact_email := Some "contact@samplesupplier.com";
              s_contact_phone := None;
              s_address := Some "123 Sample Street, Sample City";
              s_logo_url := None; s_website := None; s_status := "active" |} ]
    /\ products s' = rows
    /\ map p_name rows = ["Premium Rice"; "Organic Wheat Flour"; "Fresh Vegetables Mix"]
    /\ map p_supplier_id rows = [s.(next_uuid); s.(next_uuid); s.(next_uuid)].
Proof.
  intros Hprod Hsup. unfold createSampleDataIfNeeded, first_supplier.
  rewrite select_all_suppliers, Hsup.
  assert (Eins : insert_suppliers (Some u) (sample_supplier u) s
                 = Ok ({| s_id := s.(next_uuid); s_user_id := u;
                          s_name := "Sample Supplier Co.";
                          s_contact_email := Some "contact@samplesupplier.com";
                          s_contact_phone := None;
                          s_address := Some "123 Sample Street, Sample City";
                          s_logo_url := None; s_website := None;
                          s_status := "active" |},
                       add_supplier
                         {| s_id := s.(next_uuid); s_user_id := u;
                            s_name := "Sample Supplier Co.";
                            s_contact_email := Some "contact@samplesupplier.com";
                            s_contact_phone := None;
                            s_address := Some "123 Sample Street, Sample City";
                            s_logo_url := None; s_website := None;
                            s_status := "active" |} s)).
  { unfold insert_suppliers, sample_supplier, Policy.suppliers_insert_check. simpl.
    now rewrite Nat.eqb_refl, Hsup. }
  rewrite Eins. cbv beta iota. cbn [s_id].
  match goal with
  | |- context [Reads.insert_products_many ?c ?ps ?s1] =>
      destruct (@insert_products_many_owned c s.(next_uuid) ps
                  (@sample_products_well_formed s.(next_uuid)) s1) as (rows & s' & E)
  end.
  { unfold Policy.owns_supplier. simpl. rewrite existsb_app. simpl.
    rewrite !Nat.eqb_refl. apply orb_true_r. }
  rewrite E. exists rows, s'. split; [reflexivity|].
  apply insert_products_many_ok in E. simpl in E.
  destruct E as (Hp & Hs & _ & _ & Hn & Hsi & _).
  rewrite Hs, Hp, Hprod, Hsup. simpl.
  split; [reflexivity|]. split; [reflexivity|].
  destruct rows as [|r1 [|r2 [|r3 [|r4 rows]]]]; try discriminate Hn.
  simpl in Hn, Hsi. injection Hn as N1 N2 N3. injection Hsi as S1 S2 S3.
  simpl. rewrite N1, N2, N3, S1, S2, S3. split; reflexivity.
Qed.

(** X16.  Seeding of an empty marketplace.  When a signed-in caller
    opens the Products page on a database without suppliers and
    products, the page creates the suppliers row "Sample Supplier
    Co." for the caller and lists the three sample products, all
    under that row. *)
Theorem fetchProducts_seeds_an_empty_marketplace :
  forall (pg : page) (u : uuid) (s : db),
    pg.(user) = Some u ->
    s.(products) = [] ->
    s.(suppliers) = [] ->
    map s_name (suppliers (fst (fetchProducts pg s))) = ["Sample Supplier Co."]
    /\ map s_user_id (suppliers (fst (fetchProducts pg s))) = [u]
    /\ map s_id (suppliers (fst (fetchProducts pg s))) = [s.(next_uuid)]
    /\ map p_name (snd (fetchProducts pg s))
       = ["Premium Rice"; "Organic Wheat Flour"; "Fresh Vegetables Mix"]
    /\ map p_supplier_id (snd (fetchProducts pg s))
       = [s.(next_uuid); s.(next_uuid); s.(next_uuid)].
Proof.
  intros pg u s Hu Hprod Hsup.
  destruct (@seed_empty u s Hprod Hsup) as (rows & s' & Hseed & Hs' & Hp' & Hn & Hsi).
  assert (Hfetch : fetchProducts pg s = fetchFinalProducts pg s').
  { unfold fetchProducts. rewrite select_all_products, Hprod, Hu. cbv zeta.
    rewrite Hseed, select_all_products, Hp'.
    destruct rows; [discriminate Hn|reflexivity]. }
  rewrite Hfetch.
  destruct (fetchFinalProducts_shows_table pg s') as [Hshown Hkept].
  rewrite Hshown, Hkept, Hp', Hn, Hsi.
  assert (Hsupp : suppliers (fst (fetchFinalProducts pg s')) = suppliers s').
  { unfold fetchFinalProducts. rewrite select_all_products, Hp'.
    destruct rows; [reflexivity|]. simpl.
    destruct (role_is (userRole pg) "supplier"); [|reflexivity].
    rewrite Hu. unfold ensureSupplierRecord.
    rewrite select_suppliers_by_account, Hs'. simpl.
    now rewrite Nat.eqb_refl. }
  rewrite Hsupp, Hs'. repeat split.
Qed.

Lemma fetchProducts_seeds_an_empty_marketplace_witness :
  map p_name
    (snd (fetchProducts {| user := Some 5; userRole := None; statusFilter := "all" |}
            empty_db))
  = ["Premium Rice"; "Organic Wheat Flour"; "Fresh Vegetables Mix"].
Proof.
  apply (@fetchProducts_seeds_an_empty_marketplace
           {| user := Some 5; userRole := None; statusFilter := "all" |} 5 empty_db);
    reflexivity.
Defined.

End Seeding.

(** ** Adding, saving and deleting products *)

Section ProductManagement.

Import Stmt Client ProductsPage.

Lemma fetchFinalProducts_state (pg : page) (s : db) :
  fst (fetchFinalProducts pg s) = s
  \/ fst (fetchFinalProducts pg s) = fst (ensureSupplierRecord pg.(user) s).
Proof.
  unfold fetchFinalProducts.
  destruct (select_products (user pg) _ s); [now left|]. simpl.
  destruct (role_is (userRole pg) "supplier"); [now right|now left].
Qed.

(** After a write that leaves products in the table, the closing
    [fetchProducts] lists the table and adds no product. *)
Lemma success_settled (pg : page) (s : db) :
  products s <> [] ->
  products (database (success pg s)) = products s
  /\ refreshed (success pg s) = Some (products s)
  /\ shown (success pg s) = saved
  /\ (forall uid id, Policy.owns_supplier s uid id = true ->
                     Policy.owns_supplier (database (success pg s)) uid id = true).
Proof.
  intros H. unfold success. simpl.
  rewrite fetchProducts_settled by assumption.
  destruct (fetchFinalProducts_shows_table pg s) as [H1 H2].
  rewrite H1, H2. repeat split.
  intros uid id Hown.
  destruct (fetchFinalProducts_state pg s) as [-> | ->];
    [exact Hown|now apply ensure_keeps_ownership].
Qed.

Lemma insert_products_owned (uid : option uuid) (p : product_payload) (id : uuid)
      (n : text) (s : db) :
  product_fits p = true ->
  p.(pp_supplier_id) = Some id ->
  p.(pp_name) = Some n ->
  Policy.owns_supplier s uid id = true ->
  insert_products uid p s
  = Ok (Reads.stored_product s.(next_uuid) n id p,
        add_product (Reads.stored_product s.(next_uuid) n id p) s).
Proof.
  intros Hfits Hid Hn Hown. unfold insert_products. rewrite Hfits, Hid, Hn. simpl.
  rewrite Hown. simpl. rewrite (owned_supplier_exists _ _ _ Hown). reflexivity.
Qed.

(** X17.  Adding a product.  [handleAddProduct] fails, writing no
    product, when no suppliers record can be ensured for the caller,
    and when a number of the form does not fit its column (the price
    in [decimal(10,2)], the two stock levels in [integer]).  Otherwise
    it appends one product with the form's name, under the caller's
    own suppliers record, with the form's SKU or, when that is empty,
    "SKU-" followed by the time in decimal; the refreshed list is the
    table. *)
Theorem handleAddProduct_adds_under_own_record :
  forall (pg : page) (formData : product_patch) (now : nat) (s : db),
    (snd (ensureSupplierRecord pg.(user) s) = None ->
     handleAddProduct pg formData now s = failure (fst (ensureSupplierRecord pg.(user) s))
     /\ products (fst (ensureSupplierRecord pg.(user) s)) = products s)
    /\ (forall id,
          snd (ensureSupplierRecord pg.(user) s) = Some id ->
          patch_fits formData = false ->
          handleAddProduct pg formData now s
          = failure (fst (ensureSupplierRecord pg.(user) s))
          /\ products (fst (ensureSupplierRecord pg.(user) s)) = products s)
    /\ (forall id,
          snd (ensureSupplierRecord pg.(user) s) = Some id ->
          patch_fits formData = true ->
          exists row,
            products (database (handleAddProduct pg formData now s)) = products s ++ [row]
            /\ row.(p_name) = formData.(pt_name)
            /\ row.(p_supplier_id) = id
            /\ row.(p_sku) = Some (if String.eqb formData.(pt_sku) ""
                                   then String.append "SKU-" (decimal now)
                                   else formData.(pt_sku))
            /\ Policy.owns_supplier (database (handleAddProduct pg formData now s))
                 pg.(user) id = true
            /\ shown (handleAddProduct pg formData now s) = saved
            /\ refreshed (handleAddProduct pg formData now s)
               = Some (products s ++ [row])).
Proof.
  intros pg formData now s. split; [|split].
  - intros Hnone. unfold handleAddProduct.
    destruct (ensureSupplierRecord (user pg) s) as [s1 r] eqn:E. simpl in *.
    subst r. split; [reflexivity|].
    change s1 with (fst (s1, @None uuid)). rewrite <- E. apply ensure_products.
  - intros id Hsome Hfits.
    pose proof (ensure_products (user pg) s) as Hprod.
    unfold handleAddProduct.
    destruct (ensureSupplierRecord (user pg) s) as [s1 r] eqn:E. simpl in *.
    subst r. split; [|exact Hprod].
    unfold insert_products, product_fits. cbn [pp_unit_price pp_stock_quantity
      pp_min_stock_level fits].
    unfold patch_fits in Hfits. now rewrite Hfits.
  - intros id Hsome Hfits.
    pose proof (ensure_returns_own (user pg) s Hsome) as Hown.
    pose proof (ensure_products (user pg) s) as Hprod.
    unfold handleAddProduct.
    destruct (ensureSupplierRecord (user pg) s) as [s1 r] eqn:E. simpl in *.
    subst r.
    erewrite insert_products_owned by (reflexivity || exact Hown || exact Hfits).
    match goal with
    | |- context [add_product ?r s1] => set (row := r)
    end.
    assert (Hne : products (add_product row s1) <> []).
    { simpl. intros Habs. apply app_eq_nil in Habs. destruct Habs as [_ Habs].
      discriminate Habs. }
    destruct (@success_settled pg _ Hne) as (H1 & H2 & H3 & H4).
    exists row. rewrite H1, H2, H3. simpl. rewrite Hprod.
    repeat split. apply H4. unfold Policy.owns_supplier. exact Hown.
Qed.

(** The supplier (account 1) adds a product without a SKU at time 42,
    and then tries one priced 100000000.00. *)
Lemma handleAddProduct_adds_under_own_record_witness :
  (exists row,
     products (database
                 (handleAddProduct
                    {| user := Some 1; userRole := Some Sample.supplier_role;
                       statusFilter := "all" |}
                    {| pt_name := "Lentils"; pt_description := "Red lentils";
                       pt_unit_price := 9000; pt_stock_quantity := 10;
                       pt_min_stock_level := 10; pt_status := "active";
                       pt_image_url := ""; pt_sku := "" |}
                    42 (Sample.market "pending")))
     = products (Sample.market "pending") ++ [row]
     /\ row.(p_supplier_id) = 2
     /\ row.(p_sku) = Some "SKU-42")
  /\ handleAddProduct
       {| user := Some 1; userRole := Some Sample.supplier_role; statusFilter := "all" |}
       {| pt_name := "Gold"; pt_description := ""; pt_unit_price := 10000000000;
          pt_stock_quantity := 1; pt_min_stock_level := 1; pt_status := "active";
          pt_image_url := ""; pt_sku := "" |}
       42 (Sample.market "pending")
     = failure (Sample.market "pending").
Proof.
  split.
  - destruct (handleAddProduct_adds_under_own_record
                {| user := Some 1; userRole := Some Sample.supplier_role;
                   statusFilter := "all" |}
                {| pt_name := "Lentils"; pt_description := "Red lentils";
                   pt_unit_price := 9000; pt_stock_quantity := 10;
                   pt_min_stock_level := 10; pt_status := "active";
                   pt_image_url := ""; pt_sku := "" |}
                42 (Sample.market "pending")) as (_ & _ & H).
    destruct (H 2 eq_refl eq_refl) as (row & Hp & _ & Hs & Hk & _).
    exists row. split; [exact Hp|]. split; [exact Hs|]. rewrite Hk.
    vm_compute. reflexivity.
  - destruct (handleAddProduct_adds_under_own_record
                {| user := Some 1; userRole := Some Sample.supplier_role;
                   statusFilter := "all" |}
                {| pt_name := "Gold"; pt_description := ""; pt_unit_price := 10000000000;
                   pt_stock_quantity := 1; pt_min_stock_level := 1; pt_status := "active";
                   pt_image_url := ""; pt_sku := "" |}
                42 (Sample.market "pending")) as (_ & H & _).
    destruct (H 2 eq_refl eq_refl) as [Hfail _]. exact Hfail.
Defined.

(** X18.  Saving a product.  With numbers that fit their columns and
    on a table that has products, [handleUpdateProduct] keeps the id
    and the suppliers record of every product and leaves alone every
    product with another id or under a suppliers record the caller
    does not own; it reports success either way (a save that reaches
    no row is silent), and the refreshed list is the table.  With a
    number that does not fit, the save of a product the caller owns
    fails: the error toast, and the database as it was. *)
Theorem handleUpdateProduct_keeps_identity :
  forall (pg : page) (editing : product_row) (formData : product_patch) (s : db),
    (products s <> [] ->
     patch_fits formData = true ->
     exists o,
       handleUpdateProduct pg (Some editing) formData s = Some o
       /\ map p_id (products (database o)) = map p_id (products s)
       /\ map p_supplier_id (products (database o)) = map p_supplier_id (products s)
       /\ (forall r, In r (products s) ->
                     r.(p_id) <> editing.(p_id)
                     \/ Policy.owns_supplier s pg.(user) r.(p_supplier_id) = false ->
                     In r (products (database o)))
       /\ shown o = saved
       /\ refreshed o = Some (products (database o)))
    /\ (In editing (products s) ->
        Policy.owns_supplier s pg.(user) editing.(p_supplier_id) = true ->
        patch_fits formData = false ->
        handleUpdateProduct pg (Some editing) formData s = Some (failure s)).
Proof.
  intros pg editing formData s. split.
  - intros Hne Hfits.
    unfold handleUpdateProduct, update_products. rewrite Hfits.
    cbn [require bind].
    match goal with
    | |- context [success pg ?s1] => set (s' := s1)
    end.
    assert (Hne' : products s' <> []).
    { unfold s'. simpl. destruct (products s); [contradiction|discriminate]. }
    destruct (@success_settled pg _ Hne') as (H1 & H2 & H3 & _).
    eexists. split; [reflexivity|].
    rewrite H1, H2, H3. unfold s'. simpl.
    split; [now apply map_if_keys|]. split; [now apply map_if_keys|].
    split; [|split; reflexivity].
    intros r Hr Hcond. apply in_map_iff. exists r. split; [|exact Hr].
    destruct Hcond as [Hid|Hown].
    + apply Nat.eqb_neq in Hid. rewrite Hid. now rewrite andb_false_r.
    + unfold Policy.products_write, Policy.products_select. now rewrite Hown.
  - intros _ _ Hfits. unfold handleUpdateProduct, update_products.
    now rewrite Hfits.
Qed.

(** The vendor (account 2) saves the supplier's product: nothing
    changes, and the page reports success.  The supplier (account 1)
    saves it with a stock of 2^31: refused. *)
Lemma handleUpdateProduct_keeps_identity_witness :
  (exists o,
     handleUpdateProduct
       {| user := Some 2; userRole := Some Sample.vendor_role; statusFilter := "all" |}
       (Some Sample.rice)
       {| pt_name := "Free Rice"; pt_description := ""; pt_unit_price := 0;
          pt_stock_quantity := 0; pt_min_stock_level := 0; pt_status := "inactive";
          pt_image_url := ""; pt_sku := "" |}
       (Sample.market "pending") = Some o
     /\ In Sample.rice (products (database o))
     /\ shown o = saved)
  /\ handleUpdateProduct
       {| user := Some 1; userRole := Some Sample.supplier_role; statusFilter := "all" |}
       (Some Sample.rice)
       {| pt_name := "Premium Rice"; pt_description := ""; pt_unit_price := 10000;
          pt_stock_quantity := 2147483648; pt_min_stock_level := 20;
          pt_status := "active"; pt_image_url := ""; pt_sku := "RICE-001" |}
       (Sample.market "pending")
     = Some (failure (Sample.market "pending")).
Proof.
  split.
  - destruct (@handleUpdateProduct_keeps_identity
                {| user := Some 2; userRole := Some Sample.vendor_role;
                   statusFilter := "all" |}
                Sample.rice
                {| pt_name := "Free Rice"; pt_description := ""; pt_unit_price := 0;
                   pt_stock_quantity := 0; pt_min_stock_level := 0;
                   pt_status := "inactive"; pt_image_url := ""; pt_sku := "" |}
                (Sample.market "pending")) as [H _].
    destruct H as (o & Ho & _ & _ & Hkeep & Hshown & _).
    + discriminate.
    + reflexivity.
    + exists o. split; [exact Ho|]. split; [|exact Hshown].
      apply Hkeep; [simpl; auto|]. right. reflexivity.
  - destruct (@handleUpdateProduct_keeps_identity
                {| user := Some 1; userRole := Some Sample.supplier_role;
                   statusFilter := "all" |}
                Sample.rice
                {| pt_name := "Premium Rice"; pt_description := "";
                   pt_unit_price := 10000; pt_stock_quantity := 2147483648;
                   pt_min_stock_level := 20; pt_status := "active";
                   pt_image_url := ""; pt_sku := "RICE-001" |}
                (Sample.market "pending")) as [_ H].
    apply H; [simpl; auto|reflexivity|reflexivity].
Defined.

End ProductManagement.

(** ** Deleting products *)

Section ProductDeletion.

Import Stmt Client ProductsPage.

Lemma existsb_none (A : Type) (f : A -> bool) (l : list A) :
  (forall x, In x l -> f x = false) -> existsb f l = false.
Proof.
  induction l as [|x l IH]; simpl; intros H; [reflexivity|].
  rewrite (H x (or_introl eq_refl)). apply IH. intros y Hy. apply H. now right.
Qed.

(** X19.  A product with orders cannot be deleted: when an order
    points to a product the caller owns, [handleDeleteProduct] is
    refused by the foreign key, shows the error toast, and leaves the
    database as it was. *)
Theorem handleDeleteProduct_refused_when_ordered :
  forall (pg : page) (s : db) (p : product_row) (o : order_row),
    In p s.(products) ->
    Policy.owns_supplier s pg.(user) p.(p_supplier_id) = true ->
    In o s.(orders) ->
    o.(o_product_id) = p.(p_id) ->
    handleDeleteProduct pg true p.(p_id) s = Some (failure s).
Proof.
  intros pg s p o Hp Hown Ho Href.
  assert (E : existsb
                (fun o0 => existsb
                   (fun r =>
                      Policy.products_select s (user pg) r
                      && Policy.products_write s (user pg) (Some (p_supplier_id r))
                      && Nat.eqb (p_id r) (p_id p)
                      && Nat.eqb (p_id r) (o_product_id o0))
                   (products s))
                (orders s) = true).
  { apply existsb_exists. exists o. split; [exact Ho|].
    apply existsb_exists. exists p. split; [exact Hp|].
    unfold Policy.products_write, Policy.products_select.
    now rewrite Hown, Href, Nat.eqb_refl. }
  assert (Hdel : delete_products (user pg) p.(p_id) s
                 = Err (ConstraintError ForeignKeyViolation)).
  { unfold delete_products. now rewrite E. }
  unfold handleDeleteProduct. cbn [negb]. cbv iota. now rewrite Hdel.
Qed.

Lemma handleDeleteProduct_refused_when_ordered_witness :
  handleDeleteProduct
    {| user := Some 1; userRole := Some Sample.supplier_role; statusFilter := "all" |}
    true 6 (Sample.market "pending")
  = Some (failure (Sample.market "pending")).
Proof.
  apply (@handleDeleteProduct_refused_when_ordered
           {| user := Some 1; userRole := Some Sample.supplier_role;
              statusFilter := "all" |}
           (Sample.market "pending") Sample.rice (Sample.order_in "pending"));
    try reflexivity; simpl; auto.
Defined.

(** X20.  Deleting the last product brings the samples back.  When
    the caller deletes the only product of the table (it is theirs
    and no order points to it) and the first suppliers row is theirs
    too, the closing [fetchProducts] finds the table empty and seeds
    it: the handler reports success and the refreshed list holds the
    three sample products. *)
Theorem deleting_the_last_product_reseeds :
  forall (pg : page) (u : uuid) (s : db) (p : product_row) (sup : supplier_row)
         (rest : list supplier_row),
    pg.(user) = Some u ->
    s.(products) = [p] ->
    Policy.owns_supplier s (Some u) p.(p_supplier_id) = true ->
    (forall o, In o s.(orders) -> o.(o_product_id) <> p.(p_id)) ->
    s.(suppliers) = sup :: rest ->
    Policy.owns_supplier s (Some u) sup.(s_id) = true ->
    exists o,
      handleDeleteProduct pg true p.(p_id) s = Some o
      /\ shown o = saved
      /\ refreshed o = Some (products (database o))
      /\ map p_name (products (database o))
         = ["Premium Rice"; "Organic Wheat Flour"; "Fresh Vegetables Mix"]
      /\ map p_supplier_id (products (database o))
         = [sup.(s_id); sup.(s_id); sup.(s_id)].
Proof.
  intros pg u s p sup rest Hu Hprod Hown Hfree Hsup Hfirst.
  assert (Edel : delete_products (user pg) p.(p_id) s = Ok (set_products [] s)).
  { unfold delete_products. rewrite Hu, Hprod. simpl.
    unfold Policy.products_write, Policy.products_select.
    rewrite Hown, Nat.eqb_refl. simpl.
    rewrite existsb_none; [reflexivity|].
    intros o Ho. apply orb_false_iff. split; [|reflexivity].
    apply Nat.eqb_neq. intros E. apply (Hfree o Ho). now rewrite E. }
  unfold handleDeleteProduct. simpl. rewrite Edel.
  eexists. split; [reflexivity|].
  set (s0 := set_products [] s).
  destruct (@insert_products_many_owned (Some u) sup.(s_id) (sampleProducts sup.(s_id))
              (@sample_products_well_formed sup.(s_id)) s0 Hfirst)
    as (rows & s' & E).
  assert (Hseed : createSampleDataIfNeeded (Some u) s0 = s').
  { unfold createSampleDataIfNeeded, first_supplier.
    rewrite select_all_suppliers.
    change (suppliers s0) with (suppliers s). rewrite Hsup. cbv iota.
    now rewrite E. }
  apply insert_products_many_ok in E. simpl in E.
  destruct E as (Hp & _ & _ & _ & Hn & Hsi & _).
  destruct rows as [|r1 [|r2 [|r3 [|r4 rows]]]]; try discriminate Hn.
  simpl in Hn, Hsi. injection Hn as N1 N2 N3. injection Hsi as S1 S2 S3.
  assert (Hfetch : fetchProducts pg s0 = fetchFinalProducts pg s').
  { unfold fetchProducts. rewrite select_all_products.
    change (products s0) with (@nil product_row). cbv iota zeta.
    rewrite Hu, Hseed, select_all_products, Hp. reflexivity. }
  unfold success. simpl. rewrite Hfetch.
  destruct (fetchFinalProducts_shows_table pg s') as [Hshown Hkept].
  rewrite Hshown, Hkept, Hp. simpl.
  rewrite N1, N2, N3, S1, S2, S3.
  repeat split.
Qed.

Lemma deleting_the_last_product_reseeds_witness :
  exists o,
    handleDeleteProduct
      {| user := Some 1; userRole := Some Sample.supplier_role; statusFilter := "all" |}
      true 6 Sample.catalogue = Some o
    /\ map p_name (products (database o))
       = ["Premium Rice"; "Organic Wheat Flour"; "Fresh Vegetables Mix"].
Proof.
  destruct (@deleting_the_last_product_reseeds
              {| user := Some 1; userRole := Some Sample.supplier_role;
                 statusFilter := "all" |}
              1 Sample.catalogue Sample.rice Sample.acme [])
    as (o & Ho & _ & _ & Hn & _); try reflexivity.
  - intros o [].
  - exists o. split; [exact Ho|exact Hn].
Defined.

End ProductDeletion.

(** ** The search box of the Products page *)

Section Search.

Import Client ProductsPage.

Lemma includes_empty (s : string) : includes s "" = true.
Proof. destruct s; reflexivity. Qed.

Lemma prefix_refl (s : string) : String.prefix s s = true.
Proof.
  induction s as [|c s IH]; simpl; [reflexivity|].
  destruct (ascii_dec c c) as [_|H]; [exact IH|contradiction].
Qed.

Lemma includes_refl (s : string) : includes s s = true.
Proof.
  destruct s; simpl; [reflexivity|].
  destruct (ascii_dec a a) as [_|H]; [|contradiction].
  now rewrite prefix_refl.
Qed.

(** X21.  The search box, on ASCII text.  With an empty search term
    every product is listed, null columns or not.  A product whose
    name equals the term up to letter case always matches.  And a
    product whose name does not contain the term and whose
    description is null makes the filter throw, for the whole list. *)
Theorem search_edge_cases :
  forall (products : list product_row),
    filteredProducts "" products = Some products
    /\ (forall term p,
          is_ascii term = true ->
          is_ascii p.(p_name) = true ->
          toLowerCase p.(p_name) = toLowerCase term ->
          matchesSearch term p = Some true)
    /\ (forall term p,
          is_ascii term = true ->
          is_ascii p.(p_name) = true ->
          In p products ->
          includes (toLowerCase p.(p_name)) (toLowerCase term) = false ->
          p.(p_description) = None ->
          filteredProducts term products = None).
Proof.
  intros products. split; [|split].
  - induction products as [|p l IH]; simpl; [reflexivity|].
    unfold matchesSearch. simpl. rewrite includes_empty. now rewrite IH.
  - intros term p _ _ H. unfold matchesSearch. rewrite H. now rewrite includes_refl.
  - intros term p _ _ Hin Hname Hdesc.
    induction products as [|q l IH]; simpl; [destruct Hin|].
    destruct Hin as [->|Hin].
    + unfold matchesSearch. now rewrite Hname, Hdesc.
    + destruct (matchesSearch term q); [|reflexivity].
      now rewrite (IH Hin).
Qed.

Lemma search_edge_cases_witness :
  matchesSearch "PREMIUM rice" Sample.rice = Some true
  /\ filteredProducts "flour" [Sample.rice] = None.
Proof.
  destruct (search_edge_cases [Sample.rice]) as (_ & Hmatch & Hthrow).
  split.
  - apply Hmatch; reflexivity.
  - apply (Hthrow "flour" Sample.rice);
      [reflexivity|reflexivity|simpl; auto|reflexivity|reflexivity].
Defined.

End Search.

(** ** utils/sampleData.ts *)

Section SampleSetup.

Import Stmt SampleData.

(** X22.  [setupSampleData] never succeeds.  Whoever calls it, for
    whatever account and database, [createSampleSupplier] throws:
    either the profile insert fails, or it goes through, its trigger
    makes the suppliers row, and the explicit suppliers insert that
    follows collides with it.  No product is ever added; in the
    second case the new profile and its suppliers row stay. *)
Theorem setupSampleData_always_throws :
  forall (session : option uuid) (userId : uuid) (s : db),
    (exists e, snd (setupSampleData session userId s) = Err e)
    /\ products (fst (setupSampleData session userId s)) = products s
    /\ (fst (setupSampleData session userId s) = s
        \/ (session = Some userId
            /\ snd (setupSampleData session userId s)
               = Err (ConstraintError UniqueViolation)
            /\ exists row sup,
                fst (setupSampleData session userId s)
                = add_supplier sup (add_supplier_profile row s)
                /\ row.(sp_user_id) = userId
                /\ sup.(s_user_id) = userId
                /\ sup.(s_name) = "Sample Business")).
Proof.
  intros session userId s. unfold setupSampleData, createSampleSupplier.
  destruct (insert_supplier_profiles session _ s) as [[row s1]|e] eqn:E.
  - pose proof E as E'. apply insert_supplier_profiles_ok in E'.
    destruct E' as (sup & -> & Hsess & Hu & Hb & _ & _ & _ & Hsu & Hn & _).
    simpl in Hu, Hb. injection Hu as Hu. rewrite Hb in Hn. injection Hn as Hn.
    rewrite (@insert_suppliers_duplicate session _ _ userId "Sample Business").
    + simpl. split; [eauto|]. split; [reflexivity|]. right.
      split; [now rewrite Hsess, Hu|]. split; [reflexivity|].
      exists row, sup. repeat split; congruence.
    + now rewrite Hsess, Hu.
    + reflexivity.
    + reflexivity.
    + simpl. rewrite map_app, in_app_iff. right. simpl. left. congruence.
  - simpl. split; [eauto|]. split; [reflexivity|]. now left.
Qed.

End SampleSetup.
